(** * Nexus SEO Intelligence: the scan engine and the credit ledger

    A shallow embedding of [seo_scanner.py] (class [SEOScanner]), of the
    scoring of [services/seo_scanner.py] (class [SmartSEOScanner]) and of
    [ai_service.py] (class [AIService]), with the properties of the scores,
    of URL normalisation, of the page fetch, of the scan as a whole and of
    the credit ledger.

    Conventions of the embedding.
    - A Python [str] is a [string] whose characters are the code points
      below 256; [int] is [Z]; [len] results are [nat]; [float] is the
      kernel's binary64 [float], the same IEEE 754 format CPython uses.
    - A Python dictionary with a fixed set of keys is a record whose fields
      carry the keys' names.
    - Code that talks to Supabase, to the network or to Gemini runs in the
      monad [M]: a state monad over [World] with Python's exceptions.  A
      request to Supabase may fail: the world carries the schedule of the
      failures, so that a statement about every world is a statement about
      every pattern of database failures.
    - Libraries the repository imports but does not own (requests, the HTML
      parser, [urljoin], [json.loads], the Gemini client) and the text of
      the prompt templates are fields of [Env].  [urlparse], [int],
      [round] and the string methods are modelled after CPython. *)

From Stdlib Require Import ZArith List Bool Ascii String Lia.
From Stdlib Require Import Floats.PrimFloat Floats.SpecFloat Floats.FloatOps Uint63.
From stdpp Require Import base gmap strings list pretty.
Import ListNotations.

Set Warnings "-inexact-float,-register-all".
Open Scope string_scope.
Open Scope Z_scope.
Open Scope list_scope.

(* ================================================================== *)
(** ** Python strings *)
(* ================================================================== *)

Module Py.

Definition code (c : ascii) : nat := nat_of_ascii c.

(** [str.isspace] on one character, for code points below 256. *)
Definition isspace (c : ascii) : bool :=
  let n := code c in
  ((9 <=? n) && (n <=? 13))%nat || ((28 <=? n) && (n <=? 32))%nat
  || (n =? 133)%nat || (n =? 160)%nat.

Definition isdigit (c : ascii) : bool :=
  let n := code c in ((48 <=? n) && (n <=? 57))%nat.

(** The characters [str.lower] changes, for code points below 256: the
    ASCII capitals and the Latin-1 capitals, 192 to 222 without 215. *)
Definition isupper (c : ascii) : bool :=
  let n := code c in
  ((65 <=? n) && (n <=? 90))%nat
  || ((192 <=? n) && (n <=? 222) && negb (n =? 215))%nat.

Definition isalpha_ascii (c : ascii) : bool :=
  let n := code c in
  ((65 <=? n) && (n <=? 90))%nat || ((97 <=? n) && (n <=? 122))%nat.

Definition lower_char (c : ascii) : ascii :=
  if isupper c then ascii_of_nat (code c + 32) else c.

(** [s.lower()]. *)
Fixpoint lower (s : string) : string :=
  match s with
  | EmptyString => EmptyString
  | String c s' => String (lower_char c) (lower s')
  end.

Definition is_empty (s : string) : bool :=
  match s with EmptyString => true | _ => false end.

(** Truth value of a [str]. *)
Definition truthy (s : string) : bool := negb (is_empty s).

(** Truth value of an [Optional[str]]: [None] and [''] are false. *)
Definition truthy_opt (o : option string) : bool :=
  match o with Some s => truthy s | None => false end.

(** [s.startswith(p)]. *)
Fixpoint startswith (p s : string) : bool :=
  match p, s with
  | EmptyString, _ => true
  | String a p', String b s' => if Ascii.eqb a b then startswith p' s' else false
  | String _ _, EmptyString => false
  end.

(** [s[n:]]. *)
Fixpoint drop (n : nat) (s : string) : string :=
  match n, s with
  | O, _ => s
  | S n', String _ s' => drop n' s'
  | S _, EmptyString => EmptyString
  end.

(** [sub in s]. *)
Fixpoint contains (sub s : string) : bool :=
  if startswith sub s then true
  else match s with
       | EmptyString => false
       | String _ s' => contains sub s'
       end.

(** [s.replace(old, new, 1)] for a non-empty [old]: the first occurrence
    of [old], scanning from the left, is replaced. *)
Fixpoint replace_first (old new s : string) : string :=
  if startswith old s then new +:+ drop (String.length old) s
  else match s with
       | EmptyString => EmptyString
       | String c s' => String c (replace_first old new s')
       end.

Fixpoint lstrip_by (sp : ascii -> bool) (s : string) : string :=
  match s with
  | EmptyString => EmptyString
  | String c s' => if sp c then lstrip_by sp s' else s
  end.

Fixpoint rstrip_by (sp : ascii -> bool) (s : string) : string :=
  match s with
  | EmptyString => EmptyString
  | String c s' =>
      let r := rstrip_by sp s' in
      if sp c && is_empty r then EmptyString else String c r
  end.

(** [s.strip()]. *)
Definition strip (s : string) : string := rstrip_by isspace (lstrip_by isspace s).

Fixpoint split_go (cur : string) (s : string) : list string :=
  match s with
  | EmptyString => if is_empty cur then [] else [cur]
  | String c s' =>
      if isspace c then
        (if is_empty cur then split_go EmptyString s'
         else cur :: split_go EmptyString s')
      else split_go (cur +:+ String c EmptyString) s'
  end.

(** [s.split()]: the maximal runs of non-whitespace characters. *)
Definition split (s : string) : list string := split_go EmptyString s.

(** [sep.join(l)]. *)
Fixpoint join (sep : string) (l : list string) : string :=
  match l with
  | [] => EmptyString
  | [x] => x
  | x :: l' => x +:+ sep +:+ join sep l'
  end.

(** [len(s.encode('utf-8'))]: code points from 128 to 255 take two bytes. *)
Fixpoint utf8_len (s : string) : nat :=
  match s with
  | EmptyString => O
  | String c s' => ((if (code c <? 128)%nat then 1 else 2) + utf8_len s')%nat
  end.

(** The digits of [int(s)] after the sign: decimal digits, where single
    underscores may separate digits.  [prev] tells whether the previous
    character was a digit. *)
Fixpoint int_digits (acc : Z) (prev : bool) (s : string) : option Z :=
  match s with
  | EmptyString => if prev then Some acc else None
  | String c s' =>
      if isdigit c then int_digits (10 * acc + Z.of_nat (code c - 48)) true s'
      else if Ascii.eqb c "_" then (if prev then int_digits acc false s' else None)
      else None
  end.

(** The white space [int] skips around the digits: the ASCII white space
    of C and the spaces above 127; the separators 28 to 31, which
    [str.strip] removes, are not part of it. *)
Definition isspace_int (c : ascii) : bool :=
  let n := code c in
  ((9 <=? n) && (n <=? 13))%nat || (n =? 32)%nat || (n =? 133)%nat || (n =? 160)%nat.

(** [int(s)] on a string; [None] stands for the [ValueError]. *)
Definition int (s : string) : option Z :=
  match rstrip_by isspace_int (lstrip_by isspace_int s) with
  | String "-" d => option_map Z.opp (int_digits 0 false d)
  | String "+" d => int_digits 0 false d
  | d => int_digits 0 false d
  end.

(** [float(n)] for an [int]; exact below 2^53. *)
Definition float_of_int (z : Z) : float :=
  if z <? 0 then PrimFloat.opp (PrimFloat.of_uint63 (Uint63.of_Z (- z)))
  else PrimFloat.of_uint63 (Uint63.of_Z z).

(** [int(x)] for a [float]: truncation toward zero; [None] stands for the
    exception raised on an infinity or a NaN. *)
Definition int_of_float (f : float) : option Z :=
  match Prim2SF f with
  | S754_zero _ => Some 0
  | S754_finite s m e =>
      let mag := match e with
                 | Z0 => Zpos m
                 | Zpos p => Z.shiftl (Zpos m) (Zpos p)
                 | Zneg p => Z.shiftr (Zpos m) (Zpos p)
                 end in
      Some (if s then - mag else mag)
  | S754_infinity _ | S754_nan => None
  end.

Fixpoint rev_go (acc s : string) : string :=
  match s with
  | EmptyString => acc
  | String c s' => rev_go (String c acc) s'
  end.

(** [s[::-1]]. *)
Definition rev (s : string) : string := rev_go EmptyString s.

(** [s.endswith(p)]. *)
Definition endswith (p s : string) : bool := startswith (rev p) (rev s).

(** [s[:-n]] for a positive [n]. *)
Definition drop_end (n : nat) (s : string) : string := rev (drop n (rev s)).

(** The line feed. *)
Definition LF : ascii := ascii_of_nat 10.

Fixpoint split_lines_go (cur : string) (s : string) : list string :=
  match s with
  | EmptyString => [cur]
  | String c s' =>
      if Ascii.eqb c LF then cur :: split_lines_go EmptyString s'
      else split_lines_go (cur +:+ String c EmptyString) s'
  end.

(** [s.split('\n')]. *)
Definition split_lines (s : string) : list string := split_lines_go EmptyString s.

(** [s.replace('##', '')]. *)
Fixpoint remove_hashes (s : string) : string :=
  match s with
  | EmptyString => EmptyString
  | String c s' =>
      match s' with
      | String c' s'' =>
          if Ascii.eqb c "#" && Ascii.eqb c' "#" then remove_hashes s''
          else String c (remove_hashes s')
      | EmptyString => s
      end
  end.

(** [str(n)] for an [int]. *)
Definition str_of_int (z : Z) : string := pretty z.

End Py.

(* ================================================================== *)
(** ** Analysis results ([seo_scanner.py]) *)
(* ================================================================== *)

(** The dictionary returned by [_extract_metadata]. *)
Record Metadata := {
  title : option string;
  meta_description : option string;
  h1_tags : list string;
  canonical_url : option string;
  robots_meta : option string
}.

(** The dictionary returned by [_analyze_technical]. *)
Record Technical := {
  http_status : Z;
  has_ssl : bool;
  page_size_kb : Z;
  load_time_ms : Z;
  is_mobile_friendly : bool
}.

Record HeadingCounts := {
  h1 : nat; h2 : nat; h3 : nat; h4 : nat; h5 : nat; h6 : nat
}.

(** The dictionary returned by [_analyze_content]. *)
Record Content := {
  word_count : nat;
  heading_counts : HeadingCounts
}.

(** The dictionary returned by [_analyze_images]. *)
Record Images := {
  image_count : nat;
  images_without_alt : nat;
  potentially_large_images : nat
}.

(** The dictionary returned by [_analyze_links]. *)
Record Links := {
  link_count : nat;
  internal_links : nat;
  external_links : nat
}.

(** The dictionary returned by [_identify_issues]. *)
Record Issues := {
  critical_issues : nat;
  high_issues : nat;
  medium_issues : nat;
  low_issues : nat;
  _critical_list : list string;
  _high_list : list string;
  _medium_list : list string;
  _low_list : list string
}.

(** The dictionary returned by [_calculate_scores]. *)
Record Scores := {
  overall_score : Z;
  technical_score : Z;
  content_score : Z;
  performance_score : Z;
  accessibility_score : Z
}.

(** [lst.append(x)] under a condition. *)
Definition append_if (b : bool) (x : string) (l : list string) : list string :=
  if b then (l ++ [x])%list else l.

(** [SEOScanner._identify_issues]: the severity buckets. *)
Definition _identify_issues (metadata : Metadata) (technical : Technical)
    (content : Content) (images : Images) : Issues :=
  let critical := [] in
  let high := [] in
  let medium := [] in
  let low := [] in
  (* Critical issues *)
  let critical := append_if (negb (Py.truthy_opt (title metadata)))
                    "Missing page title" critical in
  let critical := append_if (negb (has_ssl technical))
                    "No HTTPS encryption" critical in
  let critical := append_if (negb (http_status technical =? 200))
                    ("HTTP status: " +:+ Py.str_of_int (http_status technical))
                    critical in
  (* High priority issues *)
  let high := append_if (negb (Py.truthy_opt (meta_description metadata)))
                "Missing meta description" high in
  let high :=
    match h1_tags metadata with
    | [] => (high ++ ["No H1 heading found"])%list
    | l => append_if (1 <? length l)%nat
             ("Multiple H1 tags (" +:+ pretty (length l) +:+ ")") high
    end in
  let high := append_if (word_count content <? 300)%nat
                "Thin content (< 300 words)" high in
  (* Medium priority issues *)
  let medium :=
    append_if (match title metadata with
               | Some s => Py.truthy s && (60 <? String.length s)%nat
               | None => false
               end) "Title tag too long (> 60 chars)" medium in
  let medium :=
    append_if (match meta_description metadata with
               | Some s => Py.truthy s && (160 <? String.length s)%nat
               | None => false
               end) "Meta description too long (> 160 chars)" medium in
  let medium := append_if (3000 <? load_time_ms technical)
                  ("Slow page load (" +:+ Py.str_of_int (load_time_ms technical) +:+ "ms)")
                  medium in
  let medium := append_if (2000 <? page_size_kb technical)
                  ("Large page size (" +:+ Py.str_of_int (page_size_kb technical) +:+ "KB)")
                  medium in
  (* Low priority issues *)
  let low := append_if (0 <? images_without_alt images)%nat
               (pretty (images_without_alt images) +:+ " images missing alt text") low in
  let low := append_if (negb (is_mobile_friendly technical))
               "No viewport meta tag" low in
  {| critical_issues := length critical;
     high_issues := length high;
     medium_issues := length medium;
     low_issues := length low;
     _critical_list := critical;
     _high_list := high;
     _medium_list := medium;
     _low_list := low |}.

(** The record stored under ['issues_detail']. *)
Record IssuesDetail := {
  detail_critical : list string;
  detail_high : list string;
  detail_medium : list string;
  detail_low : list string
}.

(** [SEOScanner._format_issues_detail]. *)
Definition _format_issues_detail (issues : Issues) : IssuesDetail :=
  {| detail_critical := _critical_list issues;
     detail_high := _high_list issues;
     detail_medium := _medium_list issues;
     detail_low := _low_list issues |}.

(** The four blocks of [_calculate_scores], one per category.  Each starts
    from 100 points, subtracts, and ends in [max(0, points)]. *)

Definition calc_technical_score (technical : Technical) : Z :=
  let technical_points := 100 in
  let technical_points :=
    if negb (has_ssl technical) then technical_points - 30 else technical_points in
  let technical_points :=
    if negb (http_status technical =? 200) then technical_points - 25
    else technical_points in
  let technical_points :=
    if 3000 <? load_time_ms technical then technical_points - 15
    else technical_points in
  let technical_points :=
    if negb (is_mobile_friendly technical) then technical_points - 10
    else technical_points in
  Z.max 0 technical_points.

Definition calc_content_score (metadata : Metadata) (content : Content) : Z :=
  let content_points := 100 in
  let content_points :=
    if negb (Py.truthy_opt (title metadata)) then content_points - 25
    else content_points in
  let content_points :=
    if negb (Py.truthy_opt (meta_description metadata)) then content_points - 20
    else content_points in
  let content_points :=
    match h1_tags metadata with
    | [] => content_points - 20
    | l => if (1 <? length l)%nat then content_points - 10 else content_points
    end in
  let content_points :=
    if (word_count content <? 300)%nat then content_points - 25
    else content_points in
  Z.max 0 content_points.

Definition calc_performance_score (technical : Technical) : Z :=
  let perf_points := 100 in
  let load_time := load_time_ms technical in
  let perf_points :=
    if 5000 <? load_time then perf_points - 50
    else if 3000 <? load_time then perf_points - 30
    else if 1000 <? load_time then perf_points - 15
    else perf_points in
  let page_size := page_size_kb technical in
  let perf_points :=
    if 3000 <? page_size then perf_points - 30
    else if 2000 <? page_size then perf_points - 20
    else if 1000 <? page_size then perf_points - 10
    else perf_points in
  Z.max 0 perf_points.

Definition calc_accessibility_score (metadata : Metadata) (images : Images) : Z :=
  let access_points := 100 in
  let access_points :=
    if (0 <? images_without_alt images)%nat
    then access_points - Z.min 40 (Z.of_nat (images_without_alt images) * 5)
    else access_points in
  let access_points :=
    match h1_tags metadata with
    | [] => access_points - 20
    | _ => access_points
    end in
  Z.max 0 access_points.

(** The float expression under [int(...)] in [_calculate_scores]. *)
Definition weighted_sum (technical_score content_score performance_score
    accessibility_score : Z) : float :=
  (Py.float_of_int technical_score * 0.35 +
   Py.float_of_int content_score * 0.35 +
   Py.float_of_int performance_score * 0.20 +
   Py.float_of_int accessibility_score * 0.10)%float.

(** [SEOScanner._calculate_scores].  [issues] is a parameter of the source
    function that its body never reads.  [None] stands for an exception of
    [int(...)]. *)
Definition _calculate_scores (metadata : Metadata) (technical : Technical)
    (content : Content) (images : Images) (issues : Issues) : option Scores :=
  let technical_score := calc_technical_score technical in
  let content_score := calc_content_score metadata content in
  let performance_score := calc_performance_score technical in
  let accessibility_score := calc_accessibility_score metadata images in
  match Py.int_of_float
          (weighted_sum technical_score content_score performance_score
             accessibility_score) with
  | Some overall_score =>
      Some {| overall_score := overall_score;
              technical_score := technical_score;
              content_score := content_score;
              performance_score := performance_score;
              accessibility_score := accessibility_score |}
  | None => None
  end.



(** Auxiliary definitions for the statements about scores. *)

Definition min4 (a b c d : Z) : Z := Z.min (Z.min a b) (Z.min c d).
Definition max4 (a b c d : Z) : Z := Z.max (Z.max a b) (Z.max c d).

(** The check run on one tuple of category scores. *)
Definition overall_ok (t c p a : Z) : bool :=
  match Py.int_of_float (weighted_sum t c p a) with
  | Some o => (0 <=? o) && (o <=? 100) && (min4 t c p a <=? o) && (o <=? max4 t c p a)
  | None => false
  end.

Definition fives (lo : nat) : list Z :=
  map (fun k => 5 * Z.of_nat k) (seq lo (21 - lo)).

Definition table4 {A : Type} (f : A -> A -> A -> A -> bool)
    (l1 l2 l3 l4 : list A) : bool :=
  forallb (fun a => forallb (fun b => forallb (fun c => forallb (fun d =>
    f a b c d) l4) l3) l2) l1.



(* ================================================================== *)
(** ** URLs: [urllib.parse.urlparse] and [_normalize_url] *)
(* ================================================================== *)

Module Url.

(** The two fields of [urlparse]'s result that the repository reads. *)
Record Parsed := { scheme : string; netloc : string }.

(** Leading characters [urlsplit] strips: C0 controls and the space. *)
Definition is_c0_or_space (c : ascii) : bool := (Py.code c <=? 32)%nat.

Fixpoint lstrip_c0 (s : string) : string :=
  match s with
  | EmptyString => EmptyString
  | String c s' => if is_c0_or_space c then lstrip_c0 s' else s
  end.

(** Tab, line feed and carriage return are removed anywhere in the URL. *)
Definition is_unsafe (c : ascii) : bool :=
  let n := Py.code c in (n =? 9)%nat || (n =? 10)%nat || (n =? 13)%nat.

Fixpoint remove_unsafe (s : string) : string :=
  match s with
  | EmptyString => EmptyString
  | String c s' => if is_unsafe c then remove_unsafe s' else String c (remove_unsafe s')
  end.

Definition is_scheme_char (c : ascii) : bool :=
  Py.isalpha_ascii c || Py.isdigit c
  || Ascii.eqb c "+" || Ascii.eqb c "-" || Ascii.eqb c ".".

(** The text before the first colon and the text after it, when every
    character before the colon may stand in a scheme. *)
Fixpoint scan_scheme (s : string) : option (string * string) :=
  match s with
  | EmptyString => None
  | String c s' =>
      if Ascii.eqb c ":" then Some (EmptyString, s')
      else if is_scheme_char c then
        match scan_scheme s' with
        | Some (p, r) => Some (String c p, r)
        | None => None
        end
      else None
  end.

Definition split_scheme (url : string) : string * string :=
  match url with
  | String c _ =>
      if Py.isalpha_ascii c then
        match scan_scheme url with
        | Some (p, r) => (Py.lower p, r)
        | None => (EmptyString, url)
        end
      else (EmptyString, url)
  | EmptyString => (EmptyString, url)
  end.

Definition is_netloc_end (c : ascii) : bool :=
  Ascii.eqb c "/" || Ascii.eqb c "?" || Ascii.eqb c "#".

(** [_splitnetloc]: the text up to the first of [/], [?] and [#]. *)
Fixpoint take_netloc (s : string) : string :=
  match s with
  | EmptyString => EmptyString
  | String c s' => if is_netloc_end c then EmptyString else String c (take_netloc s')
  end.

(** The [ValueError] of [urlsplit] for a netloc with one bracket only. *)
Definition bracket_error (netloc : string) : bool :=
  let lb := Py.contains "[" netloc in
  let rb := Py.contains "]" netloc in
  (lb && negb rb) || (rb && negb lb).

(** [urlparse(url)], scheme and netloc.  [None] stands for the
    [ValueError] of an unbalanced bracket in the netloc; the further
    [ValueError]s of CPython (a bracketed host that is no IP literal, a
    netloc that changes under NFKC normalisation) are not modelled. *)
Definition urlparse (url : string) : option Parsed :=
  let url := remove_unsafe (lstrip_c0 url) in
  let '(scheme, url) := split_scheme url in
  if Py.startswith "//" url then
    let netloc := take_netloc (Py.drop 2 url) in
    if bracket_error netloc then None
    else Some {| scheme := scheme; netloc := netloc |}
  else Some {| scheme := scheme; netloc := EmptyString |}.

End Url.

(** [SEOScanner._normalize_url]. *)
Definition _normalize_url (url : string) : option string :=
  (* Add schema if missing *)
  let url :=
    if negb (Py.startswith "http://" url || Py.startswith "https://" url)
    then "https://" +:+ url else url in
  match Url.urlparse url with
  | None => None
  | Some parsed =>
      (* Validate *)
      if negb (Py.truthy (Url.scheme parsed)) || negb (Py.truthy (Url.netloc parsed))
      then None
      else
        (* Ensure https *)
        let url :=
          if String.eqb (Url.scheme parsed) "http"
          then Py.replace_first "http://" "https://" url else url in
        Some url
  end.

(* ================================================================== *)
(** ** The parsed document and the analysis modules *)
(* ================================================================== *)

(** Exceptions, by class.  [str(e)] is the message. *)
Inductive exn :=
| ValueError (msg : string)
| TypeError (msg : string)
| OverflowError (msg : string)
| KeyError (msg : string)
| RequestException (msg : string)
| APIError (msg : string).

Definition str_exn (e : exn) : string :=
  match e with
  | ValueError m | TypeError m | OverflowError m | KeyError m
  | RequestException m | APIError m => m
  end.

(** The outcome of a Python call: a value or a raised exception. *)
Inductive Result (A : Type) :=
| Ok (a : A)
| Raise (e : exn).
Arguments Ok {A} a.
Arguments Raise {A} e.

Module Dom.

(** A node of the tree BeautifulSoup builds: a string or a tag with its
    attributes and contents. *)
Inductive node :=
| Text (s : string)
| Element (name : string) (attrs : list (string * string)) (contents : list node).

(** The [BeautifulSoup] object: the top-level contents. *)
Definition soup := list node.

(** [tag.get(key)]. *)
Fixpoint get (attrs : list (string * string)) (key : string) : option string :=
  match attrs with
  | [] => None
  | (k, v) :: rest => if String.eqb k key then Some v else get rest key
  end.

(** [tag.find_all(...)] below one node, the node included: the tags that
    satisfy [p], in document order. *)
Fixpoint find_all_node (p : string -> list (string * string) -> bool) (n : node)
    : list node :=
  match n with
  | Text _ => []
  | Element name attrs contents =>
      ((if p name attrs then [n] else []) ++ flat_map (find_all_node p) contents)%list
  end.

(** [soup.find_all(...)]. *)
Definition find_all (p : string -> list (string * string) -> bool) (s : soup)
    : list node :=
  flat_map (find_all_node p) s.

(** [soup.find(...)]: the first match. *)
Definition find (p : string -> list (string * string) -> bool) (s : soup)
    : option node :=
  head (find_all p s).

(** The strings below a node, in document order. *)
Fixpoint strings (n : node) : list string :=
  match n with
  | Text s => [s]
  | Element _ _ contents => flat_map strings contents
  end.

(** [tag.get_text()]. *)
Definition get_text (n : node) : string := Py.join "" (strings n).

(** [soup.get_text(separator=' ', strip=True)]: the stripped strings that
    are not empty, joined by the separator. *)
Definition get_text_stripped (sep : string) (s : soup) : string :=
  Py.join sep
    (filter (fun x => Py.truthy x) (map Py.strip (flat_map strings s))).

Definition attrs_of (n : node) : list (string * string) :=
  match n with
  | Text _ => []
  | Element _ a _ => a
  end.

Definition name_is (tag : string) : string -> list (string * string) -> bool :=
  fun name _ => String.eqb name tag.

Definition name_in (tags : list string) : string -> list (string * string) -> bool :=
  fun name _ => existsb (String.eqb name) tags.

(** [attrs={key: value}] for a single-valued attribute. *)
Definition has_attr_value (tag key value : string)
    : string -> list (string * string) -> bool :=
  fun name attrs =>
    String.eqb name tag &&
    match get attrs key with
    | Some v => String.eqb v value
    | None => false
    end.

(** [attrs={'rel': value}]: [rel] is multi-valued, and a tag matches when
    one of its values, or the whole attribute, is [value]. *)
Definition has_rel (tag value : string) : string -> list (string * string) -> bool :=
  fun name attrs =>
    String.eqb name tag &&
    match get attrs "rel" with
    | Some v => existsb (String.eqb value) (Py.split v) || String.eqb v value
    | None => false
    end.

(** [href=True]. *)
Definition has_attr (tag key : string) : string -> list (string * string) -> bool :=
  fun name attrs =>
    String.eqb name tag &&
    match get attrs key with Some _ => true | None => false end.

(** What the loop [for t in soup(tags): t.decompose()] leaves of one node:
    nothing when the node is one of [tags], otherwise the node with its
    contents treated alike. *)
Fixpoint decompose_node (tags : list string) (n : node) : list node :=
  match n with
  | Text s => [Text s]
  | Element name attrs contents =>
      if existsb (String.eqb name) tags then []
      else [Element name attrs (flat_map (decompose_node tags) contents)]
  end.

(** The document after [for t in soup(tags): t.decompose()]. *)
Definition decompose_all (tags : list string) (s : soup) : soup :=
  flat_map (decompose_node tags) s.

(** The number of tags that satisfy [p] and lie outside every tag of [tags]. *)
Fixpoint count_outside_node (tags : list string)
    (p : string -> list (string * string) -> bool) (n : node) : nat :=
  match n with
  | Text _ => O
  | Element name attrs contents =>
      if existsb (String.eqb name) tags then O
      else ((if p name attrs then 1 else 0)
            + list_sum (map (count_outside_node tags p) contents))%nat
  end.

Definition count_outside (tags : list string)
    (p : string -> list (string * string) -> bool) (s : soup) : nat :=
  list_sum (map (count_outside_node tags p) s).

(** The number of tags that satisfy [p] and lie inside a tag of [tags]
    (or are one). *)
Fixpoint count_inside_node (tags : list string)
    (p : string -> list (string * string) -> bool) (n : node) : nat :=
  match n with
  | Text _ => O
  | Element name attrs contents =>
      if existsb (String.eqb name) tags then length (find_all_node p n)
      else list_sum (map (count_inside_node tags p) contents)
  end.

Definition count_inside (tags : list string)
    (p : string -> list (string * string) -> bool) (s : soup) : nat :=
  list_sum (map (count_inside_node tags p) s).

End Dom.

(** Induction on a node with the hypothesis for every node of its contents. *)
Fixpoint node_rect' (P : Dom.node -> Prop)
    (HT : forall s, P (Dom.Text s))
    (HE : forall name attrs contents,
        Forall P contents -> P (Dom.Element name attrs contents))
    (n : Dom.node) : P n :=
  match n with
  | Dom.Text s => HT s
  | Dom.Element name attrs contents =>
      HE name attrs contents
        ((fix go (l : list Dom.node) : Forall P l :=
            match l with
            | [] => @List.Forall_nil _ P
            | x :: l' => @List.Forall_cons _ P x l' (node_rect' P HT HE x) (go l')
            end) contents)
  end.

(** The dictionary returned by [_extract_structured_data]; a parsed JSON
    value is represented by the text it was parsed from. *)
Record StructuredData := {
  json_ld : list string;
  has_schema : bool
}.

(** [SEOScanner._extract_metadata]. *)
Definition _extract_metadata (soup : Dom.soup) (url : string) : Metadata :=
  (* Title *)
  let title_tag := Dom.find (Dom.name_is "title") soup in
  let title := option_map (fun t => Py.strip (Dom.get_text t)) title_tag in
  (* Meta description *)
  let meta_desc := Dom.find (Dom.has_attr_value "meta" "name" "description") soup in
  let description :=
    option_map (fun t => Py.strip (default "" (Dom.get (Dom.attrs_of t) "content")))
      meta_desc in
  (* H1 tags *)
  let h1_tags :=
    map (fun t => Py.strip (Dom.get_text t)) (Dom.find_all (Dom.name_is "h1") soup) in
  (* Canonical *)
  let canonical := Dom.find (Dom.has_rel "link" "canonical") soup in
  let canonical_url :=
    match canonical with
    | Some t => Dom.get (Dom.attrs_of t) "href"
    | None => None
    end in
  (* Robots meta *)
  let robots_meta := Dom.find (Dom.has_attr_value "meta" "name" "robots") soup in
  let robots :=
    option_map (fun t => Py.strip (default "" (Dom.get (Dom.attrs_of t) "content")))
      robots_meta in
  {| title := title;
     meta_description := description;
     h1_tags := h1_tags;
     canonical_url := canonical_url;
     robots_meta := robots |}.

(** [SEOScanner._analyze_technical].  [urlparse] may raise. *)
Definition _analyze_technical (url : string) (http_status : Z) (html : string)
    (load_time : Z) : Result Technical :=
  match Url.urlparse url with
  | None => Raise (ValueError "Invalid IPv6 URL")
  | Some parsed =>
      (* SSL check *)
      let has_ssl := String.eqb (Url.scheme parsed) "https" in
      (* Page size: int(len(html.encode('utf-8')) / 1024) *)
      let page_size_kb := Z.of_nat (Py.utf8_len html) / 1024 in
      (* Simple mobile-friendly check (viewport meta tag) *)
      let has_viewport := Py.contains "viewport" (Py.lower html) in
      Ok {| http_status := http_status;
            has_ssl := has_ssl;
            page_size_kb := page_size_kb;
            load_time_ms := load_time;
            is_mobile_friendly := has_viewport |}
  end.

(** The tags [_analyze_content] removes. *)
Definition removed_tags : list string := ["script"; "style"; "noscript"].

(** [SEOScanner._analyze_content].  The method mutates [soup] in place; the
    second component is the document after the call, which is what every
    later use of [soup] in the caller sees. *)
Definition _analyze_content (soup : Dom.soup) : Content * Dom.soup :=
  (* Remove script and style elements *)
  let soup := Dom.decompose_all removed_tags soup in
  (* Get text content *)
  let text := Dom.get_text_stripped " " soup in
  (* Word count *)
  let words := Py.split text in
  let word_count := length words in
  (* Heading structure *)
  let headings :=
    {| h1 := length (Dom.find_all (Dom.name_is "h1") soup);
       h2 := length (Dom.find_all (Dom.name_is "h2") soup);
       h3 := length (Dom.find_all (Dom.name_is "h3") soup);
       h4 := length (Dom.find_all (Dom.name_is "h4") soup);
       h5 := length (Dom.find_all (Dom.name_is "h5") soup);
       h6 := length (Dom.find_all (Dom.name_is "h6") soup) |} in
  ({| word_count := word_count; heading_counts := headings |}, soup).

(** The test [int(width) > 2000 or int(height) > 2000] under its
    [try ... except (ValueError, TypeError): pass]. *)
Definition is_large_image (width height : string) : bool :=
  match Py.int width with
  | None => false
  | Some w =>
      if 2000 <? w then true
      else match Py.int height with
           | None => false
           | Some h => 2000 <? h
           end
  end.

(** [SEOScanner._analyze_images]. *)
Definition _analyze_images (soup : Dom.soup) (base_url : string) : Images :=
  let images := Dom.find_all (Dom.name_is "img") soup in
  let image_count := length images in
  let '(images_without_alt, large_images) :=
    fold_left
      (fun '(images_without_alt, large_images) img =>
         (* Check alt tag *)
         let images_without_alt :=
           if negb (Py.truthy_opt (Dom.get (Dom.attrs_of img) "alt"))
           then S images_without_alt else images_without_alt in
         (* Check if image has dimension attributes *)
         let width := Dom.get (Dom.attrs_of img) "width" in
         let height := Dom.get (Dom.attrs_of img) "height" in
         let large_images :=
           match width, height with
           | Some w, Some h =>
               if Py.truthy w && Py.truthy h && is_large_image w h
               then S large_images else large_images
           | _, _ => large_images
           end in
         (images_without_alt, large_images))
      images (O, O) in
  {| image_count := image_count;
     images_without_alt := images_without_alt;
     potentially_large_images := large_images |}.

(* ================================================================== *)
(** ** The world outside the process: database, network, clock *)
(* ================================================================== *)

(** A row of the [profiles] table. *)
Record Profile := {
  tier : string;
  monthly_scan_limit : Z;
  monthly_scans_used : Z;
  credits_balance : Z;
  total_credits_used : Z
}.

Definition set_monthly_scans_used (v : Z) (p : Profile) : Profile :=
  {| tier := tier p;
     monthly_scan_limit := monthly_scan_limit p;
     monthly_scans_used := v;
     credits_balance := credits_balance p;
     total_credits_used := total_credits_used p |}.

Definition set_credits (balance used : Z) (p : Profile) : Profile :=
  {| tier := tier p;
     monthly_scan_limit := monthly_scan_limit p;
     monthly_scans_used := monthly_scans_used p;
     credits_balance := balance;
     total_credits_used := used |}.

(** The columns [scan_url] writes when a scan completes. *)
Record ScanData := {
  sd_metadata : Metadata;
  sd_technical : Technical;
  sd_content : Content;
  sd_scores : Scores;
  sd_issues : Issues;
  structured_data : StructuredData;
  issues_detail : IssuesDetail;
  duration_seconds : Z
}.

(** A row of the [scans] table.  Its [id] is its position in the table. *)
Record ScanRow := {
  user_id : string;
  url : string;
  domain : string;
  status : string;
  started_at : Z;
  error_message : option string;
  completed_at : option Z;
  scan_data : option ScanData
}.

(** A row of the [credit_transactions] table. *)
Record Transaction := {
  tx_user_id : string;
  tx_type : string;
  amount : Z;
  balance_after : Z;
  reference_id : option nat;
  reference_type : string;
  description : string
}.

(** A row of the [ai_usage] table. *)
Record AiUsage := {
  au_user_id : string;
  au_scan_id : option nat;
  operation_type : string;
  input_tokens : Z;
  output_tokens : Z;
  total_tokens : Z;
  credits_consumed : Z;
  response_time_ms : Z;
  response_text : option string;
  success : bool;
  au_error_message : option string
}.

(** The stages of a scan, for the record of the order they run in. *)
Inductive Step :=
| HttpGet
| HtmlParse
| FieldExtraction
| SeverityBucketing
| RuleDeductions
| WeightedSum.

(** The state outside the Python process.
    - [faults] is the schedule of the database: each request sent to
      Supabase consumes its head, and a [true] makes that request raise
      without effect; an exhausted schedule means no more failures.
    - [clock] is the wall clock in milliseconds.
    - [model_calls] lists the prompts sent to Gemini, latest last.
    - [steps] lists the stages the scanner went through, latest last. *)
Record World := {
  profiles : gmap string Profile;
  scans : list ScanRow;
  credit_transactions : list Transaction;
  ai_usage : list AiUsage;
  faults : list bool;
  clock : Z;
  model_calls : list string;
  steps : list Step
}.

Definition set_profiles (v : gmap string Profile) (w : World) : World :=
  {| profiles := v; scans := scans w;
     credit_transactions := credit_transactions w; ai_usage := ai_usage w;
     faults := faults w; clock := clock w; model_calls := model_calls w;
     steps := steps w |}.

Definition set_scans (v : list ScanRow) (w : World) : World :=
  {| profiles := profiles w; scans := v;
     credit_transactions := credit_transactions w; ai_usage := ai_usage w;
     faults := faults w; clock := clock w; model_calls := model_calls w;
     steps := steps w |}.

Definition set_credit_transactions (v : list Transaction) (w : World) : World :=
  {| profiles := profiles w; scans := scans w;
     credit_transactions := v; ai_usage := ai_usage w;
     faults := faults w; clock := clock w; model_calls := model_calls w;
     steps := steps w |}.

Definition set_ai_usage (v : list AiUsage) (w : World) : World :=
  {| profiles := profiles w; scans := scans w;
     credit_transactions := credit_transactions w; ai_usage := v;
     faults := faults w; clock := clock w; model_calls := model_calls w;
     steps := steps w |}.

Definition set_faults (v : list bool) (w : World) : World :=
  {| profiles := profiles w; scans := scans w;
     credit_transactions := credit_transactions w; ai_usage := ai_usage w;
     faults := v; clock := clock w; model_calls := model_calls w;
     steps := steps w |}.

Definition set_clock (v : Z) (w : World) : World :=
  {| profiles := profiles w; scans := scans w;
     credit_transactions := credit_transactions w; ai_usage := ai_usage w;
     faults := faults w; clock := v; model_calls := model_calls w;
     steps := steps w |}.

Definition set_model_calls (v : list string) (w : World) : World :=
  {| profiles := profiles w; scans := scans w;
     credit_transactions := credit_transactions w; ai_usage := ai_usage w;
     faults := faults w; clock := clock w; model_calls := v;
     steps := steps w |}.

Definition set_steps (v : list Step) (w : World) : World :=
  {| profiles := profiles w; scans := scans w;
     credit_transactions := credit_transactions w; ai_usage := ai_usage w;
     faults := faults w; clock := clock w; model_calls := model_calls w;
     steps := v |}.

(** An HTTP response of [requests].  Reading [text] from a streamed
    response may itself raise. *)
Record Response := {
  status_code : Z;
  headers : list (string * string);
  text : Result string;
  elapsed_ms : Z
}.

Inductive HttpOutcome :=
| HttpRaises (e : exn)
| HttpReturns (r : Response).

(** A dictionary handed to a prompt template. *)
Definition Dict := list (string * string).

(** The libraries and services the repository calls and does not own. *)
Record Env := {
  (** [session.get(url, ...)] *)
  http_get : string -> HttpOutcome;
  (** [BeautifulSoup(html, 'html.parser')] *)
  html_parser : string -> Dom.soup;
  (** [urljoin(base, href)]; [None] stands for its [ValueError]. *)
  urljoin : string -> string -> option string;
  (** whether [json.loads] accepts a text *)
  json_valid : string -> bool;
  (** [model.generate_content(prompt).text] and the time it takes *)
  generate_content : string -> Result string;
  generate_ms : string -> Z;
  (** the prompt templates of [ai_service.py] *)
  audit_prompt : Dict -> string -> string;
  keyword_prompt : string -> string -> string -> string;
  roadmap_prompt : Dict -> string -> string
}.

(** *** The monad of effectful Python code *)

Definition M (A : Type) : Type := World -> Result A * World.

Definition ret {A : Type} (a : A) : M A := fun w => (Ok a, w).

Definition bind {A B : Type} (m : M A) (k : A -> M B) : M B :=
  fun w => match m w with
           | (Ok a, w') => k a w'
           | (Raise e, w') => (Raise e, w')
           end.

(** [raise e]. *)
Definition raise {A : Type} (e : exn) : M A := fun w => (Raise e, w).

(** A pure call that may raise. *)
Definition lift {A : Type} (r : Result A) : M A := fun w => (r, w).

(** [try: body / except Exception as e: handler]. *)
Definition try_except {A : Type} (body : M A) (handler : exn -> M A) : M A :=
  fun w => match body w with
           | (Ok a, w') => (Ok a, w')
           | (Raise e, w') => handler e w'
           end.

(** [try: body / except cls as e: handler]: other classes propagate. *)
Definition try_except_class {A : Type} (cls : exn -> bool) (body : M A)
    (handler : exn -> M A) : M A :=
  fun w => match body w with
           | (Ok a, w') => (Ok a, w')
           | (Raise e, w') => if cls e then handler e w' else (Raise e, w')
           end.

Declare Scope py_scope.
Delimit Scope py_scope with py.
Notation "x <- c1 ;; c2" := (bind c1 (fun x => c2))
  (at level 100, c1 at next level, right associativity) : py_scope.
Notation "c1 ;; c2" := (bind c1 (fun _ => c2))
  (at level 100, right associativity) : py_scope.
Open Scope py_scope.

Definition is_request_exception (e : exn) : bool :=
  match e with RequestException _ => true | _ => false end.

(** [datetime.utcnow()] and [time.time()], in milliseconds. *)
Definition now : M Z := fun w => (Ok (clock w), w).

(** The scanner enters a stage. *)
Definition step (s : Step) : M unit := fun w => (Ok tt, set_steps (steps w ++ [s])%list w).

(** [....execute()]: one request to Supabase.  It consumes the head of the
    fault schedule and raises, without effect, when that head is [true]. *)
Definition execute {A : Type} (op : World -> A * World) : M A :=
  fun w =>
    let w0 := set_faults (tail (faults w)) w in
    if hd false (faults w) then (Raise (APIError "request failed"), w0)
    else let '(a, w') := op w0 in (Ok a, w').

(** [table('profiles').select(...).eq('id', user_id).single().execute()]:
    [profile.data], which is [None] when no row matches. *)
Definition select_profile (user_id : string) : M (option Profile) :=
  execute (fun w => (profiles w !! user_id, w)).

(** [table('profiles').update({...}).eq('id', user_id).execute()]. *)
Definition update_profile (user_id : string) (f : Profile -> Profile) : M unit :=
  execute (fun w => (tt, set_profiles (alter f user_id (profiles w)) w)).

(** A value in the payload of an update: an integer, or a request of the
    client that was built and not executed. *)
Inductive PayloadValue :=
| JsonInt (n : Z)
| RequestBuilder (fn : string) (params : list (string * Z)).

(** [self.supabase.rpc(fn, params)] without [.execute()]: the client
    builds the request and sends nothing. *)
Definition rpc (fn : string) (params : list (string * Z)) : PayloadValue :=
  RequestBuilder fn params.

(** [table('profiles').update({'credits_balance': balance,
    'total_credits_used': used}).eq('id', user_id).execute()].  The client
    encodes the payload as JSON before it sends the request: on a payload
    that holds a request builder the encoder raises a [TypeError], and
    nothing reaches the database. *)
Definition update_profile_credits (user_id : string) (balance : Z)
    (used : PayloadValue) : M unit :=
  match used with
  | JsonInt n => update_profile user_id (set_credits balance n)
  | RequestBuilder _ _ =>
      raise (TypeError "Object of type SyncFilterRequestBuilder is not JSON serializable")
  end.

(** [table('scans').insert({...}).execute()]: [result.data[0]['id']]. *)
Definition insert_scan (row : ScanRow) : M nat :=
  execute (fun w => (length (scans w), set_scans (scans w ++ [row])%list w)).

(** [table('scans').update({...}).eq('id', scan_id).execute()]; no row
    matches an unknown id. *)
Definition update_scan (scan_id : nat) (f : ScanRow -> ScanRow) : M unit :=
  execute (fun w => (tt, set_scans (alter f scan_id (scans w)) w)).

(** [table('credit_transactions').insert({...}).execute()]. *)
Definition insert_transaction (row : Transaction) : M unit :=
  execute (fun w =>
    (tt, set_credit_transactions (credit_transactions w ++ [row])%list w)).

(** [table('ai_usage').insert({...}).execute()]. *)
Definition insert_ai_usage (row : AiUsage) : M unit :=
  execute (fun w => (tt, set_ai_usage (ai_usage w ++ [row])%list w)).

(** *** Relations between the world before and after a computation *)

(** A relation between the world before and the world after that holds
    across sequencing. *)
Class Frame (R : World -> World -> Prop) : Prop := {
  frame_refl : forall w, R w w;
  frame_trans : forall a b c, R a b -> R b c -> R a c
}.

Definition preserves (R : World -> World -> Prop) {A : Type} (m : M A) : Prop :=
  forall w r w', m w = (r, w') -> R w w'.

Definition same_profiles (w w' : World) : Prop := profiles w' = profiles w.
Definition same_ledger (w w' : World) : Prop :=
  credit_transactions w' = credit_transactions w.
Definition same_steps (w w' : World) : Prop := steps w' = steps w.
Definition same_model_calls (w w' : World) : Prop := model_calls w' = model_calls w.
Definition same_scans_length (w w' : World) : Prop :=
  length (scans w') = length (scans w).
(** The schedule only loses entries from its front. *)
Definition faults_shrink (w w' : World) : Prop := suffix (faults w') (faults w).


(* ================================================================== *)
(** ** [SEOScanner] *)
(* ================================================================== *)

(** [TIMEOUT] is a parameter of the request that [http_get] stands for. *)
Definition TIMEOUT : Z := 15.
Definition MAX_PAGE_SIZE : Z := 10 * 1024 * 1024.

(** [response.headers.get(key)]: header names compare without case. *)
Fixpoint header_get (hs : list (string * string)) (key : string) : option string :=
  match hs with
  | [] => None
  | (k, v) :: rest =>
      if String.eqb (Py.lower k) (Py.lower key) then Some v else header_get rest key
  end.

(** [tag.string]: the only string below a tag, if there is exactly one. *)
Fixpoint node_string (n : Dom.node) : option string :=
  match n with
  | Dom.Text s => Some s
  | Dom.Element _ _ [c] => node_string c
  | Dom.Element _ _ _ => None
  end.

(** The columns of a completed scan. *)
Record Analysis := {
  an_metadata : Metadata;
  an_technical : Technical;
  an_content : Content;
  an_images : Images;
  an_links : Links;
  an_structured_data : StructuredData
}.

Section Scanner.

Variable env : Env.

(** [self.session.get(url, timeout=TIMEOUT, allow_redirects=True,
    stream=True)]: the time the request takes passes on the clock. *)
Definition session_get (url : string) : M Response :=
  fun w => match http_get env url with
           | HttpRaises e => (Raise e, w)
           | HttpReturns r => (Ok r, set_clock (clock w + elapsed_ms r) w)
           end.

(** [SEOScanner._check_scan_limits]. *)
Definition _check_scan_limits (user_id : string) : M bool :=
  try_except
    (profile <- select_profile user_id ;;
     match profile with
     | None => ret false
     | Some data =>
         let used := monthly_scans_used data in
         let limit := monthly_scan_limit data in
         ret (used <? limit)
     end)
    (fun e => ret false).

(** [SEOScanner._create_scan_record]: the handler logs and raises again. *)
Definition _create_scan_record (user_id url domain : string) : M nat :=
  try_except
    (started <- now ;;
     insert_scan {| user_id := user_id; url := url; domain := domain;
                    status := "pending"; started_at := started;
                    error_message := None; completed_at := None;
                    scan_data := None |})
    (fun e => raise e).

Definition set_status (v : string) (r : ScanRow) : ScanRow :=
  {| user_id := user_id r; url := url r; domain := domain r; status := v;
     started_at := started_at r; error_message := error_message r;
     completed_at := completed_at r; scan_data := scan_data r |}.

Definition set_failed (msg : string) (at_ : Z) (r : ScanRow) : ScanRow :=
  {| user_id := user_id r; url := url r; domain := domain r; status := "failed";
     started_at := started_at r; error_message := Some msg;
     completed_at := Some at_; scan_data := scan_data r |}.

Definition set_completed (data : ScanData) (at_ : Z) (r : ScanRow) : ScanRow :=
  {| user_id := user_id r; url := url r; domain := domain r;
     status := "completed"; started_at := started_at r;
     error_message := error_message r; completed_at := Some at_;
     scan_data := Some data |}.

(** [SEOScanner._update_scan_status]. *)
Definition _update_scan_status (scan_id : nat) (status : string) : M unit :=
  update_scan scan_id (set_status status).

(** [SEOScanner._mark_scan_failed]. *)
Definition _mark_scan_failed (scan_id : nat) (error_message : string) : M unit :=
  completed <- now ;;
  update_scan scan_id (set_failed error_message completed).

(** [SEOScanner._fetch_page]: [(html_content, http_status, load_time_ms)]. *)
Definition _fetch_page (url : string) : M (option string * Z * Z) :=
  try_except_class is_request_exception
    (start <- now ;;
     response <- session_get url ;;
     finish <- now ;;
     let load_time := finish - start in
     (* Check content length *)
     let content_length := header_get (headers response) "content-length" in
     too_large <-
       match content_length with
       | Some cl =>
           if Py.truthy cl then
             match Py.int cl with
             | Some n => ret (MAX_PAGE_SIZE <? n)
             | None => raise (ValueError "invalid literal for int() with base 10")
             end
           else ret false
       | None => ret false
       end ;;
     if too_large then ret (None, status_code response, load_time)
     else
       (* Get content *)
       content <- lift (text response) ;;
       ret (Some content, status_code response, load_time))
    (fun e => ret (None, 0, 0)).

(** The loop of [_analyze_links] over the links, with the two counters. *)
Fixpoint count_links (base_url base_domain : string) (links : list Dom.node)
    (internal_links external_links : nat) : Result (nat * nat) :=
  match links with
  | [] => Ok (internal_links, external_links)
  | link :: rest =>
      let href := default "" (Dom.get (Dom.attrs_of link) "href") in
      (* Skip anchors and javascript *)
      if Py.startswith "#" href || Py.startswith "javascript:" href
      then count_links base_url base_domain rest internal_links external_links
      else
        (* Normalize URL *)
        match urljoin env base_url href with
        | None => Raise (ValueError "Invalid IPv6 URL")
        | Some full_url =>
            match Url.urlparse full_url with
            | None => Raise (ValueError "Invalid IPv6 URL")
            | Some parsed =>
                if String.eqb (Url.netloc parsed) base_domain
                then count_links base_url base_domain rest
                       (S internal_links) external_links
                else count_links base_url base_domain rest
                       internal_links (S external_links)
            end
        end
  end.

(** [SEOScanner._analyze_links]. *)
Definition _analyze_links (soup : Dom.soup) (base_url : string) : Result Links :=
  let links := Dom.find_all (Dom.has_attr "a" "href") soup in
  match Url.urlparse base_url with
  | None => Raise (ValueError "Invalid IPv6 URL")
  | Some parsed =>
      let base_domain := Url.netloc parsed in
      match count_links base_url base_domain links O O with
      | Raise e => Raise e
      | Ok (internal_links, external_links) =>
          Ok {| link_count := length links;
                internal_links := internal_links;
                external_links := external_links |}
      end
  end.

(** The loop of [_extract_structured_data] over the JSON-LD scripts:
    [json.loads(None)] raises a [TypeError] that the [except] clause does
    not name; a text that does not parse is skipped. *)
Fixpoint load_json_ld (scripts : list Dom.node) (acc : StructuredData)
    : Result StructuredData :=
  match scripts with
  | [] => Ok acc
  | script :: rest =>
      match node_string script with
      | None => Raise (TypeError "the JSON object must be str, bytes or bytearray, not NoneType")
      | Some s =>
          if json_valid env s
          then load_json_ld rest
                 {| json_ld := (json_ld acc ++ [s])%list; has_schema := true |}
          else load_json_ld rest acc
      end
  end.

(** [SEOScanner._extract_structured_data]. *)
Definition _extract_structured_data (soup : Dom.soup) : Result StructuredData :=
  let structured := {| json_ld := []; has_schema := false |} in
  (* JSON-LD *)
  let json_ld_scripts :=
    Dom.find_all (Dom.has_attr_value "script" "type" "application/ld+json") soup in
  load_json_ld json_ld_scripts structured.

(** The block "Run all analysis modules" of [scan_url], up to
    [_extract_structured_data].  [soup] is one object: after
    [_analyze_content] the name denotes the document that call left. *)
Definition run_analysis_modules (soup : Dom.soup) (url : string) (http_status : Z)
    (html_content : string) (load_time : Z) : Result Analysis :=
  let metadata := _extract_metadata soup url in
  match _analyze_technical url http_status html_content load_time with
  | Raise e => Raise e
  | Ok technical =>
      let '(content, soup) := _analyze_content soup in
      let images := _analyze_images soup url in
      match _analyze_links soup url with
      | Raise e => Raise e
      | Ok links =>
          match _extract_structured_data soup with
          | Raise e => Raise e
          | Ok structured_data =>
              Ok {| an_metadata := metadata;
                    an_technical := technical;
                    an_content := content;
                    an_images := images;
                    an_links := links;
                    an_structured_data := structured_data |}
          end
      end
  end.

(** [SEOScanner._increment_scan_counter]. *)
Definition _increment_scan_counter (user_id : string) : M unit :=
  try_except
    (profile <- select_profile user_id ;;
     match profile with
     | None => raise (TypeError "'NoneType' object is not subscriptable")
     | Some data =>
         let current := monthly_scans_used data in
         update_profile user_id (set_monthly_scans_used (current + 1))
     end)
    (fun e => ret tt).

(** The body of the [try] statement of [scan_url]. *)
Definition scan_attempt (user_id url : string) (scan_id : nat) : M (option nat) :=
  (* Update status to processing *)
  _update_scan_status scan_id "processing" ;;
  start_time <- now ;;
  (* Fetch page content *)
  step HttpGet ;;
  fetched <- _fetch_page url ;;
  let '(html_content, http_status, load_time) := fetched in
  match html_content with
  | Some html_content =>
      if Py.truthy html_content then
        (* Parse HTML *)
        step HtmlParse ;;
        let soup := html_parser env html_content in
        (* Run all analysis modules *)
        step FieldExtraction ;;
        an <- lift (run_analysis_modules soup url http_status html_content load_time) ;;
        step SeverityBucketing ;;
        let issues := _identify_issues (an_metadata an) (an_technical an)
                        (an_content an) (an_images an) in
        (* Calculate scores *)
        step RuleDeductions ;;
        step WeightedSum ;;
        scores <-
          match _calculate_scores (an_metadata an) (an_technical an)
                  (an_content an) (an_images an) issues with
          | Some scores => ret scores
          | None => raise (OverflowError "cannot convert float to integer")
          end ;;
        (* Prepare scan data *)
        completed <- now ;;
        finish <- now ;;
        let data :=
          {| sd_metadata := an_metadata an;
             sd_technical := an_technical an;
             sd_content := an_content an;
             sd_scores := scores;
             sd_issues := issues;
             structured_data := an_structured_data an;
             issues_detail := _format_issues_detail issues;
             duration_seconds := (finish - start_time) / 1000 |} in
        (* Update scan record *)
        update_scan scan_id (set_completed data completed) ;;
        (* Increment user scan counter *)
        _increment_scan_counter user_id ;;
        ret (Some scan_id)
      else
        _mark_scan_failed scan_id
          ("Failed to fetch page: HTTP " +:+ Py.str_of_int http_status) ;;
        ret None
  | None =>
      _mark_scan_failed scan_id
        ("Failed to fetch page: HTTP " +:+ Py.str_of_int http_status) ;;
      ret None
  end.

(** The [except Exception as e] clause of [scan_url]. *)
Definition scan_failed (scan_id : nat) (e : exn) : M (option nat) :=
  _mark_scan_failed scan_id (str_exn e) ;;
  ret None.

(** [SEOScanner.scan_url]: the scan id, or [None]. *)
Definition scan_url (user_id url : string) : M (option nat) :=
  (* Validate and normalize URL *)
  match _normalize_url url with
  | None => ret None
  | Some url =>
      match Url.urlparse url with
      | None => raise (ValueError "Invalid IPv6 URL")
      | Some parsed =>
          let domain := Url.netloc parsed in
          (* Check scan limits *)
          allowed <- _check_scan_limits user_id ;;
          if negb allowed then ret None
          else
            (* Create scan record *)
            scan_id <- _create_scan_record user_id url domain ;;
            try_except (scan_attempt user_id url scan_id) (scan_failed scan_id)
      end
  end.

End Scanner.

(** Whether the scan of [url] fails inside the [try] statement of
    [scan_url]: the fetch raises or brings no content, or the analysis of
    the page raises. *)
Definition attempt_fails (env : Env) (url : string) (w : World) : bool :=
  match fst (_fetch_page env url w) with
  | Ok (Some html_content, http_status, load_time) =>
      negb (Py.truthy html_content) ||
      match run_analysis_modules env (html_parser env html_content) url
              http_status html_content load_time with
      | Ok _ => false
      | Raise _ => true
      end
  | Ok (None, _, _) => true
  | Raise _ => true
  end.

(** The row [scan_id] of the [scans] table is marked failed. *)
Definition marked_failed (w : World) (scan_id : nat) (msg : string) (at_ : Z) : Prop :=
  exists row, scans w !! scan_id = Some row /\
    status row = "failed" /\ error_message row = Some msg /\
    completed_at row = Some at_.

(** The order of the stages of a scan that completes. *)
Definition pipeline : list Step :=
  [HttpGet; HtmlParse; FieldExtraction; SeverityBucketing; RuleDeductions; WeightedSum].

(** The order in which the specification lists the stages. *)
Definition pipeline_as_specified : list Step :=
  [HttpGet; HtmlParse; FieldExtraction; RuleDeductions; WeightedSum; SeverityBucketing].

(* ================================================================== *)
(** ** [AIService] *)
(* ================================================================== *)

Definition MODEL_NAME : string := "gemini-1.5-pro".

(** Credit costs per operation. *)
Definition CREDIT_COSTS : list (string * Z) :=
  [("seo_audit", 100);
   ("keyword_research", 50);
   ("content_gap", 75);
   ("roadmap", 120);
   ("quick_suggestions", 25);
   ("competitor_analysis", 150)].

(** [d.get(key)] on a dictionary of integers. *)
Fixpoint costs_get (d : list (string * Z)) (key : string) : option Z :=
  match d with
  | [] => None
  | (k, v) :: rest => if String.eqb k key then Some v else costs_get rest key
  end.

(** [d[key] = value] on a dictionary of strings, which keeps the place of
    a key it already has. *)
Fixpoint dict_set (d : list (string * string)) (key value : string)
    : list (string * string) :=
  match d with
  | [] => [(key, value)]
  | (k, v) :: rest =>
      if String.eqb k key then (key, value) :: rest
      else (k, v) :: dict_set rest key value
  end.

(** The dictionary returned by [_parse_audit_response]. *)
Record AuditReport := {
  full_text : string;
  sections : list (string * string);
  generated_at : Z
}.

(** The dictionary returned by [_extract_json_from_response]: the parsed
    value, represented by its text, or the record of the parse error. *)
Inductive KeywordData :=
| JsonValue (text : string)
| JsonParseError (raw_text : string).

(** The loop of [_parse_audit_response] over the lines. *)
Fixpoint parse_sections (lines : list string) (sections : list (string * string))
    (current_section : option string) (current_content : list string)
    : list (string * string) :=
  match lines with
  | [] =>
      (* Add last section *)
      match current_section with
      | Some name =>
          if Py.truthy name
          then dict_set sections name (Py.join (String Py.LF "") current_content)
          else sections
      | None => sections
      end
  | line :: rest =>
      (* Detect section headers (## SECTION NAME) *)
      if Py.startswith "## " line then
        let sections :=
          match current_section with
          | Some name =>
              if Py.truthy name
              then dict_set sections name (Py.join (String Py.LF "") current_content)
              else sections
          | None => sections
          end in
        parse_sections rest sections (Some (Py.strip (Py.remove_hashes line))) []
      else parse_sections rest sections current_section (current_content ++ [line])
  end.

(** [len(s.split()) * 1.3]. *)
Definition estimate_tokens (s : string) : float :=
  (Py.float_of_int (Z.of_nat (length (Py.split s))) * 1.3)%float.

Section AIService.

Variable env : Env.

(** [AIService._parse_audit_response].  Nothing in its [try] block raises
    on a string, so the [except] clause is not modelled. *)
Definition _parse_audit_response (response_text : string) : M AuditReport :=
  let sections := parse_sections (Py.split_lines response_text) [] None [] in
  generated <- now ;;
  ret {| full_text := response_text; sections := sections; generated_at := generated |}.

(** [AIService._extract_json_from_response]. *)
Definition _extract_json_from_response (text : string) : KeywordData :=
  (* Remove markdown code fences if present *)
  let text := Py.strip text in
  let text := if Py.startswith "```json" text then Py.drop 7 text else text in
  let text := if Py.startswith "```" text then Py.drop 3 text else text in
  let text := if Py.endswith "```" text then Py.drop_end 3 text else text in
  if json_valid env (Py.strip text) then JsonValue (Py.strip text)
  else JsonParseError text.

(** [self.model.generate_content(prompt)] and the reading of
    [response.text]: the call is recorded and takes its time. *)
Definition model_generate (prompt : string) : M string :=
  fun w =>
    (generate_content env prompt,
     set_model_calls (model_calls w ++ [prompt])
       (set_clock (clock w + generate_ms env prompt) w)).

(** [int(x)] on a float, in the monad. *)
Definition to_int (x : float) : M Z :=
  match Py.int_of_float x with
  | Some z => ret z
  | None => raise (OverflowError "cannot convert float to integer")
  end.

(** [CREDIT_COSTS[operation]]. *)
Definition cost_of (operation : string) : M Z :=
  match costs_get CREDIT_COSTS operation with
  | Some c => ret c
  | None => raise (KeyError operation)
  end.

(** [AIService.check_credits]: [(has_credits, current_balance)]. *)
Definition check_credits (user_id operation_type : string) : M (bool * Z) :=
  try_except
    (profile <- select_profile user_id ;;
     match profile with
     | None => ret (false, 0)
     | Some data =>
         let balance := credits_balance data in
         let required := default 0 (costs_get CREDIT_COSTS operation_type) in
         ret (required <=? balance, balance)
     end)
    (fun e => ret (false, 0)).

(** [AIService.deduct_credits].  The value the source gives to
    [total_credits_used] is the request [rpc('increment', {'x': amount})],
    which it builds and does not execute. *)
Definition deduct_credits (user_id : string) (amount : Z) (operation_type : string)
    (scan_id : option nat) (tokens_used : Z) : M bool :=
  try_except
    ((* Get current balance *)
     profile <- select_profile user_id ;;
     match profile with
     | None => raise (TypeError "'NoneType' object is not subscriptable")
     | Some data =>
         let current_balance := credits_balance data in
         if current_balance <? amount then ret false
         else
           let new_balance := current_balance - amount in
           (* Update profile *)
           update_profile_credits user_id new_balance
             (rpc "increment" [("x", amount)]) ;;
           (* Create transaction record *)
           insert_transaction
             {| tx_user_id := user_id;
                tx_type := "credit_usage";
                amount := - amount;
                balance_after := new_balance;
                reference_id := scan_id;
                reference_type := "ai_operation";
                description := "AI credits used for " +:+ operation_type |} ;;
           ret true
     end)
    (fun e => ret false).

(** [AIService._log_ai_usage]. *)
Definition _log_ai_usage (row : AiUsage) : M unit :=
  try_except (insert_ai_usage row) (fun e => ret tt).

(** The row [_log_ai_usage] writes for a failed attempt. *)
Definition failed_usage (user_id : string) (scan_id : option nat)
    (operation : string) (e : exn) : AiUsage :=
  {| au_user_id := user_id; au_scan_id := scan_id; operation_type := operation;
     input_tokens := 0; output_tokens := 0; total_tokens := 0;
     credits_consumed := 0; response_time_ms := 0; response_text := None;
     success := false; au_error_message := Some (str_exn e) |}.

(** [AIService.generate_seo_audit]. *)
Definition generate_seo_audit (user_id : string) (scan_id : nat)
    (scan_data : Dict) (user_tier : string) : M (option AuditReport) :=
  let operation := "seo_audit" in
  (* Check credits *)
  checked <- check_credits user_id operation ;;
  let '(has_credits, balance) := checked in
  if negb has_credits then ret None
  else
    try_except
      ((* Build context-rich prompt *)
       let prompt := audit_prompt env scan_data user_tier in
       (* Generate with Gemini *)
       start_time <- now ;;
       response <- model_generate prompt ;;
       end_time <- now ;;
       let response_time := end_time - start_time in
       (* Parse and structure response *)
       audit_report <- _parse_audit_response response ;;
       (* Calculate token usage (approximate) *)
       let input := estimate_tokens prompt in
       let output := estimate_tokens response in
       total <- to_int (input + output)%float ;;
       (* Deduct credits *)
       credits_used <- cost_of operation ;;
       deducted <- deduct_credits user_id credits_used operation (Some scan_id) total ;;
       (* a failed deduction is logged and the report is still delivered *)
       (* Log AI usage *)
       input_int <- to_int input ;;
       output_int <- to_int output ;;
       _log_ai_usage
         {| au_user_id := user_id; au_scan_id := Some scan_id;
            operation_type := operation; input_tokens := input_int;
            output_tokens := output_int; total_tokens := total;
            credits_consumed := credits_used; response_time_ms := response_time;
            response_text := Some response; success := true;
            au_error_message := None |} ;;
       ret (Some audit_report))
      (fun e =>
         (* Log failed attempt *)
         _log_ai_usage (failed_usage user_id (Some scan_id) operation e) ;;
         ret None).

(** [AIService.generate_keyword_research]. *)
Definition generate_keyword_research (user_id primary_keyword industry
    target_audience : string) : M (option KeywordData) :=
  let operation := "keyword_research" in
  (* Check credits *)
  checked <- check_credits user_id operation ;;
  let '(has_credits, balance) := checked in
  if negb has_credits then ret None
  else
    try_except
      (let prompt := keyword_prompt env primary_keyword industry target_audience in
       start_time <- now ;;
       response <- model_generate prompt ;;
       end_time <- now ;;
       let response_time := end_time - start_time in
       (* Parse JSON response *)
       let keyword_data := _extract_json_from_response response in
       (* Calculate tokens *)
       let input := estimate_tokens prompt in
       let output := estimate_tokens response in
       total <- to_int (input + output)%float ;;
       (* Deduct credits *)
       credits_used <- cost_of operation ;;
       deduct_credits user_id credits_used operation None total ;;
       (* Log usage *)
       input_int <- to_int input ;;
       output_int <- to_int output ;;
       _log_ai_usage
         {| au_user_id := user_id; au_scan_id := None;
            operation_type := operation; input_tokens := input_int;
            output_tokens := output_int; total_tokens := total;
            credits_consumed := credits_used; response_time_ms := response_time;
            response_text := Some response; success := true;
            au_error_message := None |} ;;
       ret (Some keyword_data))
      (fun e =>
         _log_ai_usage (failed_usage user_id None operation e) ;;
         ret None).

(** [AIService.generate_seo_roadmap]. *)
Definition generate_seo_roadmap (user_id : string) (scan_id : nat)
    (current_metrics : Dict) (business_goals : string) : M (option AuditReport) :=
  let operation := "roadmap" in
  checked <- check_credits user_id operation ;;
  let '(has_credits, balance) := checked in
  if negb has_credits then ret None
  else
    try_except
      (let prompt := roadmap_prompt env current_metrics business_goals in
       start_time <- now ;;
       response <- model_generate prompt ;;
       end_time <- now ;;
       let response_time := end_time - start_time in
       roadmap_data <- _parse_audit_response response ;;
       (* Calculate tokens *)
       let input := estimate_tokens prompt in
       let output := estimate_tokens response in
       total <- to_int (input + output)%float ;;
       (* Deduct credits *)
       credits_used <- cost_of operation ;;
       deduct_credits user_id credits_used operation (Some scan_id) total ;;
       (* Log usage *)
       input_int <- to_int input ;;
       output_int <- to_int output ;;
       _log_ai_usage
         {| au_user_id := user_id; au_scan_id := Some scan_id;
            operation_type := operation; input_tokens := input_int;
            output_tokens := output_int; total_tokens := total;
            credits_consumed := credits_used; response_time_ms := response_time;
            response_text := Some response; success := true;
            au_error_message := None |} ;;
       ret (Some roadmap_data))
      (fun e =>
         _log_ai_usage (failed_usage user_id (Some scan_id) operation e) ;;
         ret None).

(** The shape the three operations share: the check, then under one
    [try] the call of the model, the parsing of the answer, the deduction
    and the usage log. *)
Definition ai_operation {A : Type} (user_id operation : string)
    (scan_id : option nat) (prompt : string) (parse : string -> M A)
    : M (option A) :=
  checked <- check_credits user_id operation ;;
  let '(has_credits, balance) := checked in
  if negb has_credits then ret None
  else
    try_except
      (start_time <- now ;;
       response <- model_generate prompt ;;
       end_time <- now ;;
       let response_time := end_time - start_time in
       parsed <- parse response ;;
       let input := estimate_tokens prompt in
       let output := estimate_tokens response in
       total <- to_int (input + output)%float ;;
       credits_used <- cost_of operation ;;
       deducted <- deduct_credits user_id credits_used operation scan_id total ;;
       input_int <- to_int input ;;
       output_int <- to_int output ;;
       _log_ai_usage
         {| au_user_id := user_id; au_scan_id := scan_id;
            operation_type := operation; input_tokens := input_int;
            output_tokens := output_int; total_tokens := total;
            credits_consumed := credits_used; response_time_ms := response_time;
            response_text := Some response; success := true;
            au_error_message := None |} ;;
       ret (Some parsed))
      (fun e =>
         _log_ai_usage (failed_usage user_id scan_id operation e) ;;
         ret None).

End AIService.

(** The ledger row [deduct_credits] writes after the update of the
    profile. *)
Definition usage_transaction (user_id : string) (amount new_balance : Z)
    (operation_type : string) (scan_id : option nat) : Transaction :=
  {| tx_user_id := user_id;
     tx_type := "credit_usage";
     amount := - amount;
     balance_after := new_balance;
     reference_id := scan_id;
     reference_type := "ai_operation";
     description := "AI credits used for " +:+ operation_type |}.

(** The balance of a user, if the user has a profile. *)
Definition balance_of (w : World) (user_id : string) : option Z :=
  credits_balance <$> profiles w !! user_id.

(** The scan counter of a user. *)
Definition scans_used (w : World) (user_id : string) : option Z :=
  monthly_scans_used <$> profiles w !! user_id.

(* ================================================================== *)
(** ** [SmartSEOScanner]: the two analysis scores and the overall score *)
(* ================================================================== *)

Module Smart.

(** The entries of the dictionary of [_scrape_website] that the two
    analyses read.  [page_size] is a float, [round(len / 1024, 2)]. *)
Record ScrapedData := {
  https : bool;
  load_time : Z;
  page_size : float;
  mobile_friendly : bool;
  has_canonical : bool;
  has_schema : bool;
  images_without_alt : nat;
  title : string;
  title_length : nat;
  description : string;
  description_length : nat;
  h1_count : nat;
  word_count : nat;
  images_total : nat;
  internal_links : nat
}.

(** [SmartSEOScanner._analyze_technical]: the entry ['score'] of its
    result; the lists of messages are not modelled. *)
Definition _analyze_technical (data : ScrapedData) : Z :=
  let score := 100 in
  (* HTTPS *)
  let score := if negb (https data) then score - 15 else score in
  (* Load time *)
  let score :=
    if 3000 <? load_time data then score - 10
    else if 1500 <? load_time data then score - 5
    else score in
  (* Page size *)
  let score :=
    if (3000 <? page_size data)%float then score - 10
    else if (1500 <? page_size data)%float then score - 5
    else score in
  (* Mobile friendly *)
  let score := if negb (mobile_friendly data) then score - 15 else score in
  (* Canonical *)
  let score := if negb (has_canonical data) then score - 5 else score in
  (* Structured data *)
  let score := if negb (has_schema data) then score - 5 else score in
  (* Images alt text *)
  let score :=
    if (0 <? images_without_alt data)%nat
    then score - Z.min (Z.of_nat (images_without_alt data) * 2) 10
    else score in
  Z.max 0 score.

(** [SmartSEOScanner._analyze_content]: the entry ['score'] of its result. *)
Definition _analyze_content (data : ScrapedData) : Z :=
  let score := 100 in
  (* Title *)
  let score :=
    if negb (Py.truthy (title data)) then score - 20
    else if (title_length data <? 30)%nat then score - 5
    else if (70 <? title_length data)%nat then score - 5
    else score in
  (* Description *)
  let score :=
    if negb (Py.truthy (description data)) then score - 15
    else if (description_length data <? 120)%nat then score - 5
    else if (170 <? description_length data)%nat then score - 5
    else score in
  (* H1 tags *)
  let score :=
    if (h1_count data =? 0)%nat then score - 15
    else if (1 <? h1_count data)%nat then score - 5
    else score in
  (* Word count *)
  let score := if (word_count data <? 300)%nat then score - 10 else score in
  (* Images *)
  let score := if (images_total data =? 0)%nat then score - 5 else score in
  (* Links *)
  let score := if (internal_links data =? 0)%nat then score - 5 else score in
  Z.max 0 score.

(** [round(x, 1)]: the double nearest to the decimal with one digit after
    the point that is nearest to [x], ties to the even digit.  Exact for
    the doubles below 2^49 in absolute value. *)
Definition round1 (x : float) : float :=
  match Prim2SF x with
  | S754_finite s m (Zneg p) =>
      let num := 10 * Zpos m in
      let den := 2 ^ Zpos p in
      let q := num / den in
      let r := num mod den in
      let n :=
        if 2 * r <? den then q
        else if den <? 2 * r then q + 1
        else if Z.even q then q else q + 1 in
      let y := (Py.float_of_int n / 10)%float in
      if s then (- y)%float else y
  | _ => x
  end.

(** [SmartSEOScanner._get_grade]. *)
Definition _get_grade (score : float) : string :=
  if (90 <=? score)%float then "A"
  else if (80 <=? score)%float then "B"
  else if (70 <=? score)%float then "C"
  else if (60 <=? score)%float then "D"
  else "F".

(** The dictionary returned by [_calculate_overall_score]. *)
Record Overall := {
  overall : float;
  technical : Z;
  content : Z;
  grade : string
}.

(** [SmartSEOScanner._calculate_overall_score], on the two scores. *)
Definition _calculate_overall_score (tech_score content_score : Z) : Overall :=
  (* Weighted average (technical = 60%, content = 40%) *)
  let overall :=
    (Py.float_of_int tech_score * 0.6 + Py.float_of_int content_score * 0.4)%float in
  {| overall := round1 overall;
     technical := tech_score;
     content := content_score;
     grade := _get_grade overall |}.

(** The check run on one pair of scores: the overall score lies in
    [0, 100] and between the two scores. *)
Definition overall_ok (t c : Z) : bool :=
  let o := overall (_calculate_overall_score t c) in
  (0 <=? o)%float && (o <=? 100)%float
  && (Py.float_of_int (Z.min t c) <=? o)%float
  && (o <=? Py.float_of_int (Z.max t c))%float.

Definition score_values : list Z := map Z.of_nat (seq 30 71).

Definition table2 (f : Z -> Z -> bool) (l1 l2 : list Z) : bool :=
  forallb (fun a => forallb (fun b => f a b) l2) l1.

End Smart.

(* ================================================================== *)
(** ** A concrete environment and world, for evaluating the model *)
(* ================================================================== *)

Module Demo.

(** A page with one image and one link in the body, and one image, one link
    and one heading inside a noscript tag. *)
Definition soup : Dom.soup :=
  [Dom.Element "html" []
     [Dom.Element "head" []
        [Dom.Element "title" [] [Dom.Text " Demo page "];
         Dom.Element "meta" [("name", "description"); ("content", "A page")] [];
         Dom.Element "script" [("type", "application/ld+json")] [Dom.Text "{}"]];
      Dom.Element "body" []
        [Dom.Element "h1" [] [Dom.Text "Hello"];
         Dom.Element "img" [("src", "a.png"); ("alt", "a")] [];
         Dom.Element "noscript" []
           [Dom.Element "img" [("src", "b.png")] [];
            Dom.Element "a" [("href", "/hidden")] [Dom.Text "hidden"];
            Dom.Element "h1" [] [Dom.Text "Fallback"]];
         Dom.Element "a" [("href", "/about")] [Dom.Text "about us"]]]].

Definition page : Response :=
  {| status_code := 200;
     headers := [("Content-Type", "text/html")];
     text := Ok "<html>...</html>";
     elapsed_ms := 120 |}.

(** A response that announces twenty million bytes. *)
Definition big_page : Response :=
  {| status_code := 200;
     headers := [("Content-Length", "20000000")];
     text := Ok "<html>...</html>";
     elapsed_ms := 80 |}.

Definition env : Env :=
  {| http_get := fun url =>
       if String.eqb url "https://big.example/" then HttpReturns big_page
       else if String.eqb url "https://down.example/"
            then HttpRaises (RequestException "connection refused")
            else HttpReturns page;
     html_parser := fun _ => soup;
     urljoin := fun base href => Some (base +:+ href);
     json_valid := fun _ => true;
     generate_content := fun _ => Ok "## SUMMARY";
     generate_ms := fun _ => 900;
     audit_prompt := fun _ _ => "audit";
     keyword_prompt := fun _ _ _ => "keywords";
     roadmap_prompt := fun _ _ => "roadmap" |}.

Definition profile : Profile :=
  {| tier := "pro"; monthly_scan_limit := 50; monthly_scans_used := 3;
     credits_balance := 500; total_credits_used := 0 |}.

(** One user, empty tables, and the given fault schedule. *)
Definition world (schedule : list bool) : World :=
  {| profiles := {[ "alice" := profile ]};
     scans := [];
     credit_transactions := [];
     ai_usage := [];
     faults := schedule;
     clock := 1000;
     model_calls := [];
     steps := [] |}.

End Demo.

(* ================================================================== *)
(** ** Definitions for the statements about the scan and the ledger *)
(* ================================================================== *)

(** The links [_analyze_links] leaves out of both counters: anchors and
    javascript. *)
Definition is_skipped_link (link : Dom.node) : bool :=
  let href := default "" (Dom.get (Dom.attrs_of link) "href") in
  Py.startswith "#" href || Py.startswith "javascript:" href.

(** The overall score [_calculate_scores] gives to four category scores. *)
Definition overall_of (t c p a : Z) : Z :=
  default 0 (Py.int_of_float (weighted_sum t c p a)).

(** The check run on one tuple of category scores: a technical or content
    score of at most 75 caps the overall score at 91; three full scores
    and a performance score of at least 75 give at least 95; and 100 is
    only reached with four full scores. *)
Definition overall_caps_ok (t c p a : Z) : bool :=
  let o := overall_of t c p a in
  implb ((t <=? 75) || (c <=? 75)) (o <=? 91)
  && implb ((t =? 100) && (c =? 100) && (a =? 100) && (75 <=? p)) (95 <=? o)
  && implb (o =? 100) ((t =? 100) && (c =? 100) && (p =? 100) && (a =? 100)).

(** The check run on one tuple of category scores: five points more in
    one category do not lower the overall score. *)
Definition overall_steps_ok (t c p a : Z) : bool :=
  let o := overall_of t c p a in
  (o <=? overall_of (t + 5) c p a) && (o <=? overall_of t (c + 5) p a)
  && (o <=? overall_of t c (p + 5) a) && (o <=? overall_of t c p (a + 5)).

(** *** Relations between the world before and after *)

Definition same_scans (w w' : World) : Prop := scans w' = scans w.
Definition same_ai_usage (w w' : World) : Prop := ai_usage w' = ai_usage w.

(** Every row of the scans table but the row [id] is as it was, and no row
    is added or removed. *)
Definition other_scans (id : nat) (w w' : World) : Prop :=
  length (scans w') = length (scans w) /\
  forall i, i <> id -> scans w' !! i = scans w !! i.

(** What [view] shows of every profile is as it was, and so is every
    profile but that of [uid]. *)
Definition same_view {A : Type} (view : Profile -> A) (uid : string)
    (w w' : World) : Prop :=
  forall u, view <$> profiles w' !! u = view <$> profiles w !! u /\
            (u <> uid -> profiles w' !! u = profiles w !! u).

(** A profile without its scan counter. *)
Definition without_counter (p : Profile) : string * Z * Z * Z :=
  (tier p, monthly_scan_limit p, credits_balance p, total_credits_used p).

(** The ledger and the usage log only grow, by at most one row each, and
    the model is called at most once. *)
Definition at_most_one_more {A : Type} (l l' : list A) : Prop :=
  l' = l \/ exists x, l' = (l ++ [x])%list.

(** The message a scan is marked failed with when its fetch ends in
    [fetched]: that of the exception, or the one [scan_url] builds from
    the status when the fetch brought no content; [None] when the fetch
    brought content. *)
Definition fetch_failure (fetched : Result (option string * Z * Z)) : option string :=
  match fetched with
  | Raise e => Some (str_exn e)
  | Ok (html_content, http_status, _) =>
      if Py.truthy_opt html_content then None
      else Some ("Failed to fetch page: HTTP " +:+ Py.str_of_int http_status)
  end.

(** A profile without its two credit columns. *)
Definition without_credits (p : Profile) : string * Z * Z :=
  (tier p, monthly_scan_limit p, monthly_scans_used p).

(** The body of the [try] statement the three operations of [AIService]
    share, as it stands in [ai_operation]. *)
Definition ai_attempt {A : Type} (env : Env) (user_id operation : string)
    (scan_id : option nat) (prompt : string) (parse : string -> M A)
    : M (option A) :=
  start_time <- now ;;
  response <- model_generate env prompt ;;
  end_time <- now ;;
  let response_time := end_time - start_time in
  parsed <- parse response ;;
  let input := estimate_tokens prompt in
  let output := estimate_tokens response in
  total <- to_int (input + output)%float ;;
  credits_used <- cost_of operation ;;
  deducted <- deduct_credits user_id credits_used operation scan_id total ;;
  input_int <- to_int input ;;
  output_int <- to_int output ;;
  _log_ai_usage
    {| au_user_id := user_id; au_scan_id := scan_id;
       operation_type := operation; input_tokens := input_int;
       output_tokens := output_int; total_tokens := total;
       credits_consumed := credits_used; response_time_ms := response_time;
       response_text := Some response; success := true;
       au_error_message := None |} ;;
  ret (Some parsed).

(** Further environments, for evaluating the model on failures. *)
Module Cases.

(** A response whose Content-Length is no integer. *)
Definition odd_page : Response :=
  {| status_code := 200;
     headers := [("Content-Length", "12 bytes")];
     text := Ok "<html>...</html>";
     elapsed_ms := 50 |}.

(** A response with an empty body. *)
Definition empty_page : Response :=
  {| status_code := 200;
     headers := [("Content-Type", "text/html"); ("Content-Length", "0")];
     text := Ok "";
     elapsed_ms := 30 |}.

Definition env : Env :=
  {| http_get := fun url =>
       if String.eqb url "https://odd.example/" then HttpReturns odd_page
       else if String.eqb url "https://empty.example/" then HttpReturns empty_page
            else http_get Demo.env url;
     html_parser := html_parser Demo.env;
     urljoin := fun _ _ => None;
     json_valid := fun _ => false;
     generate_content := fun prompt =>
       if String.eqb prompt "keywords" then Ok "not json"
       else Raise (ValueError "model unavailable");
     generate_ms := generate_ms Demo.env;
     audit_prompt := audit_prompt Demo.env;
     keyword_prompt := keyword_prompt Demo.env;
     roadmap_prompt := roadmap_prompt Demo.env |}.

End Cases.

(** What an operation of [AIService] may touch: it calls the model at most
    once, adds at most one row to the ledger and one to the usage log,
    leaves the scans alone, and changes no profile but in the credit
    columns of its user. *)
Definition ai_footprint {A : Type} (user_id : string) (w : World)
    (r : Result (option A)) (w' : World) : Prop :=
  at_most_one_more (model_calls w) (model_calls w') /\
  at_most_one_more (credit_transactions w) (credit_transactions w') /\
  at_most_one_more (ai_usage w) (ai_usage w') /\
  scans w' = scans w /\
  (forall u, without_credits <$> profiles w' !! u
             = without_credits <$> profiles w !! u) /\
  (forall u, u <> user_id -> profiles w' !! u = profiles w !! u).

(** What an operation of cost [cost] may do to a balance [b], whatever it
    returns: leave it, or take exactly the cost from a balance that covers
    it. *)
Definition balance_safe (cost : Z) (user_id : string) (b : Z) (w' : World) : Prop :=
  balance_of w' user_id = Some b \/
  (cost <= b /\ balance_of w' user_id = Some (b - cost)).

(** An operation of cost [cost] that did not charge its user: the
    profiles and the ledger are as they were.  The check in front of it
    holds: below the cost it returns [None] and the model is not called,
    and a result comes from a balance that covered the cost. *)
Definition never_charged {A : Type} (cost : Z) (user_id : string) (w : World)
    (r : Result (option A)) (w' : World) : Prop :=
  profiles w' = profiles w /\
  credit_transactions w' = credit_transactions w /\
  (forall b, balance_of w user_id = Some b -> b < cost ->
     r = Ok None /\ model_calls w' = model_calls w) /\
  (forall a, r = Ok (Some a) ->
     exists b, balance_of w user_id = Some b /\ cost <= b).

(** What an operation does when the model raises [e]: it returns [None],
    the call is on record, nothing is charged, and the failed attempt is
    logged. *)
Definition model_failure {A : Type} (user_id operation : string)
    (scan_id : option nat) (prompt : string) (e : exn) (w : World)
    (rw : Result (option A) * World) : Prop :=
  fst rw = Ok None /\
  model_calls (snd rw) = model_calls w ++ [prompt] /\
  profiles (snd rw) = profiles w /\
  credit_transactions (snd rw) = credit_transactions w /\
  ai_usage (snd rw) = ai_usage w ++ [failed_usage user_id scan_id operation e].

(** The check run on one pair of scores of [SmartSEOScanner]: the grade,
    which is taken from the overall score before it is rounded, is the
    grade of the rounded score that is shown with it. *)
Definition smart_grade_ok (t c : Z) : bool :=
  let o := Smart._calculate_overall_score t c in
  String.eqb (Smart.grade o) (Smart._get_grade (Smart.overall o)).

(** A model answer inside a markdown code fence, with or without the
    language tag. *)
Definition fenced (tag body : string) : string :=
  "```" +:+ tag +:+ String Py.LF (body +:+ String Py.LF "```").

(* ================================================================== *)
(** ** [SmartSEOScanner]: the messages of the two analyses *)
(* ================================================================== *)

Module SmartMessages.

(** The entries ['score'], ['issues'] and ['warnings'] of the dictionary
    the two analyses return.  The entry ['good_practices'], whose messages
    start with a check mark, a character above code point 255, is not
    modelled. *)
Record Report := {
  score : Z;
  issues : list string;
  warnings : list string
}.

Section Analyses.

(** How an f-string prints a float; not modelled. *)
Variable float_str : float -> string.

(** [SmartSEOScanner._analyze_technical], with its messages. *)
Definition _analyze_technical (data : Smart.ScrapedData) : Report :=
  let issues := [] in
  let warnings := [] in
  (* HTTPS *)
  let issues :=
    append_if (negb (Smart.https data))
      "Site not using HTTPS - critical security issue" issues in
  (* Load time *)
  let issues :=
    append_if (3000 <? Smart.load_time data)
      ("Slow load time (" +:+ Py.str_of_int (Smart.load_time data)
       +:+ "ms) - should be under 3000ms") issues in
  let warnings :=
    append_if (negb (3000 <? Smart.load_time data) && (1500 <? Smart.load_time data))
      ("Load time could be improved (" +:+ Py.str_of_int (Smart.load_time data)
       +:+ "ms)") warnings in
  (* Page size *)
  let issues :=
    append_if (3000 <? Smart.page_size data)%float
      ("Large page size (" +:+ float_str (Smart.page_size data)
       +:+ "KB) - should be under 3MB") issues in
  let warnings :=
    append_if (negb (3000 <? Smart.page_size data)%float
               && (1500 <? Smart.page_size data)%float)
      ("Page size could be optimized (" +:+ float_str (Smart.page_size data)
       +:+ "KB)") warnings in
  (* Mobile friendly *)
  let issues :=
    append_if (negb (Smart.mobile_friendly data))
      "Missing viewport meta tag - not mobile-friendly" issues in
  (* Canonical *)
  let warnings :=
    append_if (negb (Smart.has_canonical data))
      "Missing canonical URL tag" warnings in
  (* Structured data *)
  let warnings :=
    append_if (negb (Smart.has_schema data))
      "No structured data (Schema.org) found" warnings in
  (* Images alt text *)
  let warnings :=
    append_if (0 <? Smart.images_without_alt data)%nat
      (pretty (Smart.images_without_alt data) +:+ " images missing alt text")
      warnings in
  {| score := Smart._analyze_technical data;
     issues := issues;
     warnings := warnings |}.

(** [SmartSEOScanner._analyze_content], with its messages. *)
Definition _analyze_content (data : Smart.ScrapedData) : Report :=
  let issues := [] in
  let warnings := [] in
  (* Title *)
  let issues :=
    append_if (negb (Py.truthy (Smart.title data))) "Missing page title" issues in
  let warnings :=
    append_if (Py.truthy (Smart.title data) && (Smart.title_length data <? 30)%nat)
      ("Title too short (" +:+ pretty (Smart.title_length data)
       +:+ " chars) - recommended 50-60") warnings in
  let warnings :=
    append_if (Py.truthy (Smart.title data)
               && negb (Smart.title_length data <? 30)%nat
               && (70 <? Smart.title_length data)%nat)
      ("Title too long (" +:+ pretty (Smart.title_length data)
       +:+ " chars) - may be truncated") warnings in
  (* Description *)
  let issues :=
    append_if (negb (Py.truthy (Smart.description data)))
      "Missing meta description" issues in
  let warnings :=
    append_if (Py.truthy (Smart.description data)
               && (Smart.description_length data <? 120)%nat)
      ("Description too short (" +:+ pretty (Smart.description_length data)
       +:+ " chars) - recommended 150-160") warnings in
  let warnings :=
    append_if (Py.truthy (Smart.description data)
               && negb (Smart.description_length data <? 120)%nat
               && (170 <? Smart.description_length data)%nat)
      ("Description too long (" +:+ pretty (Smart.description_length data)
       +:+ " chars) - may be truncated") warnings in
  (* H1 tags *)
  let issues :=
    append_if (Smart.h1_count data =? 0)%nat "Missing H1 tag" issues in
  let warnings :=
    append_if (negb (Smart.h1_count data =? 0)%nat && (1 <? Smart.h1_count data)%nat)
      ("Multiple H1 tags (" +:+ pretty (Smart.h1_count data)
       +:+ ") - should have only one") warnings in
  (* Word count *)
  let warnings :=
    append_if (Smart.word_count data <? 300)%nat
      ("Thin content (" +:+ pretty (Smart.word_count data)
       +:+ " words) - recommended 500+ words") warnings in
  (* Images *)
  let warnings :=
    append_if (Smart.images_total data =? 0)%nat
      "No images found - consider adding visual content" warnings in
  (* Links *)
  let warnings :=
    append_if (Smart.internal_links data =? 0)%nat
      "No internal links found" warnings in
  {| score := Smart._analyze_content data;
     issues := issues;
     warnings := warnings |}.

End Analyses.

End SmartMessages.
(* ================================================================== *)
(** * Theorems *)
(* ================================================================== *)

(** ** Scoring *)

Lemma table4_forall {A : Type} (f : A -> A -> A -> A -> bool) (l1 l2 l3 l4 : list A) :
  table4 f l1 l2 l3 l4 = true ->
  forall a b c d, In a l1 -> In b l2 -> In c l3 -> In d l4 -> f a b c d = true.
Proof.
  unfold table4. intros H a b c d Ha Hb Hc Hd.
  rewrite forallb_forall in H. specialize (H a Ha).
  rewrite forallb_forall in H. specialize (H b Hb).
  rewrite forallb_forall in H. specialize (H c Hc).
  rewrite forallb_forall in H. exact (H d Hd).
Qed.

Lemma overall_table_ok :
  table4 overall_ok (fives 4) (fives 2) (fives 4) (fives 8) = true.
Proof. vm_compute. reflexivity. Qed.

Lemma fives_intro (lo : nat) (x : Z) :
  (x mod 5 = 0) -> 5 * Z.of_nat lo <= x <= 100 -> (lo <= 20)%nat -> In x (fives lo).
Proof.
  intros Hm Hb Hlo. unfold fives. apply in_map_iff.
  exists (Z.to_nat (x / 5)). split.
  - rewrite Z2Nat.id by (apply Z.div_pos; lia).
    pose proof (Z.div_mod x 5 ltac:(lia)). lia.
  - apply in_seq.
    assert (x = 5 * (x / 5)) by (pose proof (Z.div_mod x 5 ltac:(lia)); lia).
    lia.
Qed.

Lemma overall_ok_scores (t c p a : Z) :
  In t (fives 4) -> In c (fives 2) -> In p (fives 4) -> In a (fives 8) ->
  overall_ok t c p a = true.
Proof.
  exact (table4_forall overall_ok (fives 4) (fives 2) (fives 4) (fives 8)
           overall_table_ok t c p a).
Qed.

Lemma technical_score_range (t : Technical) :
  calc_technical_score t mod 5 = 0 /\ 20 <= calc_technical_score t <= 100.
Proof.
  unfold calc_technical_score.
  destruct (has_ssl t), (http_status t =? 200), (3000 <? load_time_ms t),
    (is_mobile_friendly t); cbn; split; (reflexivity || lia).
Qed.

Lemma content_score_range (m : Metadata) (c : Content) :
  calc_content_score m c mod 5 = 0 /\ 10 <= calc_content_score m c <= 100.
Proof.
  unfold calc_content_score.
  destruct (Py.truthy_opt (title m)), (Py.truthy_opt (meta_description m)),
    (h1_tags m) as [|x [|y l]], (word_count c <? 300)%nat;
    cbn; split; (reflexivity || lia).
Qed.

Lemma performance_score_range (t : Technical) :
  calc_performance_score t mod 5 = 0 /\ 20 <= calc_performance_score t <= 100.
Proof.
  unfold calc_performance_score.
  destruct (5000 <? load_time_ms t), (3000 <? load_time_ms t),
    (1000 <? load_time_ms t), (3000 <? page_size_kb t),
    (2000 <? page_size_kb t), (1000 <? page_size_kb t);
    cbn; split; (reflexivity || lia).
Qed.

Lemma accessibility_score_range (m : Metadata) (i : Images) :
  calc_accessibility_score m i mod 5 = 0 /\ 40 <= calc_accessibility_score m i <= 100.
Proof.
  unfold calc_accessibility_score.
  destruct (Nat.ltb_spec 0 (images_without_alt i)) as [Hn|Hn];
    destruct (h1_tags m); cbv beta iota zeta;
    (split; [Z.div_mod_to_equations; lia | lia]).
Qed.

Lemma scores_overall_ok (m : Metadata) (t : Technical) (c : Content) (i : Images) :
  overall_ok (calc_technical_score t) (calc_content_score m c)
    (calc_performance_score t) (calc_accessibility_score m i) = true.
Proof.
  destruct (technical_score_range t) as [? ?].
  destruct (content_score_range m c) as [? ?].
  destruct (performance_score_range t) as [? ?].
  destruct (accessibility_score_range m i) as [? ?].
  apply overall_ok_scores; apply fives_intro; (assumption || lia).
Qed.

(** C1. For every metadata, technical, content and images record, the
    scoring step returns (its [int(...)] raises nothing), and the four
    category scores and the overall score all lie in [0, 100]. *)
Theorem calculate_scores_in_range (m : Metadata) (t : Technical) (c : Content)
    (i : Images) (iss : Issues) :
  exists s, _calculate_scores m t c i iss = Some s /\
    0 <= technical_score s <= 100 /\
    0 <= content_score s <= 100 /\
    0 <= performance_score s <= 100 /\
    0 <= accessibility_score s <= 100 /\
    0 <= overall_score s <= 100.
Proof.
  pose proof (scores_overall_ok m t c i) as Hok.
  destruct (technical_score_range t) as [_ ?].
  destruct (content_score_range m c) as [_ ?].
  destruct (performance_score_range t) as [_ ?].
  destruct (accessibility_score_range m i) as [_ ?].
  unfold _calculate_scores, overall_ok in *.
  destruct (Py.int_of_float _) as [o|]; [|discriminate].
  eexists. split; [reflexivity|]. cbn.
  repeat (apply andb_prop in Hok; destruct Hok as [Hok ?]).
  repeat split; lia.
Qed.



(** The truncated float sum is not always the floor of the exact weighted
    average: 0.35 * 85 + 0.35 * 45 + 0.20 * 30 + 0.10 * 95 is 61, the
    source's floats give 60. *)
Example overall_score_float_rounding :
  Py.int_of_float (weighted_sum 85 45 30 95) = Some 60 /\
  (35 * 85 + 35 * 45 + 20 * 30 + 10 * 95) / 100 = 61.
Proof. split; vm_compute; reflexivity. Qed.

(** ** Scoring in [SmartSEOScanner] *)

(** Replace an innermost conditional by a number between its branches. *)
Ltac bound_innermost_if :=
  match goal with
  | |- context [if ?c then ?a else ?b] =>
      lazymatch a with context [if _ then _ else _] => fail | _ => idtac end;
      lazymatch b with context [if _ then _ else _] => fail | _ => idtac end;
      let v := fresh "v" in
      set (v := if c then a else b) in *;
      assert (Z.min a b <= v <= Z.max a b) by (subst v; destruct c; lia);
      clearbody v
  end.

Lemma smart_technical_range (d : Smart.ScrapedData) :
  30 <= Smart._analyze_technical d <= 100.
Proof.
  unfold Smart._analyze_technical. cbv zeta.
  repeat bound_innermost_if. lia.
Qed.

Lemma smart_content_range (d : Smart.ScrapedData) :
  30 <= Smart._analyze_content d <= 100.
Proof.
  unfold Smart._analyze_content. cbv zeta.
  repeat bound_innermost_if. lia.
Qed.

Lemma smart_table_forall (f : Z -> Z -> bool) (l1 l2 : list Z) :
  Smart.table2 f l1 l2 = true ->
  forall a b, In a l1 -> In b l2 -> f a b = true.
Proof.
  unfold Smart.table2. intros H a b Ha Hb.
  rewrite forallb_forall in H. specialize (H a Ha).
  rewrite forallb_forall in H. exact (H b Hb).
Qed.

Lemma smart_overall_table :
  Smart.table2 Smart.overall_ok Smart.score_values Smart.score_values = true.
Proof. vm_compute. reflexivity. Qed.

Lemma smart_score_values_intro (x : Z) : 30 <= x <= 100 -> In x Smart.score_values.
Proof.
  intros H. unfold Smart.score_values. apply in_map_iff.
  exists (Z.to_nat x). split; [lia|]. apply in_seq. lia.
Qed.

(** X27. In [SmartSEOScanner] too the two scores lie in [0, 100], and the
    overall score, [round(0.6 * technical + 0.4 * content, 1)], lies in
    [0, 100] and between the two scores. *)
Lemma smart_overall_in_range (d : Smart.ScrapedData) :
  let t := Smart._analyze_technical d in
  let c := Smart._analyze_content d in
  let o := Smart.overall (Smart._calculate_overall_score t c) in
  0 <= t <= 100 /\ 0 <= c <= 100 /\
  (0 <=? o)%float = true /\ (o <=? 100)%float = true /\
  (Py.float_of_int (Z.min t c) <=? o)%float = true /\
  (o <=? Py.float_of_int (Z.max t c))%float = true.
Proof.
  intros t c o.
  pose proof (smart_technical_range d) as Ht.
  pose proof (smart_content_range d) as Hc.
  pose proof (smart_table_forall _ _ _ smart_overall_table t c
                (smart_score_values_intro _ Ht) (smart_score_values_intro _ Hc)) as H.
  unfold Smart.overall_ok in H. fold o in H.
  repeat (apply andb_prop in H; destruct H as [H ?]).
  fold t c in Ht, Hc. repeat split; (assumption || lia).
Qed.

Example smart_overall_example :
  Smart.overall (Smart._calculate_overall_score 85 70) = 79%float /\
  Smart.overall (Smart._calculate_overall_score 93 35) = 69.8%float.
Proof. split; vm_compute; reflexivity. Qed.

(** ** URL normalisation *)

Lemma startswith_split (p s : string) :
  Py.startswith p s = true -> s = p +:+ Py.drop (String.length p) s.
Proof.
  revert s. induction p as [|a p IH]; intros s H; [reflexivity|].
  destruct s as [|b s]; [discriminate|]. simpl in H.
  destruct (Ascii.eqb_spec a b) as [->|]; [|discriminate].
  change (String b s = String b (p +:+ Py.drop (String.length p) s)).
  f_equal. apply IH, H.
Qed.

Lemma startswith_inv (p s : string) :
  Py.startswith p s = true -> exists rest, s = p +:+ rest.
Proof. intros H. eexists. apply startswith_split, H. Qed.

(** Rewriting the first ["http://"] of a string that starts with
    ["https://"] leaves that prefix in place. *)
Lemma replace_first_https (s : string) :
  Py.replace_first "http://" "https://" ("https://" +:+ s) =
  "https://" +:+ Py.replace_first "http://" "https://" s.
Proof. reflexivity. Qed.

Lemma replace_first_http (s : string) :
  Py.replace_first "http://" "https://" ("http://" +:+ s) = "https://" +:+ s.
Proof. reflexivity. Qed.

Lemma http_prefix_inj (a b : string) :
  "http://" +:+ a = "http://" +:+ b -> a = b.
Proof.
  intros H. cbv beta iota delta [String.append] in H. congruence.
Qed.

Lemma urlparse_http (s : string) :
  Url.urlparse ("http://" +:+ s) =
  let netloc := Url.take_netloc (Url.remove_unsafe s) in
  if Url.bracket_error netloc then None
  else Some {| Url.scheme := "http"; Url.netloc := netloc |}.
Proof. reflexivity. Qed.

Lemma urlparse_https (s : string) :
  Url.urlparse ("https://" +:+ s) =
  let netloc := Url.take_netloc (Url.remove_unsafe s) in
  if Url.bracket_error netloc then None
  else Some {| Url.scheme := "https"; Url.netloc := netloc |}.
Proof. reflexivity. Qed.

Lemma urlparse_http_scheme (s : string) (p : Url.Parsed) :
  Url.urlparse ("http://" +:+ s) = Some p -> Url.scheme p = "http".
Proof.
  rewrite urlparse_http. cbv zeta.
  destruct (Url.bracket_error _); [discriminate|]. intros [= <-]. reflexivity.
Qed.

Lemma urlparse_https_scheme (s : string) (p : Url.Parsed) :
  Url.urlparse ("https://" +:+ s) = Some p -> Url.scheme p = "https".
Proof.
  rewrite urlparse_https. cbv zeta.
  destruct (Url.bracket_error _); [discriminate|]. intros [= <-]. reflexivity.
Qed.

(** The netloc of a URL does not depend on which of the two schemes it has. *)
Lemma urlparse_http_https (s : string) (p : Url.Parsed) :
  Url.urlparse ("http://" +:+ s) = Some p ->
  Url.urlparse ("https://" +:+ s) =
    Some {| Url.scheme := "https"; Url.netloc := Url.netloc p |}.
Proof.
  rewrite urlparse_http, urlparse_https. cbv zeta.
  destruct (Url.bracket_error _); [discriminate|]. intros [= <-]. reflexivity.
Qed.

(** The two ways to a result of [_normalize_url]: a leading ["http://"]
    is rewritten, or the URL, with ["https://"] prepended unless it has
    that prefix, is returned as it was parsed. *)
Lemma normalize_url_cases (url r : string) :
  _normalize_url url = Some r ->
  (exists rest p, url = "http://" +:+ rest /\ r = "https://" +:+ rest /\
                  Url.urlparse url = Some p) \/
  (Py.startswith "http://" url = false /\
   exists rest p, r = "https://" +:+ rest /\ Url.urlparse r = Some p /\
     (url = r \/ (Py.startswith "https://" url = false /\ rest = url))).
Proof.
  unfold _normalize_url.
  destruct (Py.startswith "http://" url) eqn:Hhttp.
  - apply startswith_inv in Hhttp as [rest ->]. cbn [orb negb].
    destruct (Url.urlparse ("http://" +:+ rest)) as [p|] eqn:Hp; [|discriminate].
    rewrite (urlparse_http_scheme _ _ Hp).
    destruct (_ || _); [discriminate|]. rewrite String.eqb_refl.
    rewrite replace_first_http. intros [= <-]. left. eauto.
  - assert (Hgen : forall s : string,
        match Url.urlparse ("https://" +:+ s) with
        | Some parsed =>
            if negb (Py.truthy (Url.scheme parsed)) || negb (Py.truthy (Url.netloc parsed))
            then None
            else Some (if String.eqb (Url.scheme parsed) "http"
                       then Py.replace_first "http://" "https://" ("https://" +:+ s)
                       else "https://" +:+ s)
        | None => None
        end = Some r ->
        r = "https://" +:+ s /\ exists p, Url.urlparse r = Some p).
    { intros s. destruct (Url.urlparse ("https://" +:+ s)) as [p|] eqn:Hp;
        [|discriminate].
      rewrite (urlparse_https_scheme _ _ Hp).
      destruct (_ || _); [discriminate|].
      change (String.eqb "https" "http") with false. cbv iota.
      intros [= <-]. rewrite Hp. eauto. }
    destruct (Py.startswith "https://" url) eqn:Hhttps; cbn [orb negb].
    + apply startswith_inv in Hhttps as [rest ->].
      intros H. apply Hgen in H as [-> [p Hp]].
      right. split; [reflexivity|]. exists rest, p. auto.
    + intros H. apply Hgen in H as [-> [p Hp]].
      right. split; [reflexivity|]. exists url, p. auto.
Qed.

(** C8. A result of [_normalize_url] starts with ["https://"] and so is
    never an http URL; an input without scheme prefix gets ["https://"]
    prepended, and an input that starts with ["http://"] has that prefix
    rewritten to ["https://"]. *)
Theorem normalize_url_https (url r : string) :
  _normalize_url url = Some r ->
  Py.startswith "https://" r = true /\
  Py.startswith "http://" r = false /\
  (Py.startswith "http://" url = false -> Py.startswith "https://" url = false ->
   r = "https://" +:+ url) /\
  (forall rest, url = "http://" +:+ rest -> r = "https://" +:+ rest).
Proof.
  intros H.
  apply normalize_url_cases in H
    as [(rest & p & -> & -> & _)|(Hhttp & rest & p & -> & _ & Hurl)].
  - repeat split; try reflexivity; try discriminate.
    intros rest' E. apply http_prefix_inj in E as <-. reflexivity.
  - split; [reflexivity|]. split; [reflexivity|]. split.
    + intros _ Hhttps. destruct Hurl as [->|[_ ->]]; [discriminate|reflexivity].
    + intros rest' ->. discriminate.
Qed.

Lemma normalize_url_https_witness :
  _normalize_url "http://example.com/a" = Some "https://example.com/a" /\
  Py.startswith "https://" "https://example.com/a" = true.
Proof.
  split; [reflexivity|].
  exact (proj1 (normalize_url_https "http://example.com/a" "https://example.com/a"
                  eq_refl)).
Defined.

(** The URL that [_normalize_url] returns parses again. *)
Lemma normalize_url_parses (url r : string) :
  _normalize_url url = Some r -> exists p, Url.urlparse r = Some p /\ Url.scheme p = "https".
Proof.
  intros H.
  apply normalize_url_cases in H
    as [(rest & p & -> & -> & Hp)|(_ & rest & p & -> & Hp & _)].
  - rewrite (urlparse_http_https _ _ Hp). eauto.
  - exists p. split; [exact Hp|exact (urlparse_https_scheme _ _ Hp)].
Qed.

(** ** The document and its mutation by [_analyze_content] *)

Section Decompose.

Variable tags : list string.
Variable p : string -> list (string * string) -> bool.

Lemma find_all_app (s1 s2 : Dom.soup) :
  Dom.find_all p (s1 ++ s2) = (Dom.find_all p s1 ++ Dom.find_all p s2)%list.
Proof. unfold Dom.find_all. apply flat_map_app. Qed.

Lemma length_flat_map {A B : Type} (f : A -> list B) (l : list A) :
  length (flat_map f l) = list_sum (map (fun x => length (f x)) l).
Proof.
  induction l as [|x l IH]; [reflexivity|].
  cbn. rewrite length_app, IH. reflexivity.
Qed.

Lemma list_sum_ext {A : Type} (f g : A -> nat) (l : list A) :
  Forall (fun x => f x = g x) l -> list_sum (map f l) = list_sum (map g l).
Proof.
  induction 1 as [|x l Hx _ IH]; [reflexivity|].
  change (f x + list_sum (map f l) = g x + list_sum (map g l))%nat. congruence.
Qed.

Lemma list_sum_add {A : Type} (f g : A -> nat) (l : list A) :
  (list_sum (map f l) + list_sum (map g l))%nat =
  list_sum (map (fun x => (f x + g x)%nat) l).
Proof.
  induction l as [|x l IH]; [reflexivity|].
  change (f x + list_sum (map f l) + (g x + list_sum (map g l))
          = f x + g x + list_sum (map (fun x => f x + g x) l))%nat. lia.
Qed.

Lemma length_find_all_flat (ns : list Dom.node) (f : Dom.node -> list Dom.node) :
  length (flat_map (Dom.find_all_node p) (flat_map f ns)) =
  list_sum (map (fun n => length (flat_map (Dom.find_all_node p) (f n))) ns).
Proof.
  induction ns as [|n ns IH]; [reflexivity|].
  cbn. rewrite flat_map_app, length_app, IH. reflexivity.
Qed.

(** What is found after the removal is what lies outside the removed tags. *)
Lemma count_after_decompose_node (n : Dom.node) :
  length (flat_map (Dom.find_all_node p) (Dom.decompose_node tags n)) =
  Dom.count_outside_node tags p n.
Proof.
  induction n as [s|name attrs contents IH] using node_rect'; [reflexivity|].
  cbn [Dom.decompose_node Dom.count_outside_node].
  destruct (existsb (String.eqb name) tags); [reflexivity|].
  cbn [flat_map Dom.find_all_node]. rewrite app_nil_r, length_app.
  rewrite length_find_all_flat. f_equal.
  - destruct (p name attrs); reflexivity.
  - apply list_sum_ext, IH.
Qed.

Lemma count_after_decompose (s : Dom.soup) :
  length (Dom.find_all p (Dom.decompose_all tags s)) = Dom.count_outside tags p s.
Proof.
  unfold Dom.find_all, Dom.decompose_all, Dom.count_outside.
  rewrite length_find_all_flat. apply list_sum_ext, Forall_forall.
  intros n _. apply count_after_decompose_node.
Qed.

(** Every match is either outside or inside the removed tags. *)
Lemma count_outside_inside_node (n : Dom.node) :
  (Dom.count_outside_node tags p n + Dom.count_inside_node tags p n)%nat =
  length (Dom.find_all_node p n).
Proof.
  induction n as [s|name attrs contents IH] using node_rect'; [reflexivity|].
  cbn [Dom.count_outside_node Dom.count_inside_node].
  destruct (existsb (String.eqb name) tags); [reflexivity|].
  cbn [Dom.find_all_node]. rewrite length_app, length_flat_map.
  rewrite <- (list_sum_ext _ _ _ IH), <- list_sum_add.
  destruct (p name attrs); cbn [length]; lia.
Qed.

Lemma count_outside_inside (s : Dom.soup) :
  (Dom.count_outside tags p s + Dom.count_inside tags p s)%nat =
  length (Dom.find_all p s).
Proof.
  unfold Dom.count_outside, Dom.count_inside, Dom.find_all.
  rewrite length_flat_map, list_sum_add.
  apply list_sum_ext, Forall_forall. intros n _. apply count_outside_inside_node.
Qed.

End Decompose.

(** No removed tag is left in the document. *)
Lemma decompose_removes_node (tags : list string) (n : Dom.node) :
  flat_map (Dom.find_all_node (Dom.name_in tags)) (Dom.decompose_node tags n) = [].
Proof.
  induction n as [s|name attrs contents IH] using node_rect'; [reflexivity|].
  cbn [Dom.decompose_node].
  destruct (existsb (String.eqb name) tags) eqn:E; [reflexivity|].
  cbn [flat_map Dom.find_all_node]. unfold Dom.name_in at 1. rewrite E.
  rewrite app_nil_r. cbn [app].
  induction IH as [|x l Hx _ IHl]; [reflexivity|].
  cbn [flat_map]. rewrite flat_map_app, Hx, IHl. reflexivity.
Qed.

Lemma decompose_removes (tags : list string) (s : Dom.soup) :
  Dom.find_all (Dom.name_in tags) (Dom.decompose_all tags s) = [].
Proof.
  unfold Dom.find_all, Dom.decompose_all.
  induction s as [|n s IH]; [reflexivity|].
  cbn [flat_map]. rewrite flat_map_app, decompose_removes_node, IH. reflexivity.
Qed.

(** C10. [_analyze_content] leaves in [soup] the document without its
    script, style and noscript tags.  In [scan_url] the image and link
    counts are taken on that document, so they count the tags outside the
    removed ones and miss exactly those inside, while the metadata is what
    [_extract_metadata] reads on the document as parsed. *)
Theorem analyze_content_mutates_soup (env : Env) (soup : Dom.soup) (url : string)
    (http_status : Z) (html : string) (load_time : Z) (an : Analysis) :
  run_analysis_modules env soup url http_status html load_time = Ok an ->
  let soup' := snd (_analyze_content soup) in
  soup' = Dom.decompose_all ["script"; "style"; "noscript"] soup /\
  Dom.find_all (Dom.name_in ["script"; "style"; "noscript"]) soup' = [] /\
  an_images an = _analyze_images soup' url /\
  image_count (an_images an) = Dom.count_outside removed_tags (Dom.name_is "img") soup /\
  (image_count (an_images an) + Dom.count_inside removed_tags (Dom.name_is "img") soup)%nat
    = length (Dom.find_all (Dom.name_is "img") soup) /\
  link_count (an_links an) =
    Dom.count_outside removed_tags (Dom.has_attr "a" "href") soup /\
  (link_count (an_links an)
   + Dom.count_inside removed_tags (Dom.has_attr "a" "href") soup)%nat
    = length (Dom.find_all (Dom.has_attr "a" "href") soup) /\
  an_metadata an = _extract_metadata soup url.
Proof.
  intros H soup'.
  assert (Hs : soup' = Dom.decompose_all removed_tags soup) by reflexivity.
  clearbody soup'.
  unfold run_analysis_modules in H.
  destruct (_analyze_technical _ _ _ _) as [technical|]; [|discriminate].
  cbn [_analyze_content] in H. rewrite <- Hs in H.
  destruct (_analyze_links env soup' url) as [links|] eqn:Hl; [|discriminate].
  destruct (_extract_structured_data env soup') as [sd|]; [|discriminate].
  injection H as <-. cbn [an_images an_links an_metadata].
  assert (Hlinks : link_count links = length (Dom.find_all (Dom.has_attr "a" "href") soup')).
  { unfold _analyze_links in Hl. destruct (Url.urlparse url); [|discriminate].
    destruct (count_links _ _ _ _ _ _) as [[i e]|]; [|discriminate].
    injection Hl as <-. reflexivity. }
  assert (Himg : image_count (_analyze_images soup' url)
                 = length (Dom.find_all (Dom.name_is "img") soup')).
  { unfold _analyze_images. destruct (fold_left _ _ _). reflexivity. }
  rewrite Hlinks, Himg, Hs, !count_after_decompose.
  split; [reflexivity|]. split; [apply decompose_removes|].
  split; [reflexivity|]. split; [reflexivity|].
  split; [apply count_outside_inside|]. split; [reflexivity|].
  split; [apply count_outside_inside|reflexivity].
Qed.

Lemma analyze_content_mutates_soup_witness :
  match run_analysis_modules Demo.env Demo.soup "https://example.com/" 200 "<html>" 120 with
  | Ok an =>
      image_count (an_images an) = 1%nat /\
      length (Dom.find_all (Dom.name_is "img") Demo.soup) = 2%nat /\
      h1_tags (an_metadata an) = ["Hello"; "Fallback"] /\
      h1 (heading_counts (an_content an)) = 1%nat
  | Raise _ => False
  end.
Proof.
  destruct (run_analysis_modules Demo.env Demo.soup "https://example.com/" 200 "<html>" 120)
    as [an|e] eqn:E.
  - pose proof (analyze_content_mutates_soup _ _ _ _ _ _ _ E)
      as (_ & _ & _ & Himg & _ & _ & _ & Hmeta).
    rewrite Himg, Hmeta.
    split; [reflexivity|]. split; [reflexivity|]. split; [reflexivity|].
    vm_compute in E. injection E as <-. reflexivity.
  - vm_compute in E. discriminate.
Defined.

(** A document without match for [q'] has none for a stronger test [q]. *)
Lemma find_all_node_none (q q' : string -> list (string * string) -> bool)
    (Hq : forall n a, q n a = true -> q' n a = true) (n : Dom.node) :
  Dom.find_all_node q' n = [] -> Dom.find_all_node q n = [].
Proof.
  induction n as [t|name attrs contents IH] using node_rect'; [reflexivity|].
  cbn [Dom.find_all_node].
  destruct (q' name attrs) eqn:En; [discriminate|].
  destruct (q name attrs) eqn:Eq; [rewrite (Hq _ _ Eq) in En; discriminate|].
  cbn [app]. induction IH as [|x l Hx _ IHl]; [reflexivity|].
  cbn [flat_map]. intros Happ. apply app_eq_nil in Happ as [H1 H2].
  rewrite (Hx H1), (IHl H2). reflexivity.
Qed.

Lemma find_all_none (q q' : string -> list (string * string) -> bool)
    (Hq : forall n a, q n a = true -> q' n a = true) (s : Dom.soup) :
  Dom.find_all q' s = [] -> Dom.find_all q s = [].
Proof.
  unfold Dom.find_all. induction s as [|n s IH]; [reflexivity|].
  cbn [flat_map]. intros Happ. apply app_eq_nil in Happ as [H1 H2].
  rewrite (find_all_node_none q q' Hq n H1), (IH H2). reflexivity.
Qed.

(** After [_analyze_content] no JSON-LD script is left for
    [_extract_structured_data], which therefore finds no schema. *)
Lemma structured_data_after_content (env : Env) (soup : Dom.soup) :
  _extract_structured_data env (snd (_analyze_content soup)) =
  Ok {| json_ld := []; has_schema := false |}.
Proof.
  unfold _extract_structured_data. cbn [_analyze_content snd].
  rewrite (find_all_none _ (Dom.name_in removed_tags)); [reflexivity| |].
  - intros n a Hq. unfold Dom.has_attr_value in Hq. unfold Dom.name_in, removed_tags.
    apply andb_prop in Hq as [Hn _]. apply String.eqb_eq in Hn as ->. reflexivity.
  - apply decompose_removes.
Qed.

(** ** Reasoning about effectful code *)

Lemma bind_inv {A B : Type} (m : M A) (k : A -> M B) (w : World)
    (r : Result B) (w' : World) :
  bind m k w = (r, w') ->
  (exists e, m w = (Raise e, w') /\ r = Raise e) \/
  (exists a w1, m w = (Ok a, w1) /\ k a w1 = (r, w')).
Proof.
  unfold bind. destruct (m w) as [[a|e] w1]; intros H.
  - right. eauto.
  - left. injection H as <- <-. eauto.
Qed.

Lemma try_except_inv {A : Type} (body : M A) (h : exn -> M A) (w : World)
    (r : Result A) (w' : World) :
  try_except body h w = (r, w') ->
  (exists a, body w = (Ok a, w') /\ r = Ok a) \/
  (exists e w1, body w = (Raise e, w1) /\ h e w1 = (r, w')).
Proof.
  unfold try_except. destruct (body w) as [[a|e] w1]; intros H.
  - left. injection H as <- <-. eauto.
  - right. eauto.
Qed.

Lemma try_except_class_inv {A : Type} (cls : exn -> bool) (body : M A)
    (h : exn -> M A) (w : World) (r : Result A) (w' : World) :
  try_except_class cls body h w = (r, w') ->
  (exists a, body w = (Ok a, w') /\ r = Ok a) \/
  (exists e w1, body w = (Raise e, w1) /\ cls e = true /\ h e w1 = (r, w')) \/
  (exists e, body w = (Raise e, w') /\ cls e = false /\ r = Raise e).
Proof.
  unfold try_except_class. destruct (body w) as [[a|e] w1]; intros H.
  - left. injection H as <- <-. eauto.
  - destruct (cls e) eqn:E.
    + right. left. eauto.
    + right. right. injection H as <- <-. eauto.
Qed.

(** One request to the database either raises, consuming one entry of the
    schedule, or performs its operation. *)
Lemma execute_inv {A : Type} (op : World -> A * World) (w : World)
    (r : Result A) (w' : World) :
  execute op w = (r, w') ->
  let w0 := set_faults (tail (faults w)) w in
  (hd false (faults w) = true /\ r = Raise (APIError "request failed") /\ w' = w0) \/
  (hd false (faults w) = false /\ r = Ok (fst (op w0)) /\ w' = snd (op w0)).
Proof.
  unfold execute. destruct (hd false (faults w)); intros H.
  - left. injection H as <- <-. auto.
  - right. destruct (op _) as [a w1]. injection H as <- <-. auto.
Qed.

Section FrameRules.

Context (R : World -> World -> Prop) `{!Frame R}.

Lemma preserves_state {A : Type} (m : M A) :
  (forall w, R w (snd (m w))) -> preserves R m.
Proof. intros H w r w' E. specialize (H w). rewrite E in H. exact H. Qed.

Lemma preserves_ret {A : Type} (a : A) : preserves R (ret a).
Proof. intros w r w' [= <- <-]. apply frame_refl. Qed.

Lemma preserves_raise {A : Type} (e : exn) : preserves R (@raise A e).
Proof. intros w r w' [= <- <-]. apply frame_refl. Qed.

(** An update whose payload holds a request builder changes nothing. *)
Lemma preserves_unsent_update (uid : string) (balance : Z) (fn : string)
    (params : list (string * Z)) :
  preserves R (update_profile_credits uid balance (rpc fn params)).
Proof. intros w r w' [= <- <-]. apply frame_refl. Qed.

Lemma preserves_lift {A : Type} (x : Result A) : preserves R (lift x).
Proof. intros w r w' [= <- <-]. apply frame_refl. Qed.

Lemma preserves_now : preserves R now.
Proof. intros w r w' [= <- <-]. apply frame_refl. Qed.

Lemma preserves_bind {A B : Type} (m : M A) (k : A -> M B) :
  preserves R m -> (forall a, preserves R (k a)) -> preserves R (bind m k).
Proof.
  intros Hm Hk w r w' E. apply bind_inv in E as [(e & E & _)|(a & w1 & E1 & E2)].
  - exact (Hm _ _ _ E).
  - exact (frame_trans _ _ _ (Hm _ _ _ E1) (Hk _ _ _ _ E2)).
Qed.

Lemma preserves_try_except {A : Type} (body : M A) (h : exn -> M A) :
  preserves R body -> (forall e, preserves R (h e)) -> preserves R (try_except body h).
Proof.
  intros Hb Hh w r w' E.
  apply try_except_inv in E as [(a & E & _)|(e & w1 & E1 & E2)].
  - exact (Hb _ _ _ E).
  - exact (frame_trans _ _ _ (Hb _ _ _ E1) (Hh _ _ _ _ E2)).
Qed.

Lemma preserves_try_except_class {A : Type} (cls : exn -> bool) (body : M A)
    (h : exn -> M A) :
  preserves R body -> (forall e, preserves R (h e)) ->
  preserves R (try_except_class cls body h).
Proof.
  intros Hb Hh w r w' E.
  apply try_except_class_inv in E
    as [(a & E & _)|[(e & w1 & E1 & _ & E2)|(e & E & _)]].
  - exact (Hb _ _ _ E).
  - exact (frame_trans _ _ _ (Hb _ _ _ E1) (Hh _ _ _ _ E2)).
  - exact (Hb _ _ _ E).
Qed.

End FrameRules.

#[export] Instance same_profiles_frame : Frame same_profiles.
Proof. split; unfold same_profiles; congruence. Qed.
#[export] Instance same_ledger_frame : Frame same_ledger.
Proof. split; unfold same_ledger; congruence. Qed.
#[export] Instance same_steps_frame : Frame same_steps.
Proof. split; unfold same_steps; congruence. Qed.
#[export] Instance same_model_calls_frame : Frame same_model_calls.
Proof. split; unfold same_model_calls; congruence. Qed.
#[export] Instance same_scans_length_frame : Frame same_scans_length.
Proof. split; unfold same_scans_length; congruence. Qed.
#[export] Instance faults_shrink_frame : Frame faults_shrink.
Proof.
  split; unfold faults_shrink.
  - reflexivity.
  - intros a b c H1 H2. etrans; eassumption.
Qed.

Lemma suffix_tail_self {A : Type} (l : list A) : suffix (tail l) l.
Proof. destruct l as [|x l]; [reflexivity|]. exists [x]. reflexivity. Qed.

(** A primitive of the world: unfold it and compare the field. *)
Ltac frame_primitive :=
  apply preserves_state; intros ?w;
  unfold select_profile, update_profile, insert_scan, update_scan,
    insert_transaction, insert_ai_usage, execute, step, session_get,
    model_generate;
  unfold same_profiles, same_ledger, same_steps, same_model_calls,
    same_scans_length, faults_shrink;
  repeat match goal with
         | |- context [match ?x with _ => _ end] => destruct x
         end;
  cbn;
  first [ reflexivity
        | apply suffix_tail_self
        | apply length_alter ].

(** A compound computation: follow its structure. *)
Ltac frame_structure :=
  repeat first
    [ apply preserves_bind; [typeclasses eauto| |intros ?]
    | apply preserves_try_except; [typeclasses eauto| |intros ?]
    | apply preserves_try_except_class; [typeclasses eauto| |intros ?]
    | apply preserves_ret; typeclasses eauto
    | apply preserves_raise; typeclasses eauto
    | apply preserves_unsent_update; typeclasses eauto
    | apply preserves_lift; typeclasses eauto
    | apply preserves_now; typeclasses eauto
    | match goal with
      | |- preserves _ (match ?x with _ => _ end) => destruct x
      end
    | progress unfold _check_scan_limits, _create_scan_record,
        _update_scan_status, _mark_scan_failed, _fetch_page,
        _increment_scan_counter, scan_failed, scan_attempt,
        check_credits, deduct_credits, _log_ai_usage, _parse_audit_response,
        to_int, cost_of
    | frame_primitive ].

(** ** The scanner *)

Section ScannerFacts.

Variable env : Env.

Lemma scan_attempt_faults (uid url : string) (id : nat) :
  preserves faults_shrink (scan_attempt env uid url id).
Proof. frame_structure. Qed.

Lemma scan_attempt_scans_length (uid url : string) (id : nat) :
  preserves same_scans_length (scan_attempt env uid url id).
Proof. frame_structure. Qed.

Lemma fetch_page_profiles (url : string) :
  preserves same_profiles (_fetch_page env url).
Proof. frame_structure. Qed.

Lemma fetch_page_steps (url : string) :
  preserves same_steps (_fetch_page env url).
Proof. frame_structure. Qed.

Lemma mark_scan_failed_profiles (id : nat) (msg : string) :
  preserves same_profiles (_mark_scan_failed id msg).
Proof. frame_structure. Qed.

Lemma mark_scan_failed_steps (id : nat) (msg : string) :
  preserves same_steps (_mark_scan_failed id msg).
Proof. frame_structure. Qed.

Lemma increment_steps (uid : string) :
  preserves same_steps (_increment_scan_counter uid).
Proof. frame_structure. Qed.

Lemma check_scan_limits_frames (uid : string) :
  preserves same_profiles (_check_scan_limits uid) /\
  preserves same_steps (_check_scan_limits uid) /\
  preserves faults_shrink (_check_scan_limits uid).
Proof. repeat split; frame_structure. Qed.

Lemma create_scan_record_frames (uid url domain : string) :
  preserves same_profiles (_create_scan_record uid url domain) /\
  preserves same_steps (_create_scan_record uid url domain) /\
  preserves faults_shrink (_create_scan_record uid url domain).
Proof. repeat split; frame_structure. Qed.

Lemma hd_true_elem (l : list bool) : hd false l = true -> true ∈ l.
Proof. destruct l as [|b l]; [discriminate|]. cbn. intros ->. left. Qed.

Lemma shrink_elem (w w' : World) :
  faults_shrink w w' -> true ∈ faults w' -> true ∈ faults w.
Proof. intros [k ->] H. apply elem_of_app. right. exact H. Qed.

(** Without a failure left in the schedule, the next two requests pass. *)
Lemma no_fault_ahead (w w' : World) :
  true ∉ faults w -> faults_shrink w w' ->
  hd false (faults w') = false /\ hd false (tail (faults w')) = false.
Proof.
  intros Hno Hs.
  assert (H : true ∉ faults w') by (intros H; exact (Hno (shrink_elem _ _ Hs H))).
  destruct (faults w') as [|[|] [|[|] l]]; cbn; auto;
    exfalso; apply H; repeat constructor.
Qed.

Lemma execute_raises {A : Type} (op : World -> A * World) (w : World) (e : exn)
    (w' : World) :
  execute op w = (Raise e, w') -> e = APIError "request failed" /\ true ∈ faults w.
Proof.
  intros H. apply execute_inv in H as [(Hhd & [= ->] & _)|(_ & [=] & _)].
  split; [reflexivity|apply hd_true_elem, Hhd].
Qed.

Lemma total_handler_never_raises {A : Type} (body : M A) (x : A) (w : World)
    (e : exn) (w' : World) :
  try_except body (fun _ => ret x) w = (Raise e, w') -> False.
Proof.
  intros H. apply try_except_inv in H as [(a & _ & [=])|(e0 & w1 & _ & [=])].
Qed.

Lemma increment_never_raises (uid : string) (w : World) (e : exn) (w' : World) :
  _increment_scan_counter uid w = (Raise e, w') -> False.
Proof. apply total_handler_never_raises. Qed.

Lemma check_scan_limits_never_raises (uid : string) (w : World) (e : exn)
    (w' : World) :
  _check_scan_limits uid w = (Raise e, w') -> False.
Proof. apply total_handler_never_raises. Qed.

(** The invariant carried through [scan_attempt]: the stages gone through
    so far, the untouched profiles and the shrinking schedule. *)
Ltac quiet E Hs Hp Hf :=
  match type of E with
  | ?m ?wi = (_, ?wj) =>
      let Hs' := fresh "Hs" in
      let Hp' := fresh "Hp" in
      let Hf' := fresh "Hf" in
      assert (Hs' : same_steps wi wj)
        by (refine ((_ : preserves same_steps m) _ _ _ E); frame_structure);
      assert (Hp' : same_profiles wi wj)
        by (refine ((_ : preserves same_profiles m) _ _ _ E); frame_structure);
      assert (Hf' : faults_shrink wi wj)
        by (refine ((_ : preserves faults_shrink m) _ _ _ E); frame_structure);
      pose proof (eq_trans Hs' Hs); pose proof (eq_trans Hp' Hp);
      pose proof (frame_trans (R := faults_shrink) _ _ _ Hf Hf');
      clear Hs Hp Hf Hs' Hp' Hf'
  end.

Ltac stepped E Hs Hp Hf :=
  match type of E with
  | step ?s ?wi = (_, ?wj) =>
      let Hs' := fresh "Hs" in
      let Hp' := fresh "Hp" in
      let Hf' := fresh "Hf" in
      unfold step in E;
      assert (Hs' : steps wj = steps wi ++ [s]) by (injection E as _ <-; reflexivity);
      assert (Hp' : profiles wj = profiles wi) by (injection E as _ <-; reflexivity);
      assert (Hf' : faults wj = faults wi) by (injection E as _ <-; reflexivity);
      rewrite Hs, <- app_assoc in Hs'; cbn [app] in Hs';
      pose proof (eq_trans Hp' Hp);
      match type of Hf with
      | faults_shrink ?w0 _ =>
          assert (faults_shrink w0 wj)
            by (unfold faults_shrink in *; rewrite Hf'; exact Hf)
      end;
      clear Hs Hp Hf E Hp' Hf'
  end.

Ltac next_bind H E :=
  let e := fresh "e" in
  let a := fresh "a" in
  let w1 := fresh "w" in
  apply bind_inv in H as [(e & E & ->)|(a & w1 & E & H)]; [|cbv beta in H].

Ltac stopped :=
  match goal with
  | Hs : steps ?w' = steps _ ++ ?d, Hp : profiles ?w' = _
    |- exists _, steps ?w' = _ /\ _ =>
      exists d; split; [exact Hs|]; split; [eexists; reflexivity|exact Hp]
  end.

Ltac quiet_stage H :=
  let E := fresh "E" in
  next_bind H E;
  [ match goal with
    | Hs : steps _ = _, Hp : profiles _ = _, Hf : faults_shrink _ _ |- _ =>
        quiet E Hs Hp Hf
    end; stopped
  | match goal with
    | Hs : steps _ = _, Hp : profiles _ = _, Hf : faults_shrink _ _ |- _ =>
        quiet E Hs Hp Hf
    end; clear E ].

Ltac step_stage H :=
  let E := fresh "E" in
  next_bind H E;
  [ unfold step in E; discriminate E
  | match goal with
    | Hs : steps _ = _, Hp : profiles _ = _, Hf : faults_shrink _ _ |- _ =>
        stepped E Hs Hp Hf
    end ].

Lemma scan_attempt_cases (uid url : string) (id : nat) (w : World)
    (r : Result (option nat)) (w' : World) :
  scan_attempt env uid url id w = (r, w') ->
  exists d, steps w' = steps w ++ d /\
    match r with
    | Ok (Some id') =>
        id' = id /\ d = pipeline /\
        exists w2, profiles w2 = profiles w /\ faults_shrink w w2 /\
                   _increment_scan_counter uid w2 = (Ok tt, w')
    | _ => d `prefix_of` pipeline /\ profiles w' = profiles w
    end.
Proof.
  intros H.
  assert (Hs : steps w = steps w ++ []) by (rewrite app_nil_r; reflexivity).
  assert (Hp : profiles w = profiles w) by reflexivity.
  assert (Hf : faults_shrink w w) by apply frame_refl.
  unfold scan_attempt in H.
  quiet_stage H. quiet_stage H. step_stage H. quiet_stage H.
  match type of H with
  | match ?x with _ => _ end _ = _ => destruct x as [[html status] load]
  end.
  assert (Hfail : forall wi d,
             steps wi = steps w ++ d -> d `prefix_of` pipeline ->
             profiles wi = profiles w ->
             (_mark_scan_failed id ("Failed to fetch page: HTTP " +:+ Py.str_of_int status);;
              ret None) wi = (r, w') ->
             exists d, steps w' = steps w ++ d /\
               match r with
               | Ok (Some id') =>
                   id' = id /\ d = pipeline /\
                   exists w2, profiles w2 = profiles w /\ faults_shrink w w2 /\
                              _increment_scan_counter uid w2 = (Ok tt, w')
               | _ => d `prefix_of` pipeline /\ profiles w' = profiles w
               end).
  { intros wi d Hs' Hd Hp' Hm.
    assert (Hf' : faults_shrink wi wi) by apply frame_refl.
    apply bind_inv in Hm as [(e & E & ->)|(a2 & wj & E & Hm)].
    - quiet E Hs' Hp' Hf'. eauto.
    - quiet E Hs' Hp' Hf'. injection Hm as <- <-. eauto. }
  destruct html as [html|]; [destruct (Py.truthy html)|].
  - step_stage H. step_stage H. quiet_stage H.
    step_stage H. step_stage H. step_stage H.
    quiet_stage H. quiet_stage H. quiet_stage H. quiet_stage H.
    next_bind H E.
    + destruct (increment_never_raises _ _ _ _ E).
    + injection H as <- <-.
      pose proof (increment_steps uid _ _ _ E) as Hst. unfold same_steps in Hst.
      eexists. split; [etrans; [exact Hst|eassumption]|].
      split; [reflexivity|]. split; [reflexivity|].
      repeat match goal with u : unit |- _ => destruct u end. eauto.
  - eapply Hfail; [eassumption|eexists; reflexivity|eassumption|exact H].
  - eapply Hfail; [eassumption|eexists; reflexivity|eassumption|exact H].
Qed.

Lemma int_some_truthy (s : string) (n : Z) : Py.int s = Some n -> Py.truthy s = true.
Proof. destruct s; [discriminate|reflexivity]. Qed.

(** [_fetch_page] on a response whose Content-Length exceeds the limit. *)
Lemma fetch_page_too_large (url : string) (w : World) (resp : Response)
    (cl : string) (n : Z) :
  http_get env url = HttpReturns resp ->
  header_get (headers resp) "content-length" = Some cl ->
  Py.int cl = Some n -> MAX_PAGE_SIZE < n ->
  _fetch_page env url w =
    (Ok (None, status_code resp, elapsed_ms resp),
     set_clock (clock w + elapsed_ms resp) w).
Proof.
  intros Hget Hhdr Hint Hn.
  unfold _fetch_page, try_except_class, bind, now, session_get.
  rewrite Hget. cbn [clock set_clock]. rewrite Hhdr, (int_some_truthy _ _ Hint), Hint.
  unfold ret. apply Z.ltb_lt in Hn. rewrite Hn.
  repeat f_equal. lia.
Qed.

(** [_fetch_page] on a response without Content-Length. *)
Lemma fetch_page_no_length (url : string) (w : World) (resp : Response)
    (body : string) :
  http_get env url = HttpReturns resp ->
  header_get (headers resp) "content-length" = None ->
  text resp = Ok body ->
  _fetch_page env url w =
    (Ok (Some body, status_code resp, elapsed_ms resp),
     set_clock (clock w + elapsed_ms resp) w).
Proof.
  intros Hget Hhdr Htext.
  unfold _fetch_page, try_except_class, bind, now, session_get.
  rewrite Hget. cbn [clock set_clock]. rewrite Hhdr.
  unfold ret, lift. rewrite Htext.
  repeat f_equal. lia.
Qed.

Lemma lookup_set_failed (l : list ScanRow) (id : nat) (msg : string) (t : Z) :
  (id < length l)%nat ->
  exists row, alter (set_failed msg t) id l !! id = Some row /\
    status row = "failed" /\ error_message row = Some msg /\
    completed_at row = Some t.
Proof.
  intros Hlt. destruct (lookup_lt_is_Some_2 l id Hlt) as [row0 Hrow].
  exists (set_failed msg t row0). rewrite list_lookup_alter, Hrow.
  rewrite decide_True by reflexivity.
  repeat split; reflexivity.
Qed.

Lemma scan_url_too_large (uid raw url : string) (w : World) (resp : Response)
    (cl : string) (n : Z) (p : Profile) :
  _normalize_url raw = Some url ->
  http_get env url = HttpReturns resp ->
  header_get (headers resp) "content-length" = Some cl ->
  Py.int cl = Some n -> MAX_PAGE_SIZE < n ->
  faults w = [] -> profiles w !! uid = Some p ->
  monthly_scans_used p < monthly_scan_limit p ->
  exists w', scan_url env uid raw w = (Ok None, w') /\
    marked_failed w' (length (scans w))
      ("Failed to fetch page: HTTP " +:+ Py.str_of_int (status_code resp))
      (clock w + elapsed_ms resp).
Proof.
  intros Hnorm Hget Hhdr Hint Hn Hf Hp Hlim.
  destruct (normalize_url_parses _ _ Hnorm) as (parsed & Hparse & _).
  unfold scan_url. rewrite Hnorm, Hparse.
  destruct w as [pr sc tx au fl ck mc st]. cbn in Hf, Hp. subst fl.
  unfold bind at 1. unfold _check_scan_limits, try_except, bind, select_profile, execute.
  cbn. rewrite Hp. cbn. rewrite (proj2 (Z.ltb_lt _ _) Hlim). cbn.
  unfold _create_scan_record, try_except, bind, now, insert_scan, execute. cbn.
  rewrite (fetch_page_too_large _ _ _ _ _ Hget Hhdr Hint Hn). cbn.
  eexists. split; [reflexivity|].
  unfold marked_failed. cbn [scans set_scans]. apply lookup_set_failed.
  rewrite length_alter, length_app. cbn. lia.
Qed.

Lemma create_scan_record_raises (uid url dom : string) (w : World) (e : exn)
    (w' : World) :
  _create_scan_record uid url dom w = (Raise e, w') ->
  e = APIError "request failed" /\ true ∈ faults w.
Proof.
  intros H. apply try_except_inv in H as [(a & _ & [=])|(e0 & w1 & Hb & [= <- <-])].
  apply bind_inv in Hb as [(e1 & [=] & _)|(t & w2 & [= <- <-] & Hi)].
  exact (execute_raises _ _ _ _ Hi).
Qed.

Lemma mark_scan_failed_raises (id : nat) (msg : string) (w : World) (e : exn)
    (w' : World) :
  _mark_scan_failed id msg w = (Raise e, w') ->
  e = APIError "request failed" /\ true ∈ faults w.
Proof.
  intros H. apply bind_inv in H as [(e1 & [=] & _)|(t & w2 & [= <- <-] & Hi)].
  exact (execute_raises _ _ _ _ Hi).
Qed.

Lemma mark_scan_failed_ok (id : nat) (msg : string) (w : World) :
  hd false (faults w) = false -> (id < length (scans w))%nat ->
  exists w', _mark_scan_failed id msg w = (Ok tt, w') /\
    marked_failed w' id msg (clock w) /\ profiles w' = profiles w.
Proof.
  intros Hhd Hlt. unfold _mark_scan_failed, bind, now, update_scan, execute.
  rewrite Hhd. eexists. split; [reflexivity|]. split; [|reflexivity].
  unfold marked_failed. cbn. apply lookup_set_failed, Hlt.
Qed.

(** What the [except] clause of [scan_url] can end in. *)
Lemma scan_failed_cases (id : nat) (e : exn) (w : World) (r : Result (option nat))
    (w' : World) :
  scan_failed id e w = (r, w') ->
  profiles w' = profiles w /\ steps w' = steps w /\
  (r = Ok None \/ (r = Raise (APIError "request failed") /\ true ∈ faults w)).
Proof.
  intros H.
  split; [exact ((ltac:(frame_structure) : preserves same_profiles (scan_failed id e)) _ _ _ H)|].
  split; [exact ((ltac:(frame_structure) : preserves same_steps (scan_failed id e)) _ _ _ H)|].
  apply bind_inv in H as [(e1 & Hm & ->)|(t & w2 & _ & [= <- <-])]; [|left; reflexivity].
  right. apply mark_scan_failed_raises in Hm as [-> Hin]. auto.
Qed.

Lemma check_scan_limits_true (uid : string) (w w' : World) :
  _check_scan_limits uid w = (Ok true, w') ->
  exists p, profiles w !! uid = Some p /\ monthly_scans_used p < monthly_scan_limit p.
Proof.
  intros H. apply try_except_inv in H as [(a & Hb & [= <-])|(e0 & w1 & _ & [=])].
  apply bind_inv in Hb as [(e1 & _ & [=])|(o & w2 & Hs & Hr)].
  apply execute_inv in Hs as [(_ & [=] & _)|(_ & [= ->] & ->)].
  cbn in Hr. destruct (profiles w !! uid) as [p|]; [|discriminate].
  injection Hr as Hlt _. apply Z.ltb_lt in Hlt. eauto.
Qed.

(** What [_increment_scan_counter] does to the counter of its user. *)
Lemma increment_cases (uid : string) (w w' : World) :
  _increment_scan_counter uid w = (Ok tt, w') ->
  (scans_used w' uid = scans_used w uid \/
   scans_used w' uid = Z.succ <$> scans_used w uid) /\
  (hd false (faults w) = false -> hd false (tail (faults w)) = false ->
   scans_used w' uid = Z.succ <$> scans_used w uid).
Proof.
  unfold scans_used. intros H.
  apply try_except_inv in H as [(a & Hb & _)|(e0 & w1 & Hb & [= <-])].
  - apply bind_inv in Hb as [(e1 & _ & [=])|(o & w2 & Hs & Hr)].
    apply execute_inv in Hs as [(_ & [=] & _)|(Hhd & [= ->] & ->)].
    cbn in Hr. destruct (profiles w !! uid) as [p|] eqn:Hp; [|discriminate].
    apply execute_inv in Hr as [(_ & [=] & _)|(Hhd2 & _ & ->)].
    cbn. rewrite lookup_alter_eq, Hp. cbn.
    assert (Hsucc : monthly_scans_used p + 1 = Z.succ (monthly_scans_used p)) by lia.
    rewrite Hsucc. auto.
  - apply bind_inv in Hb as [(e1 & Hs & _)|(o & w2 & Hs & Hr)].
    + apply execute_inv in Hs as [(Hhd & _ & ->)|(_ & [=] & _)].
      split; [left; reflexivity|]. congruence.
    + apply execute_inv in Hs as [(_ & [=] & _)|(Hhd & [= ->] & ->)].
      cbn in Hr. destruct (profiles w !! uid) as [p|] eqn:Hp.
      * apply execute_inv in Hr as [(Hhd2 & _ & ->)|(_ & [=] & _)].
        cbn in Hhd2 |- *. rewrite ?Hp. split; [left; reflexivity|]. congruence.
      * injection Hr as _ <-. cbn. rewrite ?Hp. auto.
Qed.

(** The three ways through [scan_url]: the scan is refused before a record
    exists, the creation of the record raises, or the [try] statement runs. *)
Lemma scan_url_cases (uid raw : string) (w : World) (r : Result (option nat))
    (w' : World) :
  scan_url env uid raw w = (r, w') ->
  (r = Ok None /\ profiles w' = profiles w /\ steps w' = steps w) \/
  (r = Raise (APIError "request failed") /\ true ∈ faults w /\
   profiles w' = profiles w /\ steps w' = steps w /\
   exists p, profiles w !! uid = Some p /\
             monthly_scans_used p < monthly_scan_limit p) \/
  (exists url id w1 ra w2,
      _normalize_url raw = Some url /\
      profiles w1 = profiles w /\ steps w1 = steps w /\ faults_shrink w w1 /\
      (exists p, profiles w !! uid = Some p /\
                 monthly_scans_used p < monthly_scan_limit p) /\
      scan_attempt env uid url id w1 = (ra, w2) /\
      match ra with
      | Ok a => r = Ok a /\ w' = w2
      | Raise e => scan_failed id e w2 = (r, w')
      end).
Proof.
  unfold scan_url. intros H.
  destruct (_normalize_url raw) as [url|] eqn:Hnorm;
    [|injection H as <- <-; left; auto].
  destruct (normalize_url_parses _ _ Hnorm) as (parsed & Hparse & _).
  rewrite Hparse in H.
  destruct (check_scan_limits_frames uid) as (Hcp & Hcs & Hcf).
  apply bind_inv in H as [(e & Hc & _)|(allowed & w0 & Hc & H)];
    [destruct (check_scan_limits_never_raises _ _ _ _ Hc)|].
  destruct allowed; cbn [negb] in H;
    [|injection H as <- <-; left; split; [reflexivity|];
      split; [exact (Hcp _ _ _ Hc)|exact (Hcs _ _ _ Hc)]].
  destruct (create_scan_record_frames uid url (Url.netloc parsed)) as (Hrp & Hrs & Hrf).
  apply bind_inv in H as [(e & Hr & ->)|(id & w1 & Hr & H)].
  - right. left. destruct (create_scan_record_raises _ _ _ _ _ _ Hr) as [-> Hin].
    split; [reflexivity|]. split; [exact (shrink_elem _ _ (Hcf _ _ _ Hc) Hin)|].
    split; [exact (eq_trans (Hrp _ _ _ Hr) (Hcp _ _ _ Hc))|].
    split; [exact (eq_trans (Hrs _ _ _ Hr) (Hcs _ _ _ Hc))|].
    exact (check_scan_limits_true _ _ _ Hc).
  - right. right.
    destruct (check_scan_limits_true _ _ _ Hc) as (p & Hp & Hlt).
    unfold try_except in H.
    destruct (scan_attempt env uid url id w1) as [ra w2] eqn:Ha.
    exists url, id, w1, ra, w2.
    split; [reflexivity|].
    split; [exact (eq_trans (Hrp _ _ _ Hr) (Hcp _ _ _ Hc))|].
    split; [exact (eq_trans (Hrs _ _ _ Hr) (Hcs _ _ _ Hc))|].
    split; [exact (frame_trans _ _ _ (Hcf _ _ _ Hc) (Hrf _ _ _ Hr))|].
    split; [eauto|]. split; [exact Ha|].
    destruct ra as [a|e]; [injection H as <- <-; auto|exact H].
Qed.

(** A scan that is refused changes nothing but the schedule. *)
Lemma scan_refused (uid raw : string) (w : World) :
  _normalize_url raw = None \/ hd false (faults w) = true \/
  profiles w !! uid = None \/
  (exists p, profiles w !! uid = Some p /\
             monthly_scan_limit p <= monthly_scans_used p) ->
  exists w', scan_url env uid raw w = (Ok None, w') /\
    (w' = w \/ w' = set_faults (tail (faults w)) w).
Proof.
  intros Hwhy. unfold scan_url.
  destruct (_normalize_url raw) as [target|] eqn:Hnorm;
    [|eexists; split; [reflexivity|left; reflexivity]].
  destruct (normalize_url_parses _ _ Hnorm) as (parsed & Hparse & _).
  rewrite Hparse.
  unfold bind at 1. unfold _check_scan_limits, try_except, bind, select_profile,
    execute.
  destruct (hd false (faults w)) eqn:Hhd; cbn;
    [eexists; split; [reflexivity|right; reflexivity]|].
  destruct (profiles w !! uid) as [p|] eqn:Hp; cbn;
    [|eexists; split; [reflexivity|right; reflexivity]].
  destruct (Z.ltb_spec (monthly_scans_used p) (monthly_scan_limit p)) as [Hlt|Hge];
    cbn; [|eexists; split; [reflexivity|right; reflexivity]].
  destruct Hwhy as [[=]|[[=]|[[=]|(q & [= <-] & Hq)]]]. lia.
Qed.

(** What [_fetch_page] returns does not depend on the world it runs in. *)
Lemma fetch_page_result_fixed (url : string) (wx wy : World) :
  fst (_fetch_page env url wx) = fst (_fetch_page env url wy).
Proof.
  unfold _fetch_page, try_except_class, bind, now, session_get.
  destruct (http_get env url) as [e|resp];
    [destruct (is_request_exception e); reflexivity|].
  cbn [clock set_clock].
  replace (clock wx + elapsed_ms resp - clock wx) with (elapsed_ms resp) by lia.
  replace (clock wy + elapsed_ms resp - clock wy) with (elapsed_ms resp) by lia.
  destruct (header_get (headers resp) "content-length") as [cl|].
  - destruct (Py.truthy cl); [destruct (Py.int cl) as [n|]|].
    + unfold ret. destruct (MAX_PAGE_SIZE <? n); [reflexivity|].
      unfold lift. destruct (text resp) as [body|e]; [reflexivity|].
      destruct (is_request_exception e); reflexivity.
    + unfold raise. reflexivity.
    + unfold ret, lift. destruct (text resp) as [body|e]; [reflexivity|].
      destruct (is_request_exception e); reflexivity.
  - unfold ret, lift. destruct (text resp) as [body|e]; [reflexivity|].
    destruct (is_request_exception e); reflexivity.
Qed.

Lemma attempt_fails_fixed (url : string) (wx wy : World) :
  attempt_fails env url wx = attempt_fails env url wy.
Proof. unfold attempt_fails. rewrite (fetch_page_result_fixed url wx wy). reflexivity. Qed.

(** A scan attempt returns an id only when the fetch brought content and
    the analysis of the page returned. *)
Lemma scan_attempt_returns_id (uid url : string) (id : nat) (w : World)
    (id' : nat) (w' : World) :
  scan_attempt env uid url id w = (Ok (Some id'), w') ->
  attempt_fails env url w = false.
Proof.
  intros H. unfold scan_attempt in H.
  apply bind_inv in H as [(? & _ & [=])|(? & ? & _ & H)].
  apply bind_inv in H as [(? & _ & [=])|(? & ? & _ & H)].
  apply bind_inv in H as [(? & _ & [=])|(? & ? & _ & H)].
  apply bind_inv in H as [(? & _ & [=])|([[html status] load] & wf & Ef & H)].
  cbv beta iota in H.
  assert (Hnone : forall msg wi,
            (_mark_scan_failed id msg ;; ret (@None nat)) wi = (Ok (Some id'), w') ->
            False).
  { intros msg wi Hm.
    apply bind_inv in Hm as [(? & _ & [=])|(? & ? & _ & [=])]. }
  destruct html as [html|]; [destruct (Py.truthy html) eqn:Ht|];
    [|destruct (Hnone _ _ H)|destruct (Hnone _ _ H)].
  apply bind_inv in H as [(? & _ & [=])|(? & ? & _ & H)].
  apply bind_inv in H as [(? & _ & [=])|(? & ? & _ & H)].
  apply bind_inv in H as [(? & _ & [=])|(an & ? & Ean & _)].
  unfold lift in Ean. injection Ean as Han _.
  unfold attempt_fails.
  match type of Ef with
  | _fetch_page _ _ ?wk = _ => rewrite (fetch_page_result_fixed url w wk), Ef
  end.
  cbn [fst]. rewrite Ht, Han. reflexivity.
Qed.

End ScannerFacts.

(** ** The credit ledger *)

(** [deduct_credits] never gets past the update of the profile: the
    request for the balance may fail, the balance may be too small, and
    otherwise the update raises in the client, so that the answer is
    [False] and nothing but the schedule of the database has changed. *)
Lemma deduct_credits_returns_false (uid : string) (amount : Z) (op : string)
    (sid : option nat) (tok : Z) (w : World) :
  deduct_credits uid amount op sid tok w
  = (Ok false, set_faults (tail (faults w)) w).
Proof.
  unfold deduct_credits, try_except, bind, select_profile, execute, ret, raise.
  destruct (hd false (faults w)); cbn; [reflexivity|].
  destruct (profiles w !! uid) as [p|]; cbn; [|reflexivity].
  destruct (credits_balance p <? amount); reflexivity.
Qed.

(** C2. For a user whose stored balance is not negative, [deduct_credits]
    returns, leaves the balance not negative, writes the profile or the
    ledger only when the balance is at least the amount, and with a smaller
    balance returns [False] with the profiles and the ledger unchanged. *)
Theorem deduct_credits_nonnegative (uid : string) (amount : Z) (op : string)
    (sid : option nat) (tok : Z) (w : World) (b : Z) :
  balance_of w uid = Some b -> 0 <= b ->
  exists ok w', deduct_credits uid amount op sid tok w = (Ok ok, w') /\
    (exists b', balance_of w' uid = Some b' /\ 0 <= b') /\
    (profiles w' <> profiles w \/
     credit_transactions w' <> credit_transactions w -> amount <= b) /\
    (ok = true -> amount <= b /\ balance_of w' uid = Some (b - amount) /\
       credit_transactions w' = credit_transactions w ++
         [usage_transaction uid amount (b - amount) op sid]) /\
    (b < amount -> ok = false /\ profiles w' = profiles w /\
       credit_transactions w' = credit_transactions w).
Proof.
  intros Hb Hnn. eexists _, _.
  split; [apply deduct_credits_returns_false|].
  split; [exists b; split; [exact Hb|exact Hnn]|].
  split; [intros [H|H]; destruct (H eq_refl)|].
  split; [discriminate|]. auto.
Qed.

Lemma deduct_credits_nonnegative_witness :
  exists ok w',
    deduct_credits "alice" 100 "seo_audit" None 0 (Demo.world []) = (Ok ok, w') /\
    exists b', balance_of w' "alice" = Some b' /\ 0 <= b'.
Proof.
  destruct (deduct_credits_nonnegative "alice" 100 "seo_audit" None 0 (Demo.world [])
              500 eq_refl ltac:(lia)) as (ok & w' & E & Hb & _).
  exists ok, w'. split; [exact E|exact Hb].
Defined.

Section AIFacts.

Variable env : Env.

Lemma generate_seo_audit_shape (uid : string) (sid : nat) (data : Dict) (tier : string) :
  generate_seo_audit env uid sid data tier =
  ai_operation env uid "seo_audit" (Some sid) (audit_prompt env data tier)
    _parse_audit_response.
Proof. reflexivity. Qed.

Lemma generate_keyword_research_shape (uid kw industry audience : string) :
  generate_keyword_research env uid kw industry audience =
  ai_operation env uid "keyword_research" None
    (keyword_prompt env kw industry audience)
    (fun response => ret (_extract_json_from_response env response)).
Proof. reflexivity. Qed.

Lemma generate_seo_roadmap_shape (uid : string) (sid : nat) (metrics : Dict)
    (goals : string) :
  generate_seo_roadmap env uid sid metrics goals =
  ai_operation env uid "roadmap" (Some sid) (roadmap_prompt env metrics goals)
    _parse_audit_response.
Proof. reflexivity. Qed.

Lemma check_credits_cases (uid op : string) (w : World) (r : Result (bool * Z))
    (w1 : World) :
  check_credits uid op w = (r, w1) ->
  profiles w1 = profiles w /\ model_calls w1 = model_calls w /\
  faults_shrink w w1 /\
  exists has bal, r = Ok (has, bal) /\
    (has = true -> exists p, profiles w !! uid = Some p /\
                     default 0 (costs_get CREDIT_COSTS op) <= credits_balance p) /\
    (has = false -> forall p, profiles w !! uid = Some p ->
                     hd false (faults w) = false ->
                     credits_balance p < default 0 (costs_get CREDIT_COSTS op)).
Proof.
  intros H.
  split; [exact ((ltac:(frame_structure) : preserves same_profiles (check_credits uid op)) _ _ _ H)|].
  split; [exact ((ltac:(frame_structure) : preserves same_model_calls (check_credits uid op)) _ _ _ H)|].
  split; [exact ((ltac:(frame_structure) : preserves faults_shrink (check_credits uid op)) _ _ _ H)|].
  apply try_except_inv in H as [(a & Hb & ->)|(e0 & w0 & Hb & [= <- <-])].
  - apply bind_inv in Hb as [(e1 & _ & [=])|(o & w2 & Hs & Hr)].
    apply execute_inv in Hs as [(_ & [=] & _)|(Hhd & [= ->] & ->)].
    cbn in Hr. destruct (profiles w !! uid) as [p|] eqn:Hp.
    + injection Hr as <- _. eexists _, _. split; [reflexivity|]. split.
      * intros Hle. apply Z.leb_le in Hle. eauto.
      * intros Hgt q [= <-] _. apply Z.leb_gt in Hgt. exact Hgt.
    + injection Hr as <- _. eexists _, _. split; [reflexivity|].
      split; [discriminate|]. intros _ q [=].
  - eexists _, _. split; [reflexivity|]. split; [discriminate|].
    intros _ p Hp Hhd.
    apply bind_inv in Hb as [(e1 & Hs & _)|(o & w2 & Hs & Hr)].
    + apply execute_inv in Hs as [(Hhd' & _)|(_ & [=] & _)]. congruence.
    + apply execute_inv in Hs as [(_ & [=] & _)|(_ & [= ->] & ->)].
      cbn in Hr. rewrite Hp in Hr. discriminate.
Qed.

End AIFacts.

(** C7.  A user with 500 credits asks for an audit, of cost 100, on a
    database that accepts every request and with a model that answers:
    the report is returned, and the balance is still 500, with no row in
    the ledger and the usage log recording 100 credits consumed. *)
Theorem ai_result_without_deduction :
  let w := Demo.world [] in
  let rw := generate_seo_audit Demo.env "alice" 0 [] "pro" w in
  (exists report, fst rw = Ok (Some report)) /\
  costs_get CREDIT_COSTS "seo_audit" = Some 100 /\
  balance_of w "alice" = Some 500 /\
  balance_of (snd rw) "alice" = Some 500 /\
  credit_transactions (snd rw) = [] /\
  map (fun row => (success row, credits_consumed row)) (ai_usage (snd rw))
    = [(true, 100)].
Proof.
  cbv zeta. split; [eexists; vm_compute; reflexivity|].
  repeat split; vm_compute; reflexivity.
Qed.

(** ** Properties of [scan_url] and [_fetch_page] *)

(** C9. When the response carries a Content-Length whose integer value
    exceeds [MAX_PAGE_SIZE], 10 MiB, [_fetch_page] returns no content
    together with the status and the load time, and the enclosing scan, on a
    reachable database, is marked failed and returns [None]; a response
    without Content-Length is returned whole, whatever its size. *)
Theorem fetch_page_content_length (env : Env) (url : string) (w : World)
    (resp : Response) :
  http_get env url = HttpReturns resp ->
  MAX_PAGE_SIZE = 10 * 2 ^ 20 /\
  (forall cl n,
      header_get (headers resp) "content-length" = Some cl ->
      Py.int cl = Some n -> MAX_PAGE_SIZE < n ->
      fst (_fetch_page env url w) = Ok (None, status_code resp, elapsed_ms resp) /\
      forall uid raw p,
        _normalize_url raw = Some url -> faults w = [] ->
        profiles w !! uid = Some p ->
        monthly_scans_used p < monthly_scan_limit p ->
        exists w', scan_url env uid raw w = (Ok None, w') /\
          marked_failed w' (length (scans w))
            ("Failed to fetch page: HTTP " +:+ Py.str_of_int (status_code resp))
            (clock w + elapsed_ms resp)) /\
  (header_get (headers resp) "content-length" = None ->
   forall body, text resp = Ok body ->
     fst (_fetch_page env url w) = Ok (Some body, status_code resp, elapsed_ms resp)).
Proof.
  intros Hget. split; [reflexivity|]. split.
  - intros cl n Hhdr Hint Hn. split.
    + rewrite (fetch_page_too_large env _ _ _ _ _ Hget Hhdr Hint Hn). reflexivity.
    + intros uid raw p Hnorm Hf Hp Hlim.
      exact (scan_url_too_large env _ _ _ _ _ _ _ _ Hnorm Hget Hhdr Hint Hn Hf Hp Hlim).
  - intros Hhdr body Htext.
    rewrite (fetch_page_no_length env _ _ _ _ Hget Hhdr Htext). reflexivity.
Qed.

Lemma fetch_page_content_length_witness :
  fst (_fetch_page Demo.env "https://big.example/" (Demo.world []))
    = Ok (None, 200, 80) /\
  (exists w', scan_url Demo.env "alice" "big.example/" (Demo.world []) = (Ok None, w') /\
     marked_failed w' 0 "Failed to fetch page: HTTP 200" 1080) /\
  fst (_fetch_page Demo.env "https://example.com" (Demo.world []))
    = Ok (Some "<html>...</html>", 200, 120).
Proof.
  pose proof (fetch_page_content_length Demo.env "https://big.example/"
                (Demo.world []) Demo.big_page eq_refl) as (_ & H & _).
  destruct (H "20000000" 20000000 eq_refl eq_refl eq_refl) as [H1 H2].
  split; [exact H1|]. split.
  - exact (H2 "alice" "big.example/" Demo.profile eq_refl eq_refl eq_refl eq_refl).
  - pose proof (fetch_page_content_length Demo.env "https://example.com"
                  (Demo.world []) Demo.page eq_refl) as (_ & _ & H3).
    exact (H3 eq_refl _ eq_refl).
Defined.

(** C3, refuted as stated: when the insert that creates the scan record
    fails, the exception reaches the caller of [scan_url]. *)
Lemma scan_url_propagates_insert_failure :
  fst (scan_url Demo.env "alice" "example.com" (Demo.world [false; true]))
    = Raise (APIError "request failed") /\
  ~ (forall uid url w, exists o w',
        scan_url Demo.env uid url w = (Ok o, w')).
Proof.
  assert (H : fst (scan_url Demo.env "alice" "example.com" (Demo.world [false; true]))
              = Raise (APIError "request failed")) by (vm_compute; reflexivity).
  split; [exact H|].
  intros Hall. destruct (Hall "alice" "example.com" (Demo.world [false; true]))
    as (o & w' & E).
  rewrite E in H. discriminate.
Qed.

(** C3, amended.  [scan_url] returns [None] for a URL that does not
    normalise, for a scan limit that is reached and for one that cannot be
    read, whatever the database does afterwards; and, when no request to
    the database fails, for a fetch that raises or brings no content and
    for an analysis that raises.  It returns an id only for a page that was
    fetched and analysed.  The only exception that reaches the caller is
    that of a failed database request, and without such a failure
    [scan_url] returns. *)
Theorem scan_url_raises_only_database_errors (env : Env) (uid raw : string)
    (w : World) (r : Result (option nat)) (w' : World) :
  scan_url env uid raw w = (r, w') ->
  (_normalize_url raw = None -> r = Ok None) /\
  (forall p, profiles w !! uid = Some p ->
             monthly_scan_limit p <= monthly_scans_used p -> r = Ok None) /\
  (profiles w !! uid = None \/ hd false (faults w) = true -> r = Ok None) /\
  (forall target, _normalize_url raw = Some target ->
     attempt_fails env target w = true -> true ∉ faults w -> r = Ok None) /\
  (forall id, r = Ok (Some id) ->
     exists target, _normalize_url raw = Some target /\
       attempt_fails env target w = false) /\
  (forall e, r = Raise e -> e = APIError "request failed" /\ true ∈ faults w) /\
  (true ∉ faults w -> exists o, r = Ok o).
Proof.
  intros H.
  assert (Hrefused : _normalize_url raw = None \/ hd false (faults w) = true \/
            profiles w !! uid = None \/
            (exists p, profiles w !! uid = Some p /\
                       monthly_scan_limit p <= monthly_scans_used p) ->
            r = Ok None).
  { intros Hwhy. destruct (scan_refused env uid raw w Hwhy) as (w'' & Hs & _).
    rewrite H in Hs. injection Hs as -> _. reflexivity. }
  assert (Hraise : forall e, r = Raise e ->
                     e = APIError "request failed" /\ true ∈ faults w).
  { intros e ->.
    apply scan_url_cases in H
      as [([=] & _)|[([= ->] & Hin & _)|
          (url & id & w1 & ra & w2 & _ & _ & _ & Hf & _ & Ha & Hr)]]; [auto|].
    destruct ra as [a|e0]; [destruct Hr as [[=] _]|].
    apply scan_failed_cases in Hr as (_ & _ & [[=]|([= ->] & Hin)]).
    split; [reflexivity|].
    apply (shrink_elem _ _ Hf), (shrink_elem _ _ (scan_attempt_faults env _ _ _ _ _ _ Ha)), Hin. }
  assert (Hid : forall id, r = Ok (Some id) ->
            exists target, _normalize_url raw = Some target /\
              attempt_fails env target w = false).
  { intros id ->.
    apply scan_url_cases in H
      as [([=] & _)|[([=] & _)|
          (url & sid & w1 & ra & w2 & Hnorm & _ & _ & _ & _ & Ha & Hr)]].
    destruct ra as [a|e0].
    - destruct Hr as [[= <-] _]. exists url. split; [exact Hnorm|].
      rewrite (attempt_fails_fixed env url w w1).
      exact (scan_attempt_returns_id env _ _ _ _ _ _ Ha).
    - apply scan_failed_cases in Hr as (_ & _ & [[=]|([=] & _)]). }
  assert (Hreturns : true ∉ faults w -> exists o, r = Ok o).
  { intros Hno. destruct r as [o|e]; [eauto|].
    destruct (Hraise e eq_refl) as [_ Hin]. destruct (Hno Hin). }
  split; [intros Hn; apply Hrefused; auto|].
  split; [intros p Hp Hlim; apply Hrefused; eauto 6|].
  split; [intros [Hp|Hhd]; apply Hrefused; auto|].
  split; [|auto].
  intros target Hnorm Hfails Hno.
  destruct (Hreturns Hno) as [[id|] ->]; [|reflexivity].
  destruct (Hid id eq_refl) as (target' & Hnorm' & Hok).
  rewrite Hnorm in Hnorm'. injection Hnorm' as <-. congruence.
Qed.

Lemma scan_url_raises_only_database_errors_witness :
  fst (scan_url Demo.env "alice" "http://down.example/" (Demo.world [])) = Ok None /\
  exists o, fst (scan_url Demo.env "alice" "example.com" (Demo.world [])) = Ok o.
Proof.
  split.
  - refine (proj1 (proj2 (proj2 (proj2
      (scan_url_raises_only_database_errors Demo.env "alice" "http://down.example/"
         (Demo.world []) _ _ (surjective_pairing _)))))
      "https://down.example/" eq_refl eq_refl _).
    cbn. apply not_elem_of_nil.
  - refine (proj2 (proj2 (proj2 (proj2 (proj2 (proj2
      (scan_url_raises_only_database_errors Demo.env "alice" "example.com"
         (Demo.world []) _ _ (surjective_pairing _))))))) _).
    cbn. apply not_elem_of_nil.
Defined.

(** C4, refuted as stated: a scan that completes buckets the issues by
    severity before it applies the deductions and the weighted sum, which
    is not the order the specification lists, and a scan whose fetch brings
    no content leaves the pipeline after the HTTP GET. *)
Lemma scan_steps_not_as_specified :
  steps (snd (scan_url Demo.env "alice" "example.com" (Demo.world [])))
    = [HttpGet; HtmlParse; FieldExtraction; SeverityBucketing; RuleDeductions;
       WeightedSum] /\
  steps (snd (scan_url Demo.env "alice" "example.com" (Demo.world [])))
    <> pipeline_as_specified /\
  steps (snd (scan_url Demo.env "alice" "big.example/" (Demo.world []))) = [HttpGet].
Proof.
  assert (H : steps (snd (scan_url Demo.env "alice" "example.com" (Demo.world [])))
              = pipeline) by (vm_compute; reflexivity).
  split; [exact H|]. split; [rewrite H; discriminate|].
  vm_compute. reflexivity.
Qed.

(** C4, amended.  The stages of a scan run in the order HTTP GET, HTML
    parse, field extraction, severity bucketing, rule-based deductions,
    weighted sum: what a scan goes through is a prefix of that list, and a
    scan that returns its id went through all of it. *)
Theorem scan_steps_follow_pipeline (env : Env) (uid raw : string) (w : World)
    (r : Result (option nat)) (w' : World) :
  scan_url env uid raw w = (r, w') ->
  exists d, steps w' = steps w ++ d /\ d `prefix_of` pipeline /\
    (forall id, r = Ok (Some id) -> d = pipeline).
Proof.
  intros H.
  assert (Hnil : forall wx, steps wx = steps w ->
            exists d, steps wx = steps w ++ d /\ d `prefix_of` pipeline /\ d = []).
  { intros wx E. exists []. rewrite app_nil_r. split; [exact E|].
    split; [apply prefix_nil|reflexivity]. }
  apply scan_url_cases in H
    as [(-> & _ & Hs)|[(-> & _ & _ & Hs & _)|
        (url & id & w1 & ra & w2 & _ & _ & Hs1 & _ & _ & Ha & Hr)]].
  - destruct (Hnil _ Hs) as (d & ? & ? & ->). exists []. repeat split; auto. discriminate.
  - destruct (Hnil _ Hs) as (d & ? & ? & ->). exists []. repeat split; auto. discriminate.
  - apply scan_attempt_cases in Ha as (d & Hd & Hcase). rewrite Hs1 in Hd.
    destruct ra as [a|e].
    + destruct Hr as [-> ->]. exists d. split; [exact Hd|].
      destruct a as [id'|].
      * destruct Hcase as (_ & -> & _). split; [reflexivity|auto].
      * destruct Hcase as [Hpre _]. split; [exact Hpre|discriminate].
    + destruct Hcase as [Hpre _].
      apply scan_failed_cases in Hr as (_ & Hs2 & Hres).
      exists d. split; [rewrite Hs2; exact Hd|]. split; [exact Hpre|].
      intros id' ->. destruct Hres as [[=]|[[=] _]].
Qed.

Lemma scan_steps_follow_pipeline_witness :
  exists d,
    steps (snd (scan_url Demo.env "alice" "example.com" (Demo.world []))) = [] ++ d /\
    d `prefix_of` pipeline /\
    (forall id, fst (scan_url Demo.env "alice" "example.com" (Demo.world []))
                = Ok (Some id) -> d = pipeline).
Proof.
  exact (scan_steps_follow_pipeline Demo.env "alice" "example.com" (Demo.world [])
           _ _ (surjective_pairing _)).
Defined.

(** C6, refuted as stated.  With the database unreachable from the first
    update on, the exception raised after the record was created leaves the
    record pending and reaches the caller; and a scan that completes while
    the update of the counter fails returns its id with the counter as it
    was. *)
Lemma scan_failure_not_marked :
  (let rw := scan_url Demo.env "alice" "example.com"
               (Demo.world [false; false; true; true]) in
   fst rw = Raise (APIError "request failed") /\
   status <$> scans (snd rw) !! 0%nat = Some "pending") /\
  (let rw := scan_url Demo.env "alice" "example.com"
               (Demo.world [false; false; false; false; false; true]) in
   fst rw = Ok (Some 0%nat) /\
   scans_used (snd rw) "alice" = scans_used (Demo.world []) "alice").
Proof. vm_compute. repeat split; reflexivity. Qed.

(** C6, amended.  When the body of the [try] statement raises, the profiles
    are as they were when the record had been created, so the counter is
    not incremented; the handler then returns [None] with the record marked
    failed, carrying the message of the exception and a completion time,
    provided the request that marks it is accepted.  A scan that does not
    return an id leaves every profile as it was; a scan that returns its id
    has incremented the counter of its user at most once, and exactly once
    when no database request failed. *)
Theorem scan_exception_marks_failed (env : Env) (uid : string) :
  (forall url id w1 e w2,
      (id < length (scans w1))%nat ->
      scan_attempt env uid url id w1 = (Raise e, w2) ->
      profiles w2 = profiles w1 /\
      forall r w3,
        try_except (scan_attempt env uid url id) (scan_failed id) w1 = (r, w3) ->
        profiles w3 = profiles w1 /\
        (hd false (faults w2) = false ->
         r = Ok None /\ marked_failed w3 id (str_exn e) (clock w2))) /\
  (forall raw w r w',
      scan_url env uid raw w = (r, w') ->
      match r with
      | Ok (Some _) =>
          (scans_used w' uid = scans_used w uid \/
           scans_used w' uid = Z.succ <$> scans_used w uid) /\
          (true ∉ faults w ->
           is_Some (scans_used w uid) /\
           scans_used w' uid = Z.succ <$> scans_used w uid)
      | _ => profiles w' = profiles w
      end).
Proof.
  split.
  - intros url id w1 e w2 Hlt Ha.
    pose proof (scan_attempt_scans_length env _ _ _ _ _ _ Ha) as Hlen.
    unfold same_scans_length in Hlen.
    destruct (scan_attempt_cases env _ _ _ _ _ _ Ha) as (d & _ & _ & Hp).
    split; [exact Hp|]. intros r w3 Ht.
    unfold try_except in Ht. rewrite Ha in Ht.
    pose proof (scan_failed_cases _ _ _ _ _ Ht) as (Hp3 & _ & _).
    split; [congruence|]. intros Hhd.
    destruct (mark_scan_failed_ok id (str_exn e) w2 Hhd ltac:(lia))
      as (w4 & Hm & Hmark & _).
    unfold scan_failed, bind in Ht. rewrite Hm in Ht.
    injection Ht as <- <-. auto.
  - intros raw w r w' H.
    apply scan_url_cases in H
      as [(-> & Hp & _)|[(-> & _ & Hp & _)|
          (url & id & w1 & ra & w2 & _ & Hp1 & _ & Hf1 & (p & Hlook & _) & Ha & Hr)]];
      [exact Hp|exact Hp|].
    apply scan_attempt_cases in Ha as (d & _ & Hcase).
    destruct ra as [a|e].
    + destruct Hr as [-> ->]. destruct a as [id'|].
      * destruct Hcase as (_ & _ & wi & Hpi & Hfi & Hinc).
        apply increment_cases in Hinc as [Hor Hsucc].
        assert (Hsame : scans_used wi uid = scans_used w uid)
          by (unfold scans_used; rewrite Hpi, Hp1; reflexivity).
        rewrite Hsame in Hor, Hsucc. split; [exact Hor|].
        intros Hno. split; [unfold scans_used; rewrite Hlook; eauto|].
        destruct (no_fault_ahead w wi Hno (frame_trans _ _ _ Hf1 Hfi)) as [H1 H2].
        exact (Hsucc H1 H2).
      * destruct Hcase as [_ Hp2]. congruence.
    + destruct Hcase as [_ Hp2].
      apply scan_failed_cases in Hr as (Hp3 & _ & Hres).
      assert (Hp : profiles w' = profiles w) by congruence.
      destruct Hres as [->|[-> _]]; exact Hp.
Qed.

Lemma scan_exception_marks_failed_witness :
  scans_used (snd (scan_url Demo.env "alice" "example.com" (Demo.world []))) "alice"
    = Some 4 /\
  profiles (snd (scan_url Demo.env "alice" "http://down.example/" (Demo.world [])))
    = profiles (Demo.world []).
Proof.
  pose proof (scan_exception_marks_failed Demo.env "alice") as [_ H].
  split.
  - pose proof (H "example.com" (Demo.world []) _ _ (surjective_pairing _)) as H1.
    replace (fst (scan_url Demo.env "alice" "example.com" (Demo.world [])))
      with (@Ok (option nat) (Some 0%nat)) in H1 by (vm_compute; reflexivity).
    destruct H1 as [_ H1].
    destruct (H1 ltac:(cbn; apply not_elem_of_nil)) as [_ ->]. reflexivity.
  - pose proof (H "http://down.example/" (Demo.world []) _ _ (surjective_pairing _)) as H1.
    replace (fst (scan_url Demo.env "alice" "http://down.example/" (Demo.world [])))
      with (@Ok (option nat) None) in H1 by (vm_compute; reflexivity).
    exact H1.
Defined.

(** * Further properties *)

(** ** [_normalize_url] and the SSL check *)

(** A result of [_normalize_url] is ["https://"] followed by a text whose
    network location is not empty. *)
Lemma normalize_url_result (url r : string) :
  _normalize_url url = Some r ->
  exists rest,
    r = "https://" +:+ rest /\
    Url.urlparse r =
      Some {| Url.scheme := "https";
              Url.netloc := Url.take_netloc (Url.remove_unsafe rest) |} /\
    Py.truthy (Url.take_netloc (Url.remove_unsafe rest)) = true.
Proof.
  assert (Hgen : forall s : string,
      match Url.urlparse ("https://" +:+ s) with
      | Some parsed =>
          if negb (Py.truthy (Url.scheme parsed)) || negb (Py.truthy (Url.netloc parsed))
          then None
          else Some (if String.eqb (Url.scheme parsed) "http"
                     then Py.replace_first "http://" "https://" ("https://" +:+ s)
                     else "https://" +:+ s)
      | None => None
      end = Some r ->
      exists rest,
        r = "https://" +:+ rest /\
        Url.urlparse r =
          Some {| Url.scheme := "https";
                  Url.netloc := Url.take_netloc (Url.remove_unsafe rest) |} /\
        Py.truthy (Url.take_netloc (Url.remove_unsafe rest)) = true).
  { intros s. rewrite urlparse_https. cbv zeta.
    destruct (Url.bracket_error _) eqn:Hb; [discriminate|].
    cbn [Url.scheme Url.netloc].
    destruct (Py.truthy (Url.take_netloc (Url.remove_unsafe s))) eqn:Hn;
      [|discriminate].
    change (String.eqb "https" "http") with false. cbn [negb orb].
    intros [= <-]. exists s. split; [reflexivity|].
    rewrite urlparse_https. cbv zeta. rewrite Hb. auto. }
  unfold _normalize_url.
  destruct (Py.startswith "http://" url) eqn:Hhttp.
  - apply startswith_inv in Hhttp as [rest ->]. cbn [orb negb].
    rewrite urlparse_http. cbv zeta.
    destruct (Url.bracket_error _) eqn:Hb; [discriminate|].
    cbn [Url.scheme Url.netloc].
    destruct (Py.truthy (Url.take_netloc (Url.remove_unsafe rest))) eqn:Hn;
      [|discriminate].
    rewrite String.eqb_refl, replace_first_http. cbn [negb orb].
    intros [= <-]. exists rest. split; [reflexivity|].
    rewrite urlparse_https. cbv zeta. rewrite Hb. auto.
  - destruct (Py.startswith "https://" url) eqn:Hhttps; cbn [orb negb].
    + apply startswith_inv in Hhttps as [rest ->]. apply Hgen.
    + apply Hgen.
Qed.

Lemma truthy_nonempty (s : string) : Py.truthy s = true -> s <> "".
Proof. destruct s; [discriminate|]. intros _. discriminate. Qed.

(** X1. [_normalize_url] is idempotent: a URL it returns is returned
    unchanged when it is normalised again, and it parses with the scheme
    https and a network location that is not empty. *)
Theorem normalize_url_idempotent (url r : string) :
  _normalize_url url = Some r ->
  _normalize_url r = Some r /\
  exists p, Url.urlparse r = Some p /\ Url.scheme p = "https" /\ Url.netloc p <> "".
Proof.
  intros H. apply normalize_url_result in H as (rest & -> & Hp & Hn).
  split.
  - unfold _normalize_url.
    change (Py.startswith "http://" ("https://" +:+ rest)) with false.
    change (Py.startswith "https://" ("https://" +:+ rest)) with true.
    cbn [orb negb]. rewrite Hp. cbn [Url.scheme Url.netloc]. rewrite Hn.
    reflexivity.
  - eexists. split; [exact Hp|]. split; [reflexivity|].
    apply truthy_nonempty, Hn.
Qed.

Lemma normalize_url_idempotent_witness :
  _normalize_url "http://Example.com/a b" = Some "https://Example.com/a b" /\
  _normalize_url "https://Example.com/a b" = Some "https://Example.com/a b".
Proof.
  split; [reflexivity|].
  exact (proj1 (normalize_url_idempotent "http://Example.com/a b"
                  "https://Example.com/a b" eq_refl)).
Defined.

Lemma not_in_append_if (x : string) (b : bool) (y : string) (l : list string) :
  x <> y -> ~ In x l -> ~ In x (append_if b y l).
Proof.
  intros Hne Hl. unfold append_if. destruct b; [|exact Hl].
  intros Hin. apply in_app_or in Hin as [Hin|[Heq|[]]]; [exact (Hl Hin)|].
  exact (Hne (eq_sym Heq)).
Qed.

(** X2. The URL that [scan_url] analyses went through [_normalize_url],
    so [_analyze_technical] never raises on it and always finds SSL: the
    issue "No HTTPS encryption" is never reported for a scan, and its
    deduction of 30 points never applies, which keeps the technical score
    at 50 or more. *)
Theorem scan_ssl_check_always_passes (raw url : string) (status : Z)
    (html : string) (load : Z) :
  _normalize_url raw = Some url ->
  exists t, _analyze_technical url status html load = Ok t /\
    has_ssl t = true /\
    50 <= calc_technical_score t /\
    forall m c i,
      ~ In "No HTTPS encryption" (_critical_list (_identify_issues m t c i)).
Proof.
  intros H. apply normalize_url_result in H as (rest & -> & Hp & _).
  unfold _analyze_technical. rewrite Hp. cbn [Url.scheme].
  eexists. split; [reflexivity|]. split; [reflexivity|]. split.
  - unfold calc_technical_score. cbn [has_ssl http_status load_time_ms
      is_mobile_friendly String.eqb Ascii.eqb Bool.eqb negb].
    cbv zeta.
    destruct (negb _), (3000 <? load), (negb _); lia.
  - intros m c i. unfold _identify_issues. cbv zeta. cbn [_critical_list has_ssl].
    change (negb ("https" =? "https")%string) with false.
    apply not_in_append_if; [|unfold append_if at 1; cbn [negb];
      apply not_in_append_if; [discriminate|intros []]].
    unfold Py.str_of_int. intros E. discriminate E.
Qed.

Lemma scan_ssl_check_always_passes_witness :
  exists t, _analyze_technical "https://example.com" 404 "<html>" 120 = Ok t /\
    has_ssl t = true.
Proof.
  destruct (scan_ssl_check_always_passes "http://example.com" "https://example.com"
              404 "<html>" 120 eq_refl) as (t & Ht & Hssl & _).
  exists t. split; [exact Ht|exact Hssl].
Defined.

(** ** Issues and scores *)

Lemma length_append_if (b : bool) (x : string) (l : list string) :
  length (append_if b x l) = (length l + if b then 1 else 0)%nat.
Proof.
  unfold append_if. destruct b; [rewrite length_app; reflexivity|lia].
Qed.

(** The scores [_calculate_scores] returns, field by field. *)
Lemma calculate_scores_fields (m : Metadata) (t : Technical) (c : Content)
    (i : Images) (iss : Issues) :
  exists s, _calculate_scores m t c i iss = Some s /\
    technical_score s = calc_technical_score t /\
    content_score s = calc_content_score m c /\
    performance_score s = calc_performance_score t /\
    accessibility_score s = calc_accessibility_score m i /\
    overall_score s =
      overall_of (calc_technical_score t) (calc_content_score m c)
        (calc_performance_score t) (calc_accessibility_score m i).
Proof.
  pose proof (scores_overall_ok m t c i) as Hok.
  unfold _calculate_scores, overall_ok, overall_of in *.
  destruct (Py.int_of_float _) as [o|]; [|discriminate].
  eexists. split; [reflexivity|]. cbn. auto 6.
Qed.

Lemma overall_caps_table :
  table4 overall_caps_ok (fives 4) (fives 2) (fives 4) (fives 8) = true.
Proof. vm_compute. reflexivity. Qed.

Lemma overall_steps_table :
  table4 overall_steps_ok (fives 4) (fives 2) (fives 4) (fives 8) = true.
Proof. vm_compute. reflexivity. Qed.

Lemma scores_caps_ok (m : Metadata) (t : Technical) (c : Content) (i : Images) :
  overall_caps_ok (calc_technical_score t) (calc_content_score m c)
    (calc_performance_score t) (calc_accessibility_score m i) = true.
Proof.
  destruct (technical_score_range t) as [? ?].
  destruct (content_score_range m c) as [? ?].
  destruct (performance_score_range t) as [? ?].
  destruct (accessibility_score_range m i) as [? ?].
  apply (table4_forall overall_caps_ok (fives 4) (fives 2) (fives 4) (fives 8)
           overall_caps_table);
    apply fives_intro; (assumption || lia).
Qed.

(** What the issues cost, and how many there can be. *)
Lemma issue_deductions (m : Metadata) (t : Technical) (c : Content) (i : Images) :
  let iss := _identify_issues m t c i in
  calc_technical_score t + calc_content_score m c
    <= 200 - 25 * Z.of_nat (critical_issues iss) - 10 * Z.of_nat (high_issues iss) /\
  (critical_issues iss <= 3 /\ high_issues iss <= 3 /\
   medium_issues iss <= 4 /\ low_issues iss <= 2)%nat.
Proof.
  cbv zeta. unfold _identify_issues. cbv zeta.
  cbn [critical_issues high_issues medium_issues low_issues].
  split.
  - unfold calc_technical_score, calc_content_score. cbv zeta.
    destruct (h1_tags m) as [|x [|y l]];
      repeat (rewrite length_app || rewrite length_append_if); cbn [length];
      destruct (Py.truthy_opt (title m)), (has_ssl t), (http_status t =? 200),
        (Py.truthy_opt (meta_description m)), (word_count c <? 300)%nat,
        (3000 <? load_time_ms t), (is_mobile_friendly t);
      cbn [negb Nat.ltb Nat.leb]; lia.
  - destruct (h1_tags m) as [|x l];
      repeat (rewrite length_app || rewrite length_append_if); cbn [length];
      repeat match goal with
             | |- context [if ?b then 1%nat else 0%nat] => destruct b
             end; lia.
Qed.

(** X3. The severity buckets and the deductions agree: the technical and
    the content score together lose at least 25 points for every critical
    issue and at least 10 for every high issue.  There are at most 3
    critical, 3 high, 4 medium and 2 low issues, and the four counts are
    the lengths of the lists stored as the details of the issues. *)
Theorem issues_cost_points (m : Metadata) (t : Technical) (c : Content)
    (i : Images) :
  let iss := _identify_issues m t c i in
  calc_technical_score t + calc_content_score m c
    <= 200 - 25 * Z.of_nat (critical_issues iss) - 10 * Z.of_nat (high_issues iss) /\
  (critical_issues iss <= 3 /\ high_issues iss <= 3 /\
   medium_issues iss <= 4 /\ low_issues iss <= 2)%nat /\
  critical_issues iss = length (detail_critical (_format_issues_detail iss)) /\
  high_issues iss = length (detail_high (_format_issues_detail iss)) /\
  medium_issues iss = length (detail_medium (_format_issues_detail iss)) /\
  low_issues iss = length (detail_low (_format_issues_detail iss)).
Proof.
  cbv zeta. destruct (issue_deductions m t c i) as [H1 H2].
  split; [exact H1|]. split; [exact H2|]. repeat split.
Qed.

(** X4. A scan without any issue has the technical, content and
    accessibility scores 100; its performance score is 75 or more, since
    a load time between one and three seconds and a page between 1000 and
    2000 KB cost points without being issues, and its overall score is 95
    or more. *)
Theorem issue_free_scan_scores (m : Metadata) (t : Technical) (c : Content)
    (i : Images) :
  let iss := _identify_issues m t c i in
  critical_issues iss = 0%nat -> high_issues iss = 0%nat ->
  medium_issues iss = 0%nat -> low_issues iss = 0%nat ->
  exists s, _calculate_scores m t c i iss = Some s /\
    technical_score s = 100 /\ content_score s = 100 /\
    accessibility_score s = 100 /\
    75 <= performance_score s /\ 95 <= overall_score s.
Proof.
  cbv zeta. intros Hc Hh Hm Hl.
  destruct (calculate_scores_fields m t c i (_identify_issues m t c i))
    as (s & Hs & Est & Esc & Esp & Esa & Eso).
  exists s. split; [exact Hs|]. rewrite Est, Esc, Esp, Esa, Eso.
  pose proof (scores_caps_ok m t c i) as Hcaps.
  unfold _identify_issues in Hc, Hh, Hm, Hl. cbv zeta in Hc, Hh, Hm, Hl.
  cbn [critical_issues high_issues medium_issues low_issues] in Hc, Hh, Hm, Hl.
  assert (Ht : calc_technical_score t = 100 /\ calc_content_score m c = 100 /\
               calc_accessibility_score m i = 100 /\
               75 <= calc_performance_score t).
  { unfold calc_technical_score, calc_content_score, calc_accessibility_score,
      calc_performance_score. cbv zeta.
    destruct (h1_tags m) as [|x [|y l]];
      repeat (rewrite length_app in Hh || rewrite length_append_if in Hh); cbn [length] in Hh; [lia| |].
    - rewrite !length_append_if in Hc. rewrite !length_append_if in Hm.
      rewrite !length_append_if in Hl. cbn [length] in Hc, Hm, Hl.
      destruct (Py.truthy_opt (title m)), (has_ssl t), (http_status t =? 200);
        cbn [negb] in Hc; try lia.
      destruct (Py.truthy_opt (meta_description m)), (word_count c <? 300)%nat;
        cbn [negb Nat.ltb Nat.leb] in Hh; try lia.
      destruct (0 <? images_without_alt i)%nat, (is_mobile_friendly t);
        cbn [negb] in Hl; try lia.
      destruct (Z.ltb_spec 3000 (load_time_ms t)), (Z.ltb_spec 2000 (page_size_kb t));
        try lia.
      destruct (Z.ltb_spec 5000 (load_time_ms t)); [lia|].
      destruct (Z.ltb_spec 3000 (page_size_kb t)); [lia|].
      destruct (1000 <? load_time_ms t), (1000 <? page_size_kb t);
        cbn [negb Nat.ltb Nat.leb length]; lia.
    - cbn [Nat.ltb Nat.leb] in Hh. lia. }
  destruct Ht as (Ht & Hco & Ha & Hp).
  unfold overall_caps_ok in Hcaps. cbv zeta in Hcaps.
  apply andb_prop in Hcaps as [Hcaps _]. apply andb_prop in Hcaps as [_ Hcaps].
  rewrite Ht, Hco, Ha in Hcaps |- *.
  destruct (Z.leb_spec 75 (calc_performance_score t)); [|lia].
  cbn in Hcaps. apply Z.leb_le in Hcaps. auto.
Qed.

Lemma issue_free_scan_scores_witness :
  exists s,
    _calculate_scores
      {| title := Some "A title"; meta_description := Some "A description";
         h1_tags := ["One"]; canonical_url := None; robots_meta := None |}
      {| http_status := 200; has_ssl := true; page_size_kb := 1500;
         load_time_ms := 2000; is_mobile_friendly := true |}
      {| word_count := 400;
         heading_counts := {| h1 := 1; h2 := 0; h3 := 0; h4 := 0; h5 := 0; h6 := 0 |} |}
      {| image_count := 2; images_without_alt := 0; potentially_large_images := 0 |}
      (_identify_issues
         {| title := Some "A title"; meta_description := Some "A description";
            h1_tags := ["One"]; canonical_url := None; robots_meta := None |}
         {| http_status := 200; has_ssl := true; page_size_kb := 1500;
            load_time_ms := 2000; is_mobile_friendly := true |}
         {| word_count := 400;
            heading_counts := {| h1 := 1; h2 := 0; h3 := 0; h4 := 0; h5 := 0; h6 := 0 |} |}
         {| image_count := 2; images_without_alt := 0; potentially_large_images := 0 |})
      = Some s /\
    technical_score s = 100 /\ 95 <= overall_score s.
Proof.
  destruct (issue_free_scan_scores
      {| title := Some "A title"; meta_description := Some "A description";
         h1_tags := ["One"]; canonical_url := None; robots_meta := None |}
      {| http_status := 200; has_ssl := true; page_size_kb := 1500;
         load_time_ms := 2000; is_mobile_friendly := true |}
      {| word_count := 400;
         heading_counts := {| h1 := 1; h2 := 0; h3 := 0; h4 := 0; h5 := 0; h6 := 0 |} |}
      {| image_count := 2; images_without_alt := 0; potentially_large_images := 0 |}
      eq_refl eq_refl eq_refl eq_refl) as (s & Hs & Ht & _ & _ & _ & Ho).
  exists s. auto.
Defined.

(** X5. A scan with a critical issue never scores more than 91 overall;
    and an overall score of 100 means that every category score is 100 and
    that the scan has no critical, high or low issue, and no more than the
    two medium issues that cost no points, the long title and the long
    description. *)
Theorem critical_issue_caps_overall (m : Metadata) (t : Technical) (c : Content)
    (i : Images) :
  let iss := _identify_issues m t c i in
  exists s, _calculate_scores m t c i iss = Some s /\
    ((0 < critical_issues iss)%nat -> overall_score s <= 91) /\
    (overall_score s = 100 ->
     technical_score s = 100 /\ content_score s = 100 /\
     performance_score s = 100 /\ accessibility_score s = 100 /\
     critical_issues iss = 0%nat /\ high_issues iss = 0%nat /\
     low_issues iss = 0%nat /\ (medium_issues iss <= 2)%nat).
Proof.
  cbv zeta.
  destruct (calculate_scores_fields m t c i (_identify_issues m t c i))
    as (s & Hs & Est & Esc & Esp & Esa & Eso).
  exists s. split; [exact Hs|]. rewrite Est, Esc, Esp, Esa, Eso.
  pose proof (scores_caps_ok m t c i) as Hcaps.
  unfold overall_caps_ok in Hcaps. cbv zeta in Hcaps.
  apply andb_prop in Hcaps as [Hcaps H100]. apply andb_prop in Hcaps as [H91 _].
  split.
  - intros Hcrit.
    assert (Hlow : calc_technical_score t <= 75 \/ calc_content_score m c <= 75).
    { unfold _identify_issues in Hcrit. cbv zeta in Hcrit.
      cbn [critical_issues] in Hcrit. rewrite !length_append_if in Hcrit.
      cbn [length] in Hcrit.
      unfold calc_technical_score, calc_content_score. cbv zeta.
      destruct (Py.truthy_opt (title m)), (has_ssl t), (http_status t =? 200);
        cbn [negb] in Hcrit |- *; try lia;
        destruct (3000 <? load_time_ms t), (is_mobile_friendly t),
          (Py.truthy_opt (meta_description m)), (h1_tags m) as [|x [|y l]],
          (word_count c <? 300)%nat; cbn [negb Nat.ltb Nat.leb length]; lia. }
    assert (Hb : (calc_technical_score t <=? 75) || (calc_content_score m c <=? 75) = true)
      by (apply orb_true_iff; destruct Hlow; [left|right]; apply Z.leb_le; lia).
    rewrite Hb in H91. cbn in H91. apply Z.leb_le in H91. exact H91.
  - intros Ho. rewrite Ho in H100. cbn in H100.
    repeat (apply andb_prop in H100; destruct H100 as [H100 ?]).
    repeat match goal with
           | H : (_ =? _) = true |- _ => apply Z.eqb_eq in H
           end.
    pose proof (issue_deductions m t c i) as (Hcost & _).
    cbv zeta in Hcost.
    split; [assumption|]. split; [assumption|]. split; [assumption|].
    split; [assumption|]. split; [lia|]. split; [lia|].
    (* the low issues and the two medium issues that cost points *)
    match goal with
    | Ht : calc_technical_score t = 100, Hp : calc_performance_score t = 100,
      Ha : calc_accessibility_score m i = 100 |- _ =>
        unfold calc_technical_score in Ht; unfold calc_performance_score in Hp;
        unfold calc_accessibility_score in Ha; cbv zeta in Ht, Hp, Ha
    end.
    unfold _identify_issues. cbv zeta. cbn [low_issues medium_issues].
    rewrite !length_append_if. cbn [length].
    destruct (has_ssl t), (http_status t =? 200), (is_mobile_friendly t),
      (Z.ltb_spec 3000 (load_time_ms t)); cbn [negb] in *; try lia.
    destruct (Z.ltb_spec 5000 (load_time_ms t)); [lia|].
    destruct (Z.ltb_spec 2000 (page_size_kb t)).
    { destruct (3000 <? page_size_kb t), (1000 <? load_time_ms t); lia. }
    destruct (Nat.ltb_spec 0 (images_without_alt i)).
    { destruct (h1_tags m); lia. }
    split; [reflexivity|].
    repeat match goal with
           | |- context [if ?b then 1%nat else 0%nat] => destruct b
           end; lia.
Qed.

Lemma steps_monotone (f : Z -> Z) (lo : Z) :
  (forall x, x mod 5 = 0 -> lo <= x <= 100 -> f x <= f (x + 5)) ->
  forall x y, x mod 5 = 0 -> y mod 5 = 0 -> lo <= x -> x <= y -> y <= 100 ->
    f x <= f y.
Proof.
  intros H x y Hx Hy Hlo Hxy Hhi.
  assert (Hk : exists k : nat, y = x + 5 * Z.of_nat k).
  { exists (Z.to_nat ((y - x) / 5)).
    rewrite Z2Nat.id by (apply Z.div_pos; lia).
    Z.div_mod_to_equations. lia. }
  destruct Hk as [k ->]. clear Hy Hxy.
  induction k as [|k IH].
  - replace (x + 5 * Z.of_nat 0) with x by lia. lia.
  - replace (x + 5 * Z.of_nat (S k)) with (x + 5 * Z.of_nat k + 5) by lia.
    etrans; [apply IH; lia|].
    apply H; [|lia].
    rewrite (Z.mul_comm 5), Z.mod_add by lia. exact Hx.
Qed.

Lemma overall_steps (t c p a : Z) :
  In t (fives 4) -> In c (fives 2) -> In p (fives 4) -> In a (fives 8) ->
  overall_of t c p a <= overall_of (t + 5) c p a /\
  overall_of t c p a <= overall_of t (c + 5) p a /\
  overall_of t c p a <= overall_of t c (p + 5) a /\
  overall_of t c p a <= overall_of t c p (a + 5).
Proof.
  intros Ht Hc Hp Ha.
  pose proof (table4_forall overall_steps_ok (fives 4) (fives 2) (fives 4) (fives 8)
                overall_steps_table t c p a Ht Hc Hp Ha) as H.
  unfold overall_steps_ok in H. cbv zeta in H.
  repeat (apply andb_prop in H; destruct H as [H ?]).
  repeat match goal with
         | H : (_ <=? _) = true |- _ => apply Z.leb_le in H
         end.
  auto.
Qed.

Lemma overall_of_monotone (t t' c c' p p' a a' : Z) :
  t mod 5 = 0 -> t' mod 5 = 0 -> c mod 5 = 0 -> c' mod 5 = 0 ->
  p mod 5 = 0 -> p' mod 5 = 0 -> a mod 5 = 0 -> a' mod 5 = 0 ->
  20 <= t <= t' -> t' <= 100 -> 10 <= c <= c' -> c' <= 100 ->
  20 <= p <= p' -> p' <= 100 -> 40 <= a <= a' -> a' <= 100 ->
  overall_of t c p a <= overall_of t' c' p' a'.
Proof.
  intros Ht Ht' Hc Hc' Hp Hp' Ha Ha' Htr Htr' Hcr Hcr' Hpr Hpr' Har Har'.
  assert (Hin : forall lo x, (lo <= 20)%nat -> x mod 5 = 0 ->
                  5 * Z.of_nat lo <= x <= 100 -> In x (fives lo))
    by (intros; apply fives_intro; assumption).
  etrans; [apply (steps_monotone (fun x => overall_of x c p a) 20 (fun x Hx Hr =>
             proj1 (overall_steps x c p a
                      (Hin 4%nat x ltac:(lia) Hx ltac:(lia))
                      (Hin 2%nat c ltac:(lia) Hc ltac:(lia))
                      (Hin 4%nat p ltac:(lia) Hp ltac:(lia))
                      (Hin 8%nat a ltac:(lia) Ha ltac:(lia)))) t t'); lia|].
  etrans; [apply (steps_monotone (fun x => overall_of t' x p a) 10 (fun x Hx Hr =>
             proj1 (proj2 (overall_steps t' x p a
                      (Hin 4%nat t' ltac:(lia) Ht' ltac:(lia))
                      (Hin 2%nat x ltac:(lia) Hx ltac:(lia))
                      (Hin 4%nat p ltac:(lia) Hp ltac:(lia))
                      (Hin 8%nat a ltac:(lia) Ha ltac:(lia))))) c c'); lia|].
  etrans; [apply (steps_monotone (fun x => overall_of t' c' x a) 20 (fun x Hx Hr =>
             proj1 (proj2 (proj2 (overall_steps t' c' x a
                      (Hin 4%nat t' ltac:(lia) Ht' ltac:(lia))
                      (Hin 2%nat c' ltac:(lia) Hc' ltac:(lia))
                      (Hin 4%nat x ltac:(lia) Hx ltac:(lia))
                      (Hin 8%nat a ltac:(lia) Ha ltac:(lia)))))) p p'); lia|].
  apply (steps_monotone (fun x => overall_of t' c' p' x) 40 (fun x Hx Hr =>
           proj2 (proj2 (proj2 (overall_steps t' c' p' x
                    (Hin 4%nat t' ltac:(lia) Ht' ltac:(lia))
                    (Hin 2%nat c' ltac:(lia) Hc' ltac:(lia))
                    (Hin 4%nat p' ltac:(lia) Hp' ltac:(lia))
                    (Hin 8%nat x ltac:(lia) Hx ltac:(lia)))))) a a'); lia.
Qed.

(** X6. The overall score is monotone in the four category scores, in
    spite of the float arithmetic and the truncation: of two scans, the
    one that is at least as good in every category does not get the lower
    overall score. *)
Theorem overall_score_monotone (m m' : Metadata) (t t' : Technical)
    (c c' : Content) (i i' : Images) (iss iss' : Issues) (s s' : Scores) :
  _calculate_scores m t c i iss = Some s ->
  _calculate_scores m' t' c' i' iss' = Some s' ->
  technical_score s <= technical_score s' ->
  content_score s <= content_score s' ->
  performance_score s <= performance_score s' ->
  accessibility_score s <= accessibility_score s' ->
  overall_score s <= overall_score s'.
Proof.
  intros Hs Hs'.
  destruct (calculate_scores_fields m t c i iss) as (s0 & E & Ht & Hc & Hp & Ha & Ho).
  rewrite Hs in E. injection E as <-.
  destruct (calculate_scores_fields m' t' c' i' iss')
    as (s0 & E & Ht' & Hc' & Hp' & Ha' & Ho').
  rewrite Hs' in E. injection E as <-.
  rewrite Ht, Hc, Hp, Ha, Ho, Ht', Hc', Hp', Ha', Ho'.
  destruct (technical_score_range t) as [? ?].
  destruct (content_score_range m c) as [? ?].
  destruct (performance_score_range t) as [? ?].
  destruct (accessibility_score_range m i) as [? ?].
  destruct (technical_score_range t') as [? ?].
  destruct (content_score_range m' c') as [? ?].
  destruct (performance_score_range t') as [? ?].
  destruct (accessibility_score_range m' i') as [? ?].
  intros. apply overall_of_monotone; (assumption || lia).
Qed.

Lemma overall_score_monotone_witness :
  overall_of 50 55 70 100 <= overall_of 85 55 70 100.
Proof.
  pose (m := {| title := Some "T"; meta_description := None; h1_tags := ["One"];
                canonical_url := None; robots_meta := None |}).
  pose (t := {| http_status := 404; has_ssl := true; page_size_kb := 10;
                load_time_ms := 4000; is_mobile_friendly := false |}).
  pose (t' := {| http_status := 200; has_ssl := true; page_size_kb := 10;
                 load_time_ms := 4000; is_mobile_friendly := true |}).
  pose (c := {| word_count := 10;
                heading_counts := {| h1 := 1; h2 := 0; h3 := 0; h4 := 0; h5 := 0; h6 := 0 |} |}).
  pose (i := {| image_count := 0; images_without_alt := 0;
                potentially_large_images := 0 |}).
  pose (iss := _identify_issues m t c i).
  exact (overall_score_monotone m m t t' c c i i iss iss
           {| overall_score := overall_of 50 55 70 100; technical_score := 50;
              content_score := 55; performance_score := 70;
              accessibility_score := 100 |}
           {| overall_score := overall_of 85 55 70 100; technical_score := 85;
              content_score := 55; performance_score := 70;
              accessibility_score := 100 |}
           eq_refl eq_refl ltac:(cbn; lia) ltac:(cbn; lia) ltac:(cbn; lia)
           ltac:(cbn; lia)).
Defined.

(** ** The analysis modules *)

(** A loop over two counters that each step leaves or increments by one. *)
Lemma fold_counters_bounded {A : Type} (f : nat * nat -> A -> nat * nat) :
  (forall a b x, (a <= fst (f (a, b) x) <= S a /\ b <= snd (f (a, b) x) <= S b)%nat) ->
  forall l a b,
    (a <= fst (fold_left f l (a, b)) <= a + length l /\
     b <= snd (fold_left f l (a, b)) <= b + length l)%nat.
Proof.
  intros Hf l. induction l as [|x l IH]; intros a b; [cbn; lia|].
  cbn [fold_left length]. specialize (Hf a b x).
  destruct (f (a, b) x) as [a1 b1]. cbn [fst snd] in Hf.
  specialize (IH a1 b1). lia.
Qed.

(** X7. [_analyze_images] counts no more images without alt text, and no
    more potentially large images, than it counts images. *)
Theorem analyze_images_counts_bounded (soup : Dom.soup) (base_url : string) :
  let r := _analyze_images soup base_url in
  image_count r = length (Dom.find_all (Dom.name_is "img") soup) /\
  (images_without_alt r <= image_count r)%nat /\
  (potentially_large_images r <= image_count r)%nat.
Proof.
  cbv zeta. unfold _analyze_images.
  match goal with
  | |- context [fold_left ?f ?l (O, O)] =>
      assert (Hf : forall a b x,
                 (a <= fst (f (a, b) x) <= S a /\ b <= snd (f (a, b) x) <= S b)%nat);
      [|pose proof (fold_counters_bounded f Hf l 0 0) as H;
        destruct (fold_left f l (O, O)) as [a b]]
  end.
  - intros a b img. cbn [fst snd]. split; [destruct (negb _); lia|].
    destruct (Dom.get (Dom.attrs_of img) "width"),
      (Dom.get (Dom.attrs_of img) "height"); try destruct (_ && _); lia.
  - cbn [image_count images_without_alt potentially_large_images fst snd] in *. lia.
Qed.

Section Links.

Variable env : Env.

(** Every link the loop of [_analyze_links] goes through is skipped or
    counted once. *)
Lemma count_links_total (base_url base_domain : string) (links : list Dom.node)
    (i e i' e' : nat) :
  count_links env base_url base_domain links i e = Ok (i', e') ->
  (i' + e' + length (List.filter is_skipped_link links) = i + e + length links)%nat.
Proof.
  revert i e. induction links as [|link links IH]; intros i e H.
  - injection H as <- <-. cbn. lia.
  - cbn [count_links] in H. cbn [List.filter length].
    unfold is_skipped_link at 1. cbv zeta.
    destruct (Py.startswith "#" _ || Py.startswith "javascript:" _).
    + apply IH in H. cbn [length]. lia.
    + destruct (urljoin env base_url _) as [full|]; [|discriminate].
      destruct (Url.urlparse full) as [parsed|]; [|discriminate].
      destruct (String.eqb _ _); apply IH in H; lia.
Qed.

(** The loop raises nothing but the [ValueError] of the URL functions. *)
Lemma count_links_raises (base_url base_domain : string) (links : list Dom.node)
    (i e : nat) (x : exn) :
  count_links env base_url base_domain links i e = Raise x ->
  x = ValueError "Invalid IPv6 URL".
Proof.
  revert i e. induction links as [|link links IH]; intros i e H; [discriminate|].
  cbn [count_links] in H.
  destruct (Py.startswith "#" _ || Py.startswith "javascript:" _); [exact (IH _ _ H)|].
  destruct (urljoin env base_url _) as [full|]; [|congruence].
  destruct (Url.urlparse full) as [parsed|]; [|congruence].
  destruct (String.eqb _ _); exact (IH _ _ H).
Qed.

(** One link that [urljoin] rejects makes the loop raise. *)
Lemma count_links_bad_link (base_url base_domain : string) (links : list Dom.node)
    (i e : nat) (link : Dom.node) :
  In link links -> is_skipped_link link = false ->
  urljoin env base_url (default "" (Dom.get (Dom.attrs_of link) "href")) = None ->
  count_links env base_url base_domain links i e = Raise (ValueError "Invalid IPv6 URL").
Proof.
  intros Hin Hskip Hjoin. revert i e.
  induction links as [|l links IH]; intros i e; [destruct Hin|].
  cbn [count_links].
  destruct Hin as [->|Hin].
  - unfold is_skipped_link in Hskip. cbv zeta in Hskip. rewrite Hskip, Hjoin.
    reflexivity.
  - destruct (Py.startswith "#" _ || Py.startswith "javascript:" _); [apply IH, Hin|].
    destruct (urljoin env base_url (default "" (Dom.get (Dom.attrs_of l) "href")))
      as [full|]; [|reflexivity].
    destruct (Url.urlparse full) as [parsed|]; [|reflexivity].
    destruct (String.eqb _ _); apply IH, Hin.
Qed.

(** X8. When [_analyze_links] returns, every link with an href is counted
    exactly once: as internal, as external, or not at all when its href
    starts with "#" or "javascript:". *)
Theorem analyze_links_partition (soup : Dom.soup) (base_url : string) (r : Links) :
  _analyze_links env soup base_url = Ok r ->
  link_count r = length (Dom.find_all (Dom.has_attr "a" "href") soup) /\
  (internal_links r + external_links r
   + length (List.filter is_skipped_link (Dom.find_all (Dom.has_attr "a" "href") soup))
   = link_count r)%nat.
Proof.
  unfold _analyze_links. cbv zeta.
  destruct (Url.urlparse base_url) as [parsed|]; [|discriminate].
  destruct (count_links _ _ _ _ _ _) as [[i e]|x] eqn:Hc; [|discriminate].
  intros [= <-]. cbn [link_count internal_links external_links].
  split; [reflexivity|]. apply count_links_total in Hc. lia.
Qed.

(** X9. One link whose href [urljoin] rejects, anywhere outside the
    script, style and noscript tags, makes the analysis of the page raise
    a [ValueError], although the link counts are no part of what a scan
    stores. *)
Theorem malformed_link_fails_analysis (soup : Dom.soup) (url : string)
    (http_status : Z) (html : string) (load_time : Z) (link : Dom.node) :
  In link (Dom.find_all (Dom.has_attr "a" "href")
             (Dom.decompose_all removed_tags soup)) ->
  is_skipped_link link = false ->
  urljoin env url (default "" (Dom.get (Dom.attrs_of link) "href")) = None ->
  run_analysis_modules env soup url http_status html load_time
    = Raise (ValueError "Invalid IPv6 URL").
Proof.
  intros Hin Hskip Hjoin. unfold run_analysis_modules.
  unfold _analyze_technical.
  destruct (Url.urlparse url) as [parsed|] eqn:Hp; [|reflexivity].
  cbn [_analyze_content]. unfold _analyze_links. rewrite Hp.
  rewrite (count_links_bad_link _ _ _ _ _ _ Hin Hskip Hjoin). reflexivity.
Qed.

(** X10. The structured data of a scan is always empty: when
    [_extract_structured_data] looks for the JSON-LD scripts,
    [_analyze_content] has removed every script from the document. *)
Theorem scan_structured_data_empty (soup : Dom.soup) (url : string)
    (http_status : Z) (html : string) (load_time : Z) (an : Analysis) :
  run_analysis_modules env soup url http_status html load_time = Ok an ->
  an_structured_data an = {| json_ld := []; has_schema := false |}.
Proof.
  unfold run_analysis_modules.
  destruct (_analyze_technical _ _ _ _) as [technical|]; [|discriminate].
  pose proof (structured_data_after_content env soup) as Hsd.
  destruct (_analyze_content soup) as [content soup'] eqn:Hc. cbn [snd] in Hsd.
  destruct (_analyze_links env soup' url) as [links|]; [|discriminate].
  rewrite Hsd. intros [= <-]. reflexivity.
Qed.

(** X11. The H1 headings are counted twice, on two documents: the content
    analysis counts those outside the script, style and noscript tags, the
    metadata lists all of them.  The count of the content analysis is the
    smaller one, by the number of H1 tags inside the removed tags. *)
Theorem scan_h1_counts (soup : Dom.soup) (url : string)
    (http_status : Z) (html : string) (load_time : Z) (an : Analysis) :
  run_analysis_modules env soup url http_status html load_time = Ok an ->
  (h1 (heading_counts (an_content an))
   + Dom.count_inside removed_tags (Dom.name_is "h1") soup
   = length (h1_tags (an_metadata an)))%nat /\
  (h1 (heading_counts (an_content an)) <= length (h1_tags (an_metadata an)))%nat.
Proof.
  unfold run_analysis_modules.
  destruct (_analyze_technical _ _ _ _) as [technical|]; [|discriminate].
  cbn [_analyze_content].
  destruct (_analyze_links env _ url) as [links|]; [|discriminate].
  destruct (_extract_structured_data env _) as [sd|]; [|discriminate].
  intros [= <-]. cbn [an_content an_metadata heading_counts h1].
  unfold _extract_metadata. cbn [h1_tags]. rewrite length_map.
  rewrite count_after_decompose.
  pose proof (count_outside_inside removed_tags (Dom.name_is "h1") soup). lia.
Qed.

End Links.

Lemma analyze_links_partition_witness :
  exists r, _analyze_links Demo.env Demo.soup "https://example.com/" = Ok r /\
    link_count r = 2%nat /\ internal_links r = 2%nat /\ external_links r = 0%nat.
Proof.
  destruct (_analyze_links Demo.env Demo.soup "https://example.com/") as [r|] eqn:E;
    [|vm_compute in E; discriminate].
  exists r. split; [reflexivity|].
  destruct (analyze_links_partition Demo.env Demo.soup "https://example.com/" r E)
    as [Hc Hp].
  vm_compute in E. injection E as <-. repeat split.
Defined.

(** An environment whose [urljoin] rejects every href. *)
Lemma malformed_link_fails_analysis_witness :
  let env := {| http_get := http_get Demo.env; html_parser := html_parser Demo.env;
                urljoin := fun _ _ => None; json_valid := json_valid Demo.env;
                generate_content := generate_content Demo.env;
                generate_ms := generate_ms Demo.env;
                audit_prompt := audit_prompt Demo.env;
                keyword_prompt := keyword_prompt Demo.env;
                roadmap_prompt := roadmap_prompt Demo.env |} in
  run_analysis_modules env Demo.soup "https://example.com/" 200 "<html>" 120
    = Raise (ValueError "Invalid IPv6 URL").
Proof.
  intros env.
  apply (malformed_link_fails_analysis env Demo.soup "https://example.com/" 200
           "<html>" 120 (Dom.Element "a" [("href", "/about")] [Dom.Text "about us"])).
  - vm_compute. left. reflexivity.
  - reflexivity.
  - reflexivity.
Defined.

Lemma scan_structured_data_empty_witness :
  exists an,
    run_analysis_modules Demo.env Demo.soup "https://example.com/" 200 "<html>" 120
      = Ok an /\
    an_structured_data an = {| json_ld := []; has_schema := false |} /\
    Dom.find_all (Dom.has_attr_value "script" "type" "application/ld+json") Demo.soup
      <> [].
Proof.
  destruct (run_analysis_modules Demo.env Demo.soup "https://example.com/" 200
              "<html>" 120) as [an|] eqn:E; [|vm_compute in E; discriminate].
  exists an. split; [reflexivity|]. split.
  - exact (scan_structured_data_empty Demo.env _ _ _ _ _ _ E).
  - vm_compute. discriminate.
Defined.

Lemma scan_h1_counts_witness :
  exists an,
    run_analysis_modules Demo.env Demo.soup "https://example.com/" 200 "<html>" 120
      = Ok an /\
    (h1 (heading_counts (an_content an)) + 1 = length (h1_tags (an_metadata an)))%nat.
Proof.
  destruct (run_analysis_modules Demo.env Demo.soup "https://example.com/" 200
              "<html>" 120) as [an|] eqn:E; [|vm_compute in E; discriminate].
  exists an. split; [reflexivity|].
  exact (proj1 (scan_h1_counts Demo.env _ _ _ _ _ _ E)).
Defined.

(** Removing the tags again removes nothing more. *)
Lemma flat_map_idempotent {A : Type} (f : A -> list A) (l : list A) :
  Forall (fun x => flat_map f (f x) = f x) l ->
  flat_map f (flat_map f l) = flat_map f l.
Proof.
  induction 1 as [|x l Hx _ IH]; [reflexivity|].
  cbn [flat_map]. rewrite flat_map_app, Hx, IH. reflexivity.
Qed.

Lemma decompose_node_idempotent (tags : list string) (n : Dom.node) :
  flat_map (Dom.decompose_node tags) (Dom.decompose_node tags n)
  = Dom.decompose_node tags n.
Proof.
  induction n as [s|name attrs contents IH] using node_rect'; [reflexivity|].
  cbn [Dom.decompose_node].
  destruct (existsb (String.eqb name) tags) eqn:E; [reflexivity|].
  cbn [flat_map Dom.decompose_node]. rewrite E, app_nil_r.
  rewrite (flat_map_idempotent _ _ IH). reflexivity.
Qed.

(** X12. [_analyze_content] is idempotent: on the document it leaves, it
    removes nothing more and returns the same word count and the same
    heading counts. *)
Theorem analyze_content_idempotent (soup : Dom.soup) :
  _analyze_content (snd (_analyze_content soup)) = _analyze_content soup.
Proof.
  unfold _analyze_content. cbn [snd]. cbv zeta.
  assert (H : Dom.decompose_all removed_tags (Dom.decompose_all removed_tags soup)
              = Dom.decompose_all removed_tags soup).
  { unfold Dom.decompose_all. apply flat_map_idempotent, Forall_forall.
    intros n _. apply decompose_node_idempotent. }
  rewrite H. reflexivity.
Qed.

(** ** The footprint of a scan *)

#[export] Instance same_scans_frame : Frame same_scans.
Proof. split; unfold same_scans; congruence. Qed.
#[export] Instance same_ai_usage_frame : Frame same_ai_usage.
Proof. split; unfold same_ai_usage; congruence. Qed.
#[export] Instance other_scans_frame (id : nat) : Frame (other_scans id).
Proof.
  split; unfold other_scans.
  - auto.
  - intros a b c [H1 H2] [H3 H4]. split; [congruence|].
    intros i Hi. rewrite (H4 i Hi). exact (H2 i Hi).
Qed.
#[export] Instance same_view_frame {A : Type} (view : Profile -> A) (uid : string) :
  Frame (same_view view uid).
Proof.
  split; unfold same_view.
  - auto.
  - intros a b c H1 H2 u. destruct (H1 u) as [H3 H4], (H2 u) as [H5 H6].
    split; [congruence|]. intros Hu. rewrite (H6 Hu). exact (H4 Hu).
Qed.

Lemma same_view_alter {A : Type} (view : Profile -> A) (uid : string)
    (g : Profile -> Profile) (m : gmap string Profile) :
  (forall p, view (g p) = view p) ->
  forall u, view <$> alter g uid m !! u = view <$> m !! u /\
            (u <> uid -> alter g uid m !! u = m !! u).
Proof.
  intros Hg u. destruct (decide (u = uid)) as [->|Hne].
  - split; [|congruence]. rewrite lookup_alter_eq.
    destruct (m !! uid); cbn; [rewrite Hg|]; reflexivity.
  - rewrite lookup_alter_ne by congruence. auto.
Qed.

Lemma other_scans_alter (id : nat) (f : ScanRow -> ScanRow) (l : list ScanRow) :
  length (alter f id l) = length l /\
  forall i, i <> id -> alter f id l !! i = l !! i.
Proof.
  split; [apply length_alter|].
  intros i Hi. apply list_lookup_alter_ne. congruence.
Qed.

(** A primitive of the world, for the relations on the scans, the usage
    log and the views of the profiles. *)
Ltac frame_primitive_more :=
  apply preserves_state; intros ?w;
  unfold select_profile, update_profile, insert_scan, update_scan,
    insert_transaction, insert_ai_usage, execute, step, session_get,
    model_generate;
  unfold same_scans, same_ai_usage, other_scans, same_view;
  repeat match goal with
         | |- context [match ?x with _ => _ end] => destruct x
         end;
  cbn;
  first [ reflexivity
        | solve [auto]
        | apply other_scans_alter
        | apply same_view_alter; intros ?; reflexivity ].

Ltac frame_more := frame_structure; frame_primitive_more.

Section ScanFootprint.

Variable env : Env.

(** [_create_scan_record] appends the pending row and returns its
    position, or raises and leaves the table as it was. *)
Lemma create_scan_record_cases (uid target dom : string) (w : World)
    (r : Result nat) (w1 : World) :
  _create_scan_record uid target dom w = (r, w1) ->
  (exists e, r = Raise e /\ scans w1 = scans w) \/
  (r = Ok (length (scans w)) /\
   scans w1 = scans w ++
     [{| user_id := uid; url := target; domain := dom; status := "pending";
         started_at := clock w; error_message := None; completed_at := None;
         scan_data := None |}]).
Proof.
  intros H. apply try_except_inv in H as [(a & Hb & ->)|(e0 & w0 & Hb & [= <- <-])].
  - right. apply bind_inv in Hb as [(e1 & _ & [=])|(t & w2 & [= <- <-] & Hi)].
    apply execute_inv in Hi as [(_ & [=] & _)|(_ & [= ->] & ->)]. auto.
  - left. apply bind_inv in Hb as [(e1 & [=] & _)|(t & w2 & [= <- <-] & Hi)].
    apply execute_inv in Hi as [(_ & _ & ->)|(_ & [=] & _)]. eauto.
Qed.

Lemma alter_last {A : Type} (f : A -> A) (l : list A) (x : A) :
  alter f (length l) (l ++ [x]) = l ++ [f x].
Proof. induction l as [|y l IH]; [reflexivity|]. cbn. f_equal. exact IH. Qed.

Ltac ok_next H E :=
  apply bind_inv in H as [(? & E & [=])|(? & ? & E & H)]; cbv beta in H.

Ltac keeps_scans E Hsc :=
  match type of E with
  | ?m ?wi = (_, ?wj) =>
      let Hk := fresh "Hk" in
      assert (Hk : same_scans wi wj)
        by (refine ((_ : preserves same_scans m) _ _ _ E); frame_more);
      unfold same_scans in Hk; rewrite Hsc in Hk; clear Hsc E; rename Hk into Hsc
  end.

(** A scan attempt that returns an id has written the completed record. *)
Lemma scan_attempt_completed (uid target : string) (id : nat) (w1 : World)
    (id' : nat) (w2 : World) :
  scan_attempt env uid target id w1 = (Ok (Some id'), w2) ->
  id' = id /\
  exists html status load an scores completed duration,
    run_analysis_modules env (html_parser env html) target status html load = Ok an /\
    _calculate_scores (an_metadata an) (an_technical an) (an_content an)
      (an_images an)
      (_identify_issues (an_metadata an) (an_technical an) (an_content an)
         (an_images an)) = Some scores /\
    scans w2 =
      alter (set_completed
               {| sd_metadata := an_metadata an;
                  sd_technical := an_technical an;
                  sd_content := an_content an;
                  sd_scores := scores;
                  sd_issues := _identify_issues (an_metadata an) (an_technical an)
                                 (an_content an) (an_images an);
                  structured_data := an_structured_data an;
                  issues_detail :=
                    _format_issues_detail
                      (_identify_issues (an_metadata an) (an_technical an)
                         (an_content an) (an_images an));
                  duration_seconds := duration |} completed) id
        (alter (set_status "processing") id (scans w1)).
Proof.
  intros H. unfold scan_attempt in H.
  ok_next H E.
  match type of E with
  | _ = (_, ?wj) =>
      assert (Hsc : scans wj = alter (set_status "processing") id (scans w1))
        by (apply execute_inv in E as [(_ & [=] & _)|(_ & _ & ->)]; reflexivity)
  end.
  clear E.
  ok_next H E. keeps_scans E Hsc.
  ok_next H E. keeps_scans E Hsc.
  ok_next H E. keeps_scans E Hsc.
  match type of H with
  | match ?x with _ => _ end _ = _ => destruct x as [[html status] load]
  end.
  assert (Hnone : forall msg wi a wj,
            (_mark_scan_failed id msg ;; ret (@None nat)) wi = (Ok (Some a), wj) -> False).
  { intros msg wi a wj Hm.
    apply bind_inv in Hm as [(? & _ & [=])|(? & ? & _ & [=])]. }
  destruct html as [html|]; [destruct (Py.truthy html)|];
    [|destruct (Hnone _ _ _ _ H)|destruct (Hnone _ _ _ _ H)].
  ok_next H E. keeps_scans E Hsc.
  ok_next H E. keeps_scans E Hsc.
  ok_next H E. injection E as Han <-.
  ok_next H E. keeps_scans E Hsc.
  ok_next H E. keeps_scans E Hsc.
  ok_next H E. keeps_scans E Hsc.
  ok_next H E.
  destruct (_calculate_scores _ _ _ _ _) as [scores|] eqn:Hscores; [|discriminate E].
  injection E as <- <-.
  ok_next H E. keeps_scans E Hsc.
  ok_next H E. keeps_scans E Hsc.
  ok_next H E.
  match type of E with
  | update_scan id (set_completed ?d ?c) ?wi = (_, ?wj) =>
      assert (Hsc' : scans wj = alter (set_completed d c) id (scans wi))
        by (apply execute_inv in E as [(_ & [=] & _)|(_ & _ & ->)]; reflexivity)
  end.
  rewrite Hsc in Hsc'. clear Hsc E.
  ok_next H E. keeps_scans E Hsc'.
  injection H as <- <-.
  split; [reflexivity|].
  eexists html, status, load, _, scores, _, _.
  split; [exact Han|]. split; [exact Hscores|]. exact Hsc'.
Qed.

(** X13. A scan that returns an id has appended exactly one row to the
    scans table, at the position it returns, and left every other row as it
    was.  The row belongs to the user, carries the normalised URL and its
    network location, no error message, the status "completed" and a
    completion time; its issues and its scores are those that
    [_identify_issues] and [_calculate_scores] give for the metadata, the
    technical and the content analysis stored beside them. *)
Theorem scan_url_stores_completed_record (uid raw : string) (w : World)
    (id : nat) (w' : World) :
  scan_url env uid raw w = (Ok (Some id), w') ->
  id = length (scans w) /\
  exists target parsed row data images,
    _normalize_url raw = Some target /\ Url.urlparse target = Some parsed /\
    scans w' = scans w ++ [row] /\
    user_id row = uid /\ url row = target /\ domain row = Url.netloc parsed /\
    status row = "completed" /\ error_message row = None /\
    is_Some (completed_at row) /\ scan_data row = Some data /\
    sd_issues data =
      _identify_issues (sd_metadata data) (sd_technical data) (sd_content data)
        images /\
    _calculate_scores (sd_metadata data) (sd_technical data) (sd_content data)
      images (sd_issues data) = Some (sd_scores data) /\
    issues_detail data = _format_issues_detail (sd_issues data).
Proof.
  intros H. unfold scan_url in H.
  destruct (_normalize_url raw) as [target|] eqn:Hnorm; [|discriminate H].
  destruct (normalize_url_parses _ _ Hnorm) as (parsed & Hparse & _).
  rewrite Hparse in H.
  apply bind_inv in H as [(e & Hc & [=])|(allowed & w0 & Hc & H)].
  assert (Hs0 : same_scans w w0)
    by (refine ((_ : preserves same_scans (_check_scan_limits uid)) _ _ _ Hc);
        frame_more).
  unfold same_scans in Hs0.
  destruct allowed; cbn [negb] in H; [|discriminate H].
  apply bind_inv in H as [(e & Hr & [=])|(sid & w1 & Hr & H)].
  apply create_scan_record_cases in Hr as [(e & [=] & _)|([= ->] & Hs1)].
  apply try_except_inv in H as [(a & Ha & [= <-])|(e & w2 & _ & Hf)].
  2:{ apply scan_failed_cases in Hf as (_ & _ & [[=]|[[=] _]]). }
  apply scan_attempt_completed in Ha
    as (-> & html & status & load & an & scores & completed & duration
        & Han & Hscores & Hsc).
  rewrite Hs1, !alter_last, Hs0 in Hsc. rewrite Hs0.
  split; [reflexivity|].
  eexists target, parsed, _, _, (an_images an).
  split; [reflexivity|]. split; [exact Hparse|]. split; [exact Hsc|].
  cbn. repeat split; eauto.
Qed.

(** X14. A scan that is refused leaves no trace: for a URL that does not
    normalise the world is as it was, and for a user without profile, at
    or over the monthly limit, or whose profile cannot be read, the only
    change is the request to the database that read it, so that no scan
    record is written and no page is requested. *)
Theorem refused_scan_leaves_no_trace (uid raw : string) (w : World) :
  _normalize_url raw = None \/ hd false (faults w) = true \/
  profiles w !! uid = None \/
  (exists p, profiles w !! uid = Some p /\
             monthly_scan_limit p <= monthly_scans_used p) ->
  exists w', scan_url env uid raw w = (Ok None, w') /\
    (w' = w \/ w' = set_faults (tail (faults w)) w).
Proof. apply scan_refused. Qed.

Lemma scan_url_views (uid raw : string) :
  preserves (same_view without_counter uid) (scan_url env uid raw).
Proof. unfold scan_url. frame_more. Qed.

(** X15. A scan touches nothing but its own record and the scan counter
    of its user: whatever it returns or raises, the credit ledger, the
    usage log and the calls of the model are as they were; every profile
    keeps its tier, limit and credits, and the profiles of the other users
    are unchanged; the records of the earlier scans are unchanged, and at
    most one record is added. *)
Theorem scan_url_footprint (uid raw : string) (w : World)
    (r : Result (option nat)) (w' : World) :
  scan_url env uid raw w = (r, w') ->
  credit_transactions w' = credit_transactions w /\
  ai_usage w' = ai_usage w /\
  model_calls w' = model_calls w /\
  (forall u, without_counter <$> profiles w' !! u
             = without_counter <$> profiles w !! u) /\
  (forall u, u <> uid -> profiles w' !! u = profiles w !! u) /\
  (forall i, (i < length (scans w))%nat -> scans w' !! i = scans w !! i) /\
  (length (scans w') = length (scans w) \/
   length (scans w') = S (length (scans w))).
Proof.
  intros H.
  split; [exact ((ltac:(unfold scan_url; frame_structure)
                  : preserves same_ledger (scan_url env uid raw)) _ _ _ H)|].
  split; [exact ((ltac:(unfold scan_url; frame_more)
                  : preserves same_ai_usage (scan_url env uid raw)) _ _ _ H)|].
  split; [exact ((ltac:(unfold scan_url; frame_structure)
                  : preserves same_model_calls (scan_url env uid raw)) _ _ _ H)|].
  pose proof (scan_url_views uid raw _ _ _ H) as Hv.
  split; [intros u; exact (proj1 (Hv u))|].
  split; [intros u; exact (proj2 (Hv u))|].
  unfold scan_url in H.
  destruct (_normalize_url raw) as [target|] eqn:Hnorm;
    [|injection H as _ <-; auto].
  destruct (Url.urlparse target) as [parsed|]; [|injection H as _ <-; auto].
  apply bind_inv in H as [(e & Hc & _)|(allowed & w0 & Hc & H)];
    [destruct (check_scan_limits_never_raises _ _ _ _ Hc)|].
  assert (Hs0 : same_scans w w0)
    by (refine ((_ : preserves same_scans (_check_scan_limits uid)) _ _ _ Hc);
        frame_more).
  unfold same_scans in Hs0. rewrite <- Hs0.
  destruct allowed; cbn [negb] in H; [|injection H as _ <-; auto].
  apply bind_inv in H as [(e & Hr & _)|(sid & w1 & Hr & H)].
  - apply create_scan_record_cases in Hr as [(e' & _ & ->)|([=] & _)]. auto.
  - apply create_scan_record_cases in Hr as [(e' & [=] & _)|([= ->] & Hs1)].
    assert (Ho : other_scans (length (scans w0)) w1 w')
      by (refine ((_ : preserves (other_scans (length (scans w0)))
                         (try_except (scan_attempt env uid target _)
                            (scan_failed _))) _ _ _ H); frame_more).
    destruct Ho as [Hlen Hrows]. split.
    + intros i Hi. rewrite Hrows by lia. rewrite Hs1.
      apply lookup_app_l. exact Hi.
    + right. rewrite Hlen, Hs1, length_app. cbn. lia.
Qed.

(** A fetch that brings no content, or raises, ends the scan: with the
    database reachable the record is marked failed with the message of the
    failure, and the scan returns [None] after the one stage HTTP GET. *)
Lemma scan_url_fetch_fails (uid raw target : string) (w : World) (p : Profile)
    (fetched : Result (option string * Z * Z)) (msg : string) :
  _normalize_url raw = Some target ->
  faults w = [] -> profiles w !! uid = Some p ->
  monthly_scans_used p < monthly_scan_limit p ->
  (forall wx, fst (_fetch_page env target wx) = fetched) ->
  fetch_failure fetched = Some msg ->
  exists w' t, scan_url env uid raw w = (Ok None, w') /\
    marked_failed w' (length (scans w)) msg t /\
    steps w' = steps w ++ [HttpGet] /\ profiles w' = profiles w.
Proof.
  intros Hnorm Hf Hp Hlim Hfetch Hmsg.
  destruct (normalize_url_parses _ _ Hnorm) as (parsed & Hparse & _).
  unfold scan_url. rewrite Hnorm, Hparse.
  destruct w as [pr sc tx au fl ck mc st]. cbn in Hf, Hp. subst fl.
  unfold bind at 1. unfold _check_scan_limits, try_except, bind, select_profile, execute.
  cbn. rewrite Hp. cbn. rewrite (proj2 (Z.ltb_lt _ _) Hlim). cbn.
  unfold _create_scan_record, try_except, bind, now, insert_scan, execute. cbn.
  assert (Hff : preserves faults_shrink (_fetch_page env target)) by frame_structure.
  assert (Hfc : preserves same_scans (_fetch_page env target)) by frame_more.
  match goal with
  | |- context [_fetch_page env target ?W] =>
      pose proof (Hfetch W) as Hres;
      pose proof (fetch_page_profiles env target W) as Hfp;
      pose proof (fetch_page_steps env target W) as Hfs;
      specialize (Hff W); specialize (Hfc W);
      destruct (_fetch_page env target W) as [res wy]
  end.
  cbn [fst] in Hres. subst res.
  specialize (Hfp _ _ eq_refl). specialize (Hfs _ _ eq_refl).
  specialize (Hff _ _ eq_refl). specialize (Hfc _ _ eq_refl).
  unfold same_profiles, same_steps, faults_shrink, same_scans in *.
  cbn in Hfp, Hfs, Hff, Hfc.
  apply suffix_nil_inv in Hff.
  assert (Hmark : forall m, exists w4,
             _mark_scan_failed (length sc) m wy = (Ok tt, w4) /\
             marked_failed w4 (length sc) m (clock wy) /\
             profiles w4 = profiles wy /\ steps w4 = steps wy).
  { intros m.
    destruct (mark_scan_failed_ok (length sc) m wy) as (w4 & Hm & Hmk & Hpr).
    - rewrite Hff. reflexivity.
    - rewrite Hfc, length_alter, length_app. cbn. lia.
    - exists w4. split; [exact Hm|]. split; [exact Hmk|]. split; [exact Hpr|].
      exact (mark_scan_failed_steps _ _ _ _ _ Hm). }
  destruct fetched as [[[html status] load]|e].
  - assert (Hhtml : Py.truthy_opt html = false /\
                    "Failed to fetch page: HTTP " +:+ Py.str_of_int status = msg).
    { unfold fetch_failure in Hmsg.
      destruct (Py.truthy_opt html); [discriminate Hmsg|].
      injection Hmsg as <-. auto. }
    destruct Hhtml as [Hhtml <-].
    destruct (Hmark ("Failed to fetch page: HTTP " +:+ Py.str_of_int status))
      as (w4 & Hm & Hmk & Hpr & Hst).
    exists w4, (clock wy). split.
    + unfold _mark_scan_failed, bind, now in Hm. cbv beta iota in Hm.
      destruct html as [[|c h]|]; [|discriminate Hhtml|];
        cbn; rewrite Hm; reflexivity.
    + split; [exact Hmk|]. split; [rewrite Hst, Hfs; reflexivity|].
      rewrite Hpr, Hfp. reflexivity.
  - injection Hmsg as <-.
    destruct (Hmark (str_exn e)) as (w4 & Hm & Hmk & Hpr & Hst).
    exists w4, (clock wy). split.
    + cbn. unfold scan_failed, bind. rewrite Hm. reflexivity.
    + split; [exact Hmk|]. split; [rewrite Hst, Hfs; reflexivity|].
      rewrite Hpr, Hfp. reflexivity.
Qed.

(** X16. A network error ends the scan without an exception:
    [_fetch_page] swallows the [RequestException] and returns no content
    with the status 0, and the scan, on a reachable database, is marked
    failed with the message "Failed to fetch page: HTTP 0" and returns
    [None]. *)
Theorem network_error_fails_scan (uid raw target reason : string) (w : World)
    (p : Profile) :
  _normalize_url raw = Some target ->
  http_get env target = HttpRaises (RequestException reason) ->
  _fetch_page env target w = (Ok (None, 0, 0), w) /\
  (faults w = [] -> profiles w !! uid = Some p ->
   monthly_scans_used p < monthly_scan_limit p ->
   exists w' t, scan_url env uid raw w = (Ok None, w') /\
     marked_failed w' (length (scans w)) "Failed to fetch page: HTTP 0" t /\
     steps w' = steps w ++ [HttpGet] /\ profiles w' = profiles w).
Proof.
  intros Hnorm Hget.
  assert (Hfetch : forall wx, _fetch_page env target wx = (Ok (None, 0, 0), wx)).
  { intros wx. unfold _fetch_page, try_except_class, bind, now, session_get.
    rewrite Hget. reflexivity. }
  split; [apply Hfetch|]. intros Hf Hp Hlim.
  apply (scan_url_fetch_fails uid raw target w p (Ok (None, 0, 0)));
    try assumption; [|reflexivity].
  intros wx. rewrite Hfetch. reflexivity.
Qed.

(** X17. A Content-Length that is not an integer makes [_fetch_page]
    raise the [ValueError] of [int], which its handler for request
    exceptions lets through; the scan, on a reachable database, is then
    marked failed with the message of that exception and returns [None]. *)
Theorem malformed_content_length_fails_scan (uid raw target : string) (w : World)
    (p : Profile) (resp : Response) (cl : string) :
  _normalize_url raw = Some target ->
  http_get env target = HttpReturns resp ->
  header_get (headers resp) "content-length" = Some cl ->
  Py.truthy cl = true -> Py.int cl = None ->
  exists msg,
    fst (_fetch_page env target w) = Raise (ValueError msg) /\
    (faults w = [] -> profiles w !! uid = Some p ->
     monthly_scans_used p < monthly_scan_limit p ->
     exists w' t, scan_url env uid raw w = (Ok None, w') /\
       marked_failed w' (length (scans w)) msg t /\
       profiles w' = profiles w).
Proof.
  intros Hnorm Hget Hhdr Htruthy Hint.
  assert (Hfetch : forall wx,
             fst (_fetch_page env target wx)
             = Raise (ValueError "invalid literal for int() with base 10")).
  { intros wx. unfold _fetch_page, try_except_class, bind, now, session_get.
    rewrite Hget. cbn [clock set_clock]. rewrite Hhdr, Htruthy, Hint. reflexivity. }
  eexists. split; [apply Hfetch|]. intros Hf Hp Hlim.
  destruct (scan_url_fetch_fails uid raw target w p _ _ Hnorm Hf Hp Hlim Hfetch eq_refl)
    as (w' & t & Hs & Hm & _ & Hpr).
  exists w', t. auto.
Qed.

(** X18. A page with an empty body is a failed scan, whatever its status
    and whatever Content-Length it announces, as long as that is an
    integer: on a reachable database, for a user within the monthly limit,
    the record is marked failed with "Failed to fetch page: HTTP" and the
    status, which is 200 for an empty page served without error, and the
    scan returns [None]. *)
Theorem empty_page_fails_scan (uid raw target : string) (w : World)
    (p : Profile) (resp : Response) :
  _normalize_url raw = Some target ->
  http_get env target = HttpReturns resp ->
  text resp = Ok "" ->
  (forall cl, header_get (headers resp) "content-length" = Some cl ->
              Py.truthy cl = true -> is_Some (Py.int cl)) ->
  faults w = [] -> profiles w !! uid = Some p ->
  monthly_scans_used p < monthly_scan_limit p ->
  exists w' t, scan_url env uid raw w = (Ok None, w') /\
    marked_failed w' (length (scans w))
      ("Failed to fetch page: HTTP " +:+ Py.str_of_int (status_code resp)) t /\
    steps w' = steps w ++ [HttpGet] /\ profiles w' = profiles w.
Proof.
  intros Hnorm Hget Htext Hcl Hf Hp Hlim.
  apply (scan_url_fetch_fails uid raw target w p (fst (_fetch_page env target w)));
    try assumption.
  - intros wx. apply fetch_page_result_fixed.
  - unfold _fetch_page, try_except_class, bind, now, session_get.
    rewrite Hget. cbn [clock set_clock].
    destruct (header_get (headers resp) "content-length") as [cl|].
    + destruct (Py.truthy cl) eqn:Ht.
      * destruct (Hcl cl eq_refl Ht) as [n Hn]. rewrite Hn. unfold ret.
        destruct (MAX_PAGE_SIZE <? n); [reflexivity|].
        unfold lift. rewrite Htext. reflexivity.
      * unfold ret, lift. rewrite Htext. reflexivity.
    + unfold ret, lift. rewrite Htext. reflexivity.
Qed.

(** X28. The monthly quota holds on a reachable database: a scan that
    returns an id was within the limit and has raised the counter of its
    user by one, leaving the limit as it was; and once the counter has
    reached the limit, every further scan of that user is refused and
    writes no record. *)
Theorem scan_quota_enforced (uid raw : string) (w : World) (p : Profile)
    (id : nat) (w' : World) :
  true ∉ faults w -> profiles w !! uid = Some p ->
  scan_url env uid raw w = (Ok (Some id), w') ->
  monthly_scans_used p < monthly_scan_limit p /\
  exists p', profiles w' !! uid = Some p' /\
    monthly_scans_used p' = monthly_scans_used p + 1 /\
    monthly_scan_limit p' = monthly_scan_limit p /\
    (monthly_scan_limit p <= monthly_scans_used p + 1 ->
     forall again, exists w'',
       scan_url env uid again w' = (Ok None, w'') /\ scans w'' = scans w').
Proof.
  intros Hno Hp H.
  pose proof (scan_url_views uid raw _ _ _ H uid) as [Hview _].
  apply scan_url_cases in H
    as [([=] & _)|[([=] & _)|
        (target & sid & w1 & ra & w2 & _ & Hp1 & _ & Hf1 & (q & Hq & Hlt) & Ha & Hr)]].
  rewrite Hp in Hq. injection Hq as <-.
  split; [exact Hlt|].
  destruct ra as [a|e]; [destruct Hr as [[= <-] ->]|
    apply scan_failed_cases in Hr as (_ & _ & [[=]|[[=] _]])].
  apply scan_attempt_cases in Ha as (d & _ & _ & _ & wi & Hpi & Hfi & Hinc).
  apply increment_cases in Hinc as [_ Hsucc].
  destruct (no_fault_ahead w wi Hno (frame_trans _ _ _ Hf1 Hfi)) as [Hn1 Hn2].
  specialize (Hsucc Hn1 Hn2). unfold scans_used in Hsucc.
  rewrite Hpi, Hp1, Hp in Hsucc. cbn in Hsucc. rewrite Hp in Hview. cbn in Hview.
  destruct (profiles w2 !! uid) as [p'|] eqn:Hp'; [|discriminate Hsucc].
  cbn in Hsucc, Hview. injection Hsucc as Hused. injection Hview as _ Hlimit _ _.
  exists p'. split; [reflexivity|]. split; [lia|]. split; [exact Hlimit|].
  intros Hfull again.
  destruct (scan_refused env uid again w2) as (w'' & Hs & Hw).
  - right. right. right. exists p'. split; [exact Hp'|]. lia.
  - exists w''. split; [exact Hs|]. destruct Hw as [->| ->]; reflexivity.
Qed.

End ScanFootprint.

Lemma scan_url_stores_completed_record_witness :
  exists row,
    scans (snd (scan_url Demo.env "alice" "example.com" (Demo.world []))) = [row] /\
    status row = "completed" /\ url row = "https://example.com".
Proof.
  destruct (scan_url_stores_completed_record Demo.env "alice" "example.com"
              (Demo.world []) 0
              (snd (scan_url Demo.env "alice" "example.com" (Demo.world []))))
    as (_ & target & parsed & row & data & images & Hn & _ & Hs & _ & Hu & _ & Hst & _).
  - vm_compute. reflexivity.
  - exists row. split; [exact Hs|]. split; [exact Hst|].
    rewrite Hu. injection Hn as <-. reflexivity.
Defined.

Lemma refused_scan_leaves_no_trace_witness :
  exists w', scan_url Demo.env "bob" "example.com" (Demo.world []) = (Ok None, w') /\
    (w' = Demo.world [] \/ w' = set_faults (tail (faults (Demo.world []))) (Demo.world [])).
Proof.
  apply (refused_scan_leaves_no_trace Demo.env "bob" "example.com" (Demo.world [])).
  right. right. left. reflexivity.
Defined.

Lemma scan_url_footprint_witness :
  credit_transactions (snd (scan_url Demo.env "alice" "example.com" (Demo.world [])))
    = [] /\
  length (scans (snd (scan_url Demo.env "alice" "example.com" (Demo.world [])))) = 1%nat.
Proof.
  pose proof (scan_url_footprint Demo.env "alice" "example.com" (Demo.world []) _ _
                (surjective_pairing _)) as (Hl & _ & _ & _ & _ & _ & Hn).
  split; [exact Hl|].
  destruct Hn as [Hn|Hn]; [|exact Hn].
  exfalso. vm_compute in Hn. discriminate Hn.
Defined.

Lemma network_error_fails_scan_witness :
  exists w' t,
    scan_url Demo.env "alice" "http://down.example/" (Demo.world []) = (Ok None, w') /\
    marked_failed w' 0 "Failed to fetch page: HTTP 0" t.
Proof.
  destruct (network_error_fails_scan Demo.env "alice" "http://down.example/"
              "https://down.example/" "connection refused" (Demo.world [])
              Demo.profile eq_refl eq_refl) as [_ H].
  destruct (H eq_refl eq_refl ltac:(cbn; lia)) as (w' & t & Hs & Hm & _).
  exists w', t. split; [exact Hs|exact Hm].
Defined.

Lemma malformed_content_length_fails_scan_witness :
  exists msg w' t,
    fst (_fetch_page Cases.env "https://odd.example/" (Demo.world []))
      = Raise (ValueError msg) /\
    scan_url Cases.env "alice" "odd.example/" (Demo.world []) = (Ok None, w') /\
    marked_failed w' 0 msg t.
Proof.
  destruct (malformed_content_length_fails_scan Cases.env "alice" "odd.example/"
              "https://odd.example/" (Demo.world []) Demo.profile Cases.odd_page
              "12 bytes" eq_refl eq_refl eq_refl eq_refl eq_refl) as (msg & Hf & H).
  destruct (H eq_refl eq_refl ltac:(cbn; lia)) as (w' & t & Hs & Hm & _).
  exists msg, w', t. auto.
Defined.

Lemma empty_page_fails_scan_witness :
  header_get (headers Cases.empty_page) "content-length" = Some "0" /\
  exists w' t,
    scan_url Cases.env "alice" "empty.example/" (Demo.world []) = (Ok None, w') /\
    marked_failed w' 0 "Failed to fetch page: HTTP 200" t.
Proof.
  split; [reflexivity|].
  destruct (empty_page_fails_scan Cases.env "alice" "empty.example/"
              "https://empty.example/" (Demo.world []) Demo.profile Cases.empty_page
              eq_refl eq_refl eq_refl
              ltac:(intros cl [= <-] _; exists 0; reflexivity)
              eq_refl eq_refl ltac:(cbn; lia))
    as (w' & t & Hs & Hm & _).
  exists w', t. split; [exact Hs|exact Hm].
Defined.

Lemma scan_quota_enforced_witness :
  exists p',
    profiles (snd (scan_url Demo.env "alice" "example.com" (Demo.world [])))
      !! "alice" = Some p' /\
    monthly_scans_used p' = 4 /\ monthly_scan_limit p' = 50.
Proof.
  destruct (scan_quota_enforced Demo.env "alice" "example.com" (Demo.world [])
              Demo.profile 0
              (snd (scan_url Demo.env "alice" "example.com" (Demo.world []))))
    as (_ & p' & Hp' & Hused & Hlimit & _).
  - cbn. apply not_elem_of_nil.
  - reflexivity.
  - vm_compute. reflexivity.
  - exists p'. split; [exact Hp'|]. split; [exact Hused|exact Hlimit].
Defined.

(** ** The operations of [AIService] *)

Section AIFootprint.

Variable env : Env.

Lemma ai_operation_unfold {A : Type} (uid op : string) (sid : option nat)
    (prompt : string) (parse : string -> M A) :
  ai_operation env uid op sid prompt parse =
  (checked <- check_credits uid op ;;
   let '(has_credits, balance) := checked in
   if negb has_credits then ret None
   else try_except (ai_attempt env uid op sid prompt parse)
          (fun e => _log_ai_usage (failed_usage uid sid op e) ;; ret None)).
Proof. reflexivity. Qed.

(** [_log_ai_usage] returns, with the row added or, when the insert
    fails, with the log as it was. *)
Lemma log_ai_usage_cases (row : AiUsage) (w : World) (r : Result unit) (w' : World) :
  _log_ai_usage row w = (r, w') ->
  r = Ok tt /\
  (ai_usage w' = ai_usage w \/ ai_usage w' = ai_usage w ++ [row]) /\
  (hd false (faults w) = false -> ai_usage w' = ai_usage w ++ [row]) /\
  model_calls w' = model_calls w /\ credit_transactions w' = credit_transactions w /\
  profiles w' = profiles w.
Proof.
  unfold _log_ai_usage, try_except, insert_ai_usage, execute.
  destruct (hd false (faults w)); cbn; intros [= <- <-]; cbn; repeat split; auto.
  discriminate.
Qed.

Section Attempt.

Context {A : Type} (uid op : string) (sid : option nat) (prompt : string)
  (parse : string -> M A).
Hypothesis parse_profiles : forall s, preserves same_profiles (parse s).
Hypothesis parse_ledger : forall s, preserves same_ledger (parse s).
Hypothesis parse_usage : forall s, preserves same_ai_usage (parse s).
Hypothesis parse_calls : forall s, preserves same_model_calls (parse s).
Hypothesis parse_scans : forall s, preserves same_scans (parse s).

Ltac carry_by R tac E H :=
  match type of E with
  | ?m ?wi = (_, ?wj) =>
      let K := fresh "K" in
      assert (K : R wi wj)
        by (refine ((_ : preserves R m) _ _ _ E); first [solve [auto]|tac]);
      apply (fun k => eq_trans k H) in K; clear H; rename K into H
  end.

Ltac carry_mc E H := carry_by same_model_calls ltac:(frame_structure) E H.
Ltac carry_tx E H := carry_by same_ledger ltac:(frame_structure) E H.
Ltac carry_au E H := carry_by same_ai_usage ltac:(frame_more) E H.
Ltac carry_pr E H := carry_by same_profiles ltac:(frame_structure) E H.
Ltac carry E Hmc Htx Hau Hpr :=
  carry_mc E Hmc; carry_tx E Htx; carry_au E Hau; carry_pr E Hpr.

(** What the body of the [try] statement has done when it ends: the
    model was called, the ledger and the profiles are as they were, and
    the usage log has one more row only when the body returns. *)
Lemma ai_attempt_cases (w0 : World) (rb : Result (option A)) (w1 : World) :
  ai_attempt env uid op sid prompt parse w0 = (rb, w1) ->
  model_calls w1 = model_calls w0 ++ [prompt] /\
  credit_transactions w1 = credit_transactions w0 /\
  (ai_usage w1 = ai_usage w0 \/
   exists x a, rb = Ok a /\ ai_usage w1 = ai_usage w0 ++ [x]) /\
  profiles w1 = profiles w0 /\
  (forall a, rb = Ok a ->
     exists response wi parsed wj,
       generate_content env prompt = Ok response /\
       parse response wi = (Ok parsed, wj) /\ a = Some parsed).
Proof.
  intros H. unfold ai_attempt in H.
  assert (Hmc : model_calls w0 = model_calls w0) by reflexivity.
  assert (Htx : credit_transactions w0 = credit_transactions w0) by reflexivity.
  assert (Hau : ai_usage w0 = ai_usage w0) by reflexivity.
  assert (Hpr : profiles w0 = profiles w0) by reflexivity.
  (* start_time *)
  apply bind_inv in H as [(e & E & _)|(start & wa & E & H)]; [discriminate E|].
  carry E Hmc Htx Hau Hpr. clear E.
  (* the model *)
  apply bind_inv in H as [(e & E & ->)|(response & wb & E & H)].
  { assert (Hmc' : model_calls w1 = model_calls wa ++ [prompt])
      by (unfold model_generate in E; injection E as _ <-; reflexivity).
    rewrite Hmc in Hmc'. clear Hmc.
    carry_tx E Htx. carry_au E Hau. carry_pr E Hpr.
    split; [exact Hmc'|]. split; [exact Htx|]. split; [left; exact Hau|].
    split; [exact Hpr|discriminate]. }
  assert (Hgen : generate_content env prompt = Ok response)
    by (unfold model_generate in E; injection E as E _; exact E).
  assert (Hmc' : model_calls wb = model_calls wa ++ [prompt])
    by (unfold model_generate in E; injection E as _ <-; reflexivity).
  rewrite Hmc in Hmc'. clear Hmc. rename Hmc' into Hmc.
  carry_tx E Htx. carry_au E Hau. carry_pr E Hpr. clear E.
  (* end_time *)
  apply bind_inv in H as [(e & E & _)|(finish & wc & E & H)]; [discriminate E|].
  carry E Hmc Htx Hau Hpr. clear E.
  (* the answer is parsed *)
  apply bind_inv in H as [(e & E & ->)|(parsed & wd & E & H)].
  { carry E Hmc Htx Hau Hpr.
    split; [exact Hmc|]. split; [exact Htx|]. split; [left; exact Hau|].
    split; [exact Hpr|discriminate]. }
  pose proof E as Hparsed. carry E Hmc Htx Hau Hpr. clear E.
  (* the tokens *)
  apply bind_inv in H as [(e & E & ->)|(total & we & E & H)].
  { carry E Hmc Htx Hau Hpr.
    split; [exact Hmc|]. split; [exact Htx|]. split; [left; exact Hau|].
    split; [exact Hpr|discriminate]. }
  carry E Hmc Htx Hau Hpr. clear E.
  (* the cost *)
  apply bind_inv in H as [(e & E & ->)|(cost & wf & E & H)].
  { carry E Hmc Htx Hau Hpr.
    split; [exact Hmc|]. split; [exact Htx|]. split; [left; exact Hau|].
    split; [exact Hpr|discriminate]. }
  carry E Hmc Htx Hau Hpr. clear E.
  (* the deduction, which returns [False] and is not looked at *)
  apply bind_inv in H as [(e & E & ->)|(deducted & wg & E & H)];
    rewrite deduct_credits_returns_false in E; [discriminate E|].
  injection E as <- <-.
  (* the two conversions *)
  apply bind_inv in H as [(e & E & ->)|(input & wh & E & H)].
  { carry E Hmc Htx Hau Hpr.
    split; [exact Hmc|]. split; [exact Htx|]. split; [left; exact Hau|].
    split; [exact Hpr|discriminate]. }
  carry E Hmc Htx Hau Hpr. clear E.
  apply bind_inv in H as [(e & E & ->)|(output & wi & E & H)].
  { carry E Hmc Htx Hau Hpr.
    split; [exact Hmc|]. split; [exact Htx|]. split; [left; exact Hau|].
    split; [exact Hpr|discriminate]. }
  carry E Hmc Htx Hau Hpr. clear E.
  (* the usage log *)
  apply bind_inv in H as [(e & E & ->)|(logged & wj & E & H)].
  { apply log_ai_usage_cases in E as ([=] & _). }
  injection H as <- <-.
  apply log_ai_usage_cases in E as (_ & Hlog & _ & Hmc2 & Htx2 & Hpr2).
  rewrite Hmc in Hmc2. rewrite Htx in Htx2. rewrite Hpr in Hpr2.
  split; [exact Hmc2|]. split; [exact Htx2|]. split.
  - rewrite Hau in Hlog. destruct Hlog as [Hlog|Hlog]; [left; exact Hlog|].
    right. eauto.
  - split; [exact Hpr2|]. intros a [= <-]. eauto 8.
Qed.

(** What an operation has done when it ends. *)
Lemma ai_operation_summary (w : World) (r : Result (option A)) (w' : World) :
  ai_operation env uid op sid prompt parse w = (r, w') ->
  (exists o, r = Ok o) /\
  at_most_one_more (model_calls w) (model_calls w') /\
  credit_transactions w' = credit_transactions w /\
  at_most_one_more (ai_usage w) (ai_usage w') /\
  profiles w' = profiles w.
Proof.
  rewrite ai_operation_unfold. intros H.
  apply bind_inv in H as [(e & Hc & _)|([has bal] & w0 & Hc & H)];
    [destruct (total_handler_never_raises _ _ _ _ _ Hc)|].
  assert (Hmc : same_model_calls w w0)
    by (refine ((_ : preserves same_model_calls (check_credits uid op)) _ _ _ Hc);
        frame_structure).
  assert (Htx : same_ledger w w0)
    by (refine ((_ : preserves same_ledger (check_credits uid op)) _ _ _ Hc);
        frame_structure).
  assert (Hau : same_ai_usage w w0)
    by (refine ((_ : preserves same_ai_usage (check_credits uid op)) _ _ _ Hc);
        frame_more).
  assert (Hpr : same_profiles w w0)
    by (refine ((_ : preserves same_profiles (check_credits uid op)) _ _ _ Hc);
        frame_structure).
  unfold same_model_calls, same_ledger, same_ai_usage, same_profiles in *.
  rewrite <- Hmc, <- Htx, <- Hau, <- Hpr. clear Hc Hmc Htx Hau Hpr.
  destruct has; cbn [negb] in H.
  2:{ injection H as <- <-. split; [eauto|].
      split; [left; reflexivity|]. split; [reflexivity|].
      split; [left; reflexivity|reflexivity]. }
  apply try_except_inv in H as [(a & Hb & ->)|(e & w1 & Hb & Hh)].
  - apply ai_attempt_cases in Hb as (Hmc & Htx & Hau & Hpr & _).
    split; [eauto|]. split; [right; eexists; exact Hmc|]. split; [exact Htx|].
    split; [|exact Hpr].
    destruct Hau as [Hau|(x & a' & _ & Hau)]; [left; exact Hau|right; eauto].
  - apply ai_attempt_cases in Hb as (Hmc & Htx & Hau & Hpr & _).
    destruct Hau as [Hau|(x & a' & [=] & _)].
    apply bind_inv in Hh as [(e' & El & _)|(u & w2 & El & Hh)];
      [apply log_ai_usage_cases in El as ([=] & _)|].
    injection Hh as <- <-.
    apply log_ai_usage_cases in El as (_ & Hlog & _ & Hmc2 & Htx2 & Hpr2).
    split; [eauto|]. rewrite Hmc2, Htx2, Hpr2.
    split; [right; eexists; exact Hmc|]. split; [exact Htx|].
    split; [|exact Hpr].
    rewrite Hau in Hlog. destruct Hlog as [Hlog|Hlog]; [left; exact Hlog|].
    right. eauto.
Qed.

(** The gate in front of an operation: below the cost nothing is asked of
    the model, and a result comes from a balance that covered the cost. *)
Lemma ai_operation_gate (cost : Z) (w : World) (r : Result (option A))
    (w' : World) :
  costs_get CREDIT_COSTS op = Some cost ->
  ai_operation env uid op sid prompt parse w = (r, w') ->
  (forall b, balance_of w uid = Some b -> b < cost ->
     r = Ok None /\ model_calls w' = model_calls w) /\
  (forall a, r = Ok (Some a) ->
     exists b, balance_of w uid = Some b /\ cost <= b).
Proof.
  intros Hcost H. unfold ai_operation in H.
  apply bind_inv in H as [(e & Hc & _)|([has bal] & w0 & Hc & H)];
    [destruct (total_handler_never_raises _ _ _ _ _ Hc)|].
  apply check_credits_cases in Hc as (_ & Hm0 & _ & has' & bal' & [= <- <-] & Hyes & _).
  rewrite Hcost in Hyes. cbn in Hyes. unfold balance_of.
  destruct has; cbn [negb] in H.
  - destruct (Hyes eq_refl) as (p & Hp & Hle). rewrite Hp. split.
    + intros b [= <-] Hlt. lia.
    + intros a _. exists (credits_balance p). auto.
  - injection H as <- <-. split; [auto|discriminate].
Qed.

(** An operation leaves the scans alone and changes no profile but in the
    credit columns of its user. *)
Lemma ai_operation_frames (w : World) (r : Result (option A)) (w' : World) :
  ai_operation env uid op sid prompt parse w = (r, w') ->
  scans w' = scans w /\
  (forall u, without_credits <$> profiles w' !! u
             = without_credits <$> profiles w !! u) /\
  (forall u, u <> uid -> profiles w' !! u = profiles w !! u).
Proof.
  intros H.
  assert (Hparse : forall s, preserves (same_view without_credits uid) (parse s)).
  { intros s wi ri wj E. pose proof (parse_profiles s wi ri wj E) as Hp.
    unfold same_profiles in Hp. intros u. rewrite Hp. auto. }
  split; [exact ((ltac:(unfold ai_operation; frame_structure;
                         first [solve [auto]|frame_primitive_more])
                  : preserves same_scans (ai_operation env uid op sid prompt parse))
                   _ _ _ H)|].
  pose proof ((ltac:(unfold ai_operation; frame_structure;
                     first [solve [auto]|frame_primitive_more])
                : preserves (same_view without_credits uid)
                    (ai_operation env uid op sid prompt parse)) _ _ _ H) as Hv.
  split; intros u; [exact (proj1 (Hv u))|exact (proj2 (Hv u))].
Qed.

End Attempt.

Ltac parse_frames :=
  intros ?; first [apply preserves_ret; typeclasses eauto|frame_more].

(** X19. The three operations of [AIService] never raise: whatever the
    model, the parsing or the database do, each of them returns. *)
Theorem ai_operations_never_raise (uid : string) (w : World) :
  (forall sid data tier, exists o w',
      generate_seo_audit env uid sid data tier w = (Ok o, w')) /\
  (forall kw industry audience, exists o w',
      generate_keyword_research env uid kw industry audience w = (Ok o, w')) /\
  (forall sid metrics goals, exists o w',
      generate_seo_roadmap env uid sid metrics goals w = (Ok o, w')).
Proof.
  split; [|split].
  - intros sid data tier.
    destruct (generate_seo_audit env uid sid data tier w) as [r w'] eqn:E.
    rewrite generate_seo_audit_shape in E.
    eapply ai_operation_summary in E as [[o ->] _]; [eauto|parse_frames..].
  - intros kw industry audience.
    destruct (generate_keyword_research env uid kw industry audience w) as [r w'] eqn:E.
    rewrite generate_keyword_research_shape in E.
    eapply ai_operation_summary in E as [[o ->] _]; [eauto|parse_frames..].
  - intros sid metrics goals.
    destruct (generate_seo_roadmap env uid sid metrics goals w) as [r w'] eqn:E.
    rewrite generate_seo_roadmap_shape in E.
    eapply ai_operation_summary in E as [[o ->] _]; [eauto|parse_frames..].
Qed.

Lemma ai_operation_footprint {A : Type} (uid op : string) (sid : option nat)
    (prompt : string) (parse : string -> M A) (w : World)
    (r : Result (option A)) (w' : World) :
  (forall s, preserves same_profiles (parse s)) ->
  (forall s, preserves same_ledger (parse s)) ->
  (forall s, preserves same_ai_usage (parse s)) ->
  (forall s, preserves same_model_calls (parse s)) ->
  (forall s, preserves same_scans (parse s)) ->
  ai_operation env uid op sid prompt parse w = (r, w') ->
  ai_footprint uid w r w'.
Proof.
  intros H1 H2 H3 H4 H5 H.
  pose proof H as Hs. eapply ai_operation_summary in Hs as (_ & Hmc & Htx & Hau & _);
    [|assumption..].
  eapply ai_operation_frames in H as (Hsc & Hv & Ho); [|assumption..].
  unfold ai_footprint. split; [exact Hmc|]. split; [left; exact Htx|]. auto.
Qed.

(** X20. An operation of [AIService] calls the model at most once, adds
    at most one row to the credit ledger and at most one to the usage log,
    leaves the scans table alone, and changes no profile but in the two
    credit columns of its user. *)
Theorem ai_operations_footprint (uid : string) (w : World) :
  (forall sid data tier r w',
      generate_seo_audit env uid sid data tier w = (r, w') ->
      ai_footprint uid w r w') /\
  (forall kw industry audience r w',
      generate_keyword_research env uid kw industry audience w = (r, w') ->
      ai_footprint uid w r w') /\
  (forall sid metrics goals r w',
      generate_seo_roadmap env uid sid metrics goals w = (r, w') ->
      ai_footprint uid w r w').
Proof.
  split; [|split].
  - intros sid data tier r w' H. rewrite generate_seo_audit_shape in H.
    eapply ai_operation_footprint in H; [exact H|parse_frames..].
  - intros kw industry audience r w' H. rewrite generate_keyword_research_shape in H.
    eapply ai_operation_footprint in H; [exact H|parse_frames..].
  - intros sid metrics goals r w' H. rewrite generate_seo_roadmap_shape in H.
    eapply ai_operation_footprint in H; [exact H|parse_frames..].
Qed.

Lemma ai_operation_balance {A : Type} (uid op : string) (sid : option nat)
    (prompt : string) (parse : string -> M A) (cost : Z) (w : World) (b : Z)
    (r : Result (option A)) (w' : World) :
  (forall s, preserves same_profiles (parse s)) ->
  (forall s, preserves same_ledger (parse s)) ->
  (forall s, preserves same_ai_usage (parse s)) ->
  (forall s, preserves same_model_calls (parse s)) ->
  costs_get CREDIT_COSTS op = Some cost ->
  balance_of w uid = Some b ->
  ai_operation env uid op sid prompt parse w = (r, w') ->
  balance_safe cost uid b w'.
Proof.
  intros H1 H2 H3 H4 Hcost Hb H.
  eapply ai_operation_summary in H as (_ & _ & _ & _ & Hpr); [|assumption..].
  unfold balance_safe, balance_of in *. left. rewrite Hpr. exact Hb.
Qed.

(** X21. Whatever an operation of [AIService] returns, and whichever
    request to the database fails, the balance of its user is afterwards
    what it was, or what it was less the cost of the operation, and then
    the balance covered the cost: a balance that is not negative stays so
    and never grows. *)
Theorem ai_operations_balance_safe (uid : string) (w : World) (b : Z) :
  balance_of w uid = Some b ->
  (forall sid data tier r w',
      generate_seo_audit env uid sid data tier w = (r, w') ->
      balance_safe 100 uid b w') /\
  (forall kw industry audience r w',
      generate_keyword_research env uid kw industry audience w = (r, w') ->
      balance_safe 50 uid b w') /\
  (forall sid metrics goals r w',
      generate_seo_roadmap env uid sid metrics goals w = (r, w') ->
      balance_safe 120 uid b w') /\
  (forall cost w', balance_safe cost uid b w' -> 0 <= cost -> 0 <= b ->
     exists b', balance_of w' uid = Some b' /\ 0 <= b' <= b).
Proof.
  intros Hb. split; [|split; [|split]].
  - intros sid data tier r w' H. rewrite generate_seo_audit_shape in H.
    eapply ai_operation_balance in H; [exact H|parse_frames..|reflexivity|exact Hb].
  - intros kw industry audience r w' H. rewrite generate_keyword_research_shape in H.
    eapply ai_operation_balance in H; [exact H|parse_frames..|reflexivity|exact Hb].
  - intros sid metrics goals r w' H. rewrite generate_seo_roadmap_shape in H.
    eapply ai_operation_balance in H; [exact H|parse_frames..|reflexivity|exact Hb].
  - intros cost w' [Hs|[Hle Hs]] Hc Hnn; eexists; (split; [exact Hs|lia]).
Qed.

Lemma ai_operation_model_fails {A : Type} (uid op : string) (sid : option nat)
    (prompt : string) (parse : string -> M A) (cost : Z) (w : World)
    (p : Profile) (e : exn) :
  faults w = [] -> profiles w !! uid = Some p ->
  costs_get CREDIT_COSTS op = Some cost -> cost <= credits_balance p ->
  generate_content env prompt = Raise e ->
  model_failure uid op sid prompt e w (ai_operation env uid op sid prompt parse w).
Proof.
  intros Hf Hp Hcost Hle Hgen.
  destruct w as [pr sc tx au fl ck mc st]. cbn in Hf, Hp. subst fl.
  unfold model_failure, ai_operation.
  unfold bind at 1. unfold check_credits, try_except, bind, select_profile, execute.
  cbn -[costs_get]. rewrite Hp. cbn -[costs_get]. rewrite Hcost. cbn -[costs_get].
  rewrite (proj2 (Z.leb_le _ _) Hle). cbn -[costs_get].
  unfold model_generate. rewrite Hgen. cbn -[costs_get]. repeat split.
Qed.

(** X22. When the model raises, the operation returns [None] and charges
    nothing: on a reachable database, for a user whose balance covers the
    cost, the call of the model is on record, the profiles and the ledger
    are as they were, and the usage log has one more row, which records
    the failed attempt with the message of the exception. *)
Theorem model_failure_charges_nothing (uid : string) (w : World) (p : Profile)
    (e : exn) :
  faults w = [] -> profiles w !! uid = Some p ->
  (forall sid data tier,
      100 <= credits_balance p ->
      generate_content env (audit_prompt env data tier) = Raise e ->
      model_failure uid "seo_audit" (Some sid) (audit_prompt env data tier) e w
        (generate_seo_audit env uid sid data tier w)) /\
  (forall kw industry audience,
      50 <= credits_balance p ->
      generate_content env (keyword_prompt env kw industry audience) = Raise e ->
      model_failure uid "keyword_research" None
        (keyword_prompt env kw industry audience) e w
        (generate_keyword_research env uid kw industry audience w)) /\
  (forall sid metrics goals,
      120 <= credits_balance p ->
      generate_content env (roadmap_prompt env metrics goals) = Raise e ->
      model_failure uid "roadmap" (Some sid) (roadmap_prompt env metrics goals) e w
        (generate_seo_roadmap env uid sid metrics goals w)).
Proof.
  intros Hf Hp. split; [|split].
  - intros sid data tier Hle Hgen. rewrite generate_seo_audit_shape.
    apply (ai_operation_model_fails uid "seo_audit" _ _ _ 100 w p e Hf Hp eq_refl Hle Hgen).
  - intros kw industry audience Hle Hgen. rewrite generate_keyword_research_shape.
    apply (ai_operation_model_fails uid "keyword_research" _ _ _ 50 w p e Hf Hp eq_refl Hle Hgen).
  - intros sid metrics goals Hle Hgen. rewrite generate_seo_roadmap_shape.
    apply (ai_operation_model_fails uid "roadmap" _ _ _ 120 w p e Hf Hp eq_refl Hle Hgen).
Qed.

Lemma ai_operation_result {A : Type} (uid op : string) (sid : option nat)
    (prompt : string) (parse : string -> M A) (w : World) (a : A) (w' : World) :
  (forall s, preserves same_profiles (parse s)) ->
  (forall s, preserves same_ledger (parse s)) ->
  (forall s, preserves same_ai_usage (parse s)) ->
  (forall s, preserves same_model_calls (parse s)) ->
  ai_operation env uid op sid prompt parse w = (Ok (Some a), w') ->
  exists response wi wj,
    generate_content env prompt = Ok response /\
    parse response wi = (Ok a, wj).
Proof.
  intros H1 H2 H3 H4. rewrite ai_operation_unfold. intros H.
  apply bind_inv in H as [(e & _ & [=])|([has bal] & w0 & _ & H)].
  destruct has; cbn [negb] in H; [|discriminate H].
  apply try_except_inv in H as [(o & Hb & [= <-])|(e & w1 & _ & Hh)].
  - eapply ai_attempt_cases in Hb as (_ & _ & _ & _ & Hres); [|assumption..].
    destruct (Hres _ eq_refl) as (response & wi & parsed & wj & Hgen & Hp & [= <-]).
    eauto.
  - apply bind_inv in Hh as [(e' & _ & [=])|(u & w2 & _ & [=])].
Qed.

(** X23. What an operation returns is the parse of what the model
    answered: the audit and the roadmap carry the answer as their full
    text, with its sections; the keyword research is the answer read as
    JSON, or, for an answer that is not JSON, the record of the parse
    error, which is returned like any other result and, like any other
    result, leaves the balance of the user as it was. *)
Theorem ai_results_parse_the_answer (uid : string) (w w' : World) :
  (forall sid data tier report,
      generate_seo_audit env uid sid data tier w = (Ok (Some report), w') ->
      exists response,
        generate_content env (audit_prompt env data tier) = Ok response /\
        full_text report = response /\
        sections report = parse_sections (Py.split_lines response) [] None []) /\
  (forall kw industry audience d,
      generate_keyword_research env uid kw industry audience w = (Ok (Some d), w') ->
      exists response,
        generate_content env (keyword_prompt env kw industry audience) = Ok response /\
        d = _extract_json_from_response env response /\
        match d with
        | JsonValue t => json_valid env t = true
        | JsonParseError _ => True
        end /\
        forall b, balance_of w uid = Some b -> balance_of w' uid = Some b) /\
  (forall sid metrics goals report,
      generate_seo_roadmap env uid sid metrics goals w = (Ok (Some report), w') ->
      exists response,
        generate_content env (roadmap_prompt env metrics goals) = Ok response /\
        full_text report = response /\
        sections report = parse_sections (Py.split_lines response) [] None []).
Proof.
  assert (Hreport : forall response wi report wj,
            _parse_audit_response response wi = (Ok report, wj) ->
            full_text report = response /\
            sections report = parse_sections (Py.split_lines response) [] None []).
  { intros response wi report wj H. unfold _parse_audit_response, bind, now, ret in H.
    injection H as <- _. auto. }
  split; [|split].
  - intros sid data tier report H. rewrite generate_seo_audit_shape in H.
    eapply ai_operation_result in H as (response & wi & wj & Hgen & Hp);
      [|parse_frames..].
    exists response. split; [exact Hgen|]. exact (Hreport _ _ _ _ Hp).
  - intros kw industry audience d H. rewrite generate_keyword_research_shape in H.
    pose proof H as Hres.
    eapply ai_operation_result in Hres as (response & wi & wj & Hgen & Hp);
      [|parse_frames..].
    injection Hp as <- _.
    exists response. split; [exact Hgen|]. split; [reflexivity|]. split.
    + unfold _extract_json_from_response. cbv zeta.
      destruct (json_valid env _) eqn:Hv; [exact Hv|exact I].
    + intros b Hb.
      eapply ai_operation_summary in H as (_ & _ & _ & _ & Hpr); [|parse_frames..].
      unfold balance_of. rewrite Hpr. exact Hb.
  - intros sid metrics goals report H. rewrite generate_seo_roadmap_shape in H.
    eapply ai_operation_result in H as (response & wi & wj & Hgen & Hp);
      [|parse_frames..].
    exists response. split; [exact Hgen|]. exact (Hreport _ _ _ _ Hp).
Qed.

Lemma ai_operation_never_charged {A : Type} (uid op : string) (sid : option nat)
    (prompt : string) (parse : string -> M A) (cost : Z) (w : World)
    (r : Result (option A)) (w' : World) :
  (forall s, preserves same_profiles (parse s)) ->
  (forall s, preserves same_ledger (parse s)) ->
  (forall s, preserves same_ai_usage (parse s)) ->
  (forall s, preserves same_model_calls (parse s)) ->
  costs_get CREDIT_COSTS op = Some cost ->
  ai_operation env uid op sid prompt parse w = (r, w') ->
  never_charged cost uid w r w'.
Proof.
  intros H1 H2 H3 H4 Hcost H.
  destruct (ai_operation_gate uid op sid prompt parse cost w r w' Hcost H)
    as [Hlow Hres].
  eapply ai_operation_summary in H as (_ & _ & Htx & _ & Hpr); [|assumption..].
  unfold never_charged. auto.
Qed.

(** X30. No operation of [AIService] charges its user: whatever it
    returns and whatever the database does, every profile and the credit
    ledger are afterwards what they were.  The check in front of the
    operation holds all the same: with a balance below the cost, which is
    100, 50 and 120, the operation returns [None] and the model is not
    called, and a result is only returned to a user whose balance covered
    the cost. *)
Theorem ai_operations_never_charge (uid : string) (w : World) :
  map (costs_get CREDIT_COSTS) ["seo_audit"; "keyword_research"; "roadmap"]
    = [Some 100; Some 50; Some 120] /\
  (forall sid data tier r w',
      generate_seo_audit env uid sid data tier w = (r, w') ->
      never_charged 100 uid w r w') /\
  (forall kw industry audience r w',
      generate_keyword_research env uid kw industry audience w = (r, w') ->
      never_charged 50 uid w r w') /\
  (forall sid metrics goals r w',
      generate_seo_roadmap env uid sid metrics goals w = (r, w') ->
      never_charged 120 uid w r w').
Proof.
  split; [reflexivity|]. split; [|split].
  - intros sid data tier r w' H. rewrite generate_seo_audit_shape in H.
    eapply ai_operation_never_charged in H; [exact H|parse_frames..|reflexivity].
  - intros kw industry audience r w' H. rewrite generate_keyword_research_shape in H.
    eapply ai_operation_never_charged in H; [exact H|parse_frames..|reflexivity].
  - intros sid metrics goals r w' H. rewrite generate_seo_roadmap_shape in H.
    eapply ai_operation_never_charged in H; [exact H|parse_frames..|reflexivity].
Qed.

End AIFootprint.

Lemma ai_operations_footprint_witness :
  ai_footprint "alice" (Demo.world [])
    (fst (generate_seo_audit Demo.env "alice" 0 [] "pro" (Demo.world [])))
    (snd (generate_seo_audit Demo.env "alice" 0 [] "pro" (Demo.world []))).
Proof.
  exact (proj1 (ai_operations_footprint Demo.env "alice" (Demo.world []))
           0%nat [] "pro" _ _ (surjective_pairing _)).
Defined.

Lemma ai_operations_balance_safe_witness :
  balance_safe 50 "alice" 500
    (snd (generate_keyword_research Demo.env "alice" "seo" "web" "all"
            (Demo.world [false; true]))).
Proof.
  exact (proj1 (proj2 (ai_operations_balance_safe Demo.env "alice"
                         (Demo.world [false; true]) 500 eq_refl))
           "seo" "web" "all" _ _ (surjective_pairing _)).
Defined.

Lemma model_failure_charges_nothing_witness :
  model_failure "alice" "seo_audit" (Some 0%nat) "audit"
    (ValueError "model unavailable") (Demo.world [])
    (generate_seo_audit Cases.env "alice" 0 [] "pro" (Demo.world [])).
Proof.
  exact (proj1 (model_failure_charges_nothing Cases.env "alice" (Demo.world [])
                  Demo.profile (ValueError "model unavailable") eq_refl eq_refl)
           0%nat [] "pro" ltac:(cbn; lia) eq_refl).
Defined.

Lemma ai_results_parse_the_answer_witness :
  exists response w',
    generate_keyword_research Cases.env "alice" "seo" "web" "all" (Demo.world [])
      = (Ok (Some (JsonParseError response)), w') /\
    balance_of w' "alice" = Some 500.
Proof.
  destruct (generate_keyword_research Cases.env "alice" "seo" "web" "all"
              (Demo.world [])) as [r w'] eqn:E.
  assert (Hr : r = Ok (Some (JsonParseError "not json")))
    by (apply (f_equal fst) in E; vm_compute in E; congruence).
  subst r.
  destruct (proj1 (proj2 (ai_results_parse_the_answer Cases.env "alice"
                            (Demo.world []) w'))
              "seo" "web" "all" _ E) as (response & _ & _ & _ & Hb).
  exists "not json", w'. split; [reflexivity|].
  exact (Hb 500 eq_refl).
Defined.

(** ** The answers of the model *)

Lemma dict_set_keys (d : list (string * string)) (key value : string) :
  NoDup (map fst d) -> key <> "" -> Forall (fun kv => fst kv <> "") d ->
  NoDup (map fst (dict_set d key value)) /\
  Forall (fun kv => fst kv <> "") (dict_set d key value) /\
  forall k, k ∈ map fst (dict_set d key value) <-> k = key \/ k ∈ map fst d.
Proof.
  intros Hnd Hkey Hne. induction d as [|[k v] d IH]; cbn [dict_set].
  - cbn [map fst].
    split; [apply NoDup_singleton|].
    split; [apply List.Forall_cons; [exact Hkey|apply List.Forall_nil]|].
    intros k. rewrite elem_of_cons. reflexivity.
  - cbn [map fst] in Hnd. apply NoDup_cons in Hnd as [Hk Hnd].
    apply Forall_cons in Hne as [Hk0 Hne].
    destruct (String.eqb_spec k key) as [->|Hneq].
    + split; [cbn [map fst]; apply NoDup_cons; auto|].
      split; [apply List.Forall_cons; assumption|].
      intros k'. cbn [map fst]. rewrite elem_of_cons. tauto.
    + destruct (IH Hnd Hne) as (IH1 & IH2 & IH3).
      split; [|split].
      * cbn [map fst]. apply NoDup_cons. split; [|exact IH1].
        rewrite IH3. intros [Heq|Hin]; [exact (Hneq Heq)|exact (Hk Hin)].
      * apply List.Forall_cons; [exact Hk0|exact IH2].
      * intros k'. cbn [map fst]. rewrite !elem_of_cons, IH3. tauto.
Qed.

(** The sections keep distinct names that are not empty. *)
Lemma parse_sections_keys (lines : list string) (sections : list (string * string))
    (current : option string) (content : list string) :
  NoDup (map fst sections) -> Forall (fun kv => fst kv <> "") sections ->
  NoDup (map fst (parse_sections lines sections current content)) /\
  Forall (fun kv => fst kv <> "") (parse_sections lines sections current content).
Proof.
  revert sections current content.
  assert (Hstore : forall sections current content,
            NoDup (map fst sections) -> Forall (fun kv => fst kv <> "") sections ->
            let s := match current with
                     | Some name =>
                         if Py.truthy name
                         then dict_set sections name
                                (Py.join (String Py.LF "") content)
                         else sections
                     | None => sections
                     end in
            NoDup (map fst s) /\ Forall (fun kv => fst kv <> "") s).
  { intros sections [name|] content Hnd Hne; cbv zeta; [|auto].
    destruct (Py.truthy name) eqn:Ht; [|auto].
    destruct (dict_set_keys sections name (Py.join (String Py.LF "") content) Hnd
                (truthy_nonempty _ Ht) Hne) as (? & ? & _). auto. }
  induction lines as [|line lines IH]; intros sections current content Hnd Hne.
  - exact (Hstore sections current content Hnd Hne).
  - cbn [parse_sections]. destruct (Py.startswith "## " line).
    + destruct (Hstore sections current content Hnd Hne) as [H1 H2].
      apply IH; assumption.
    + apply IH; assumption.
Qed.

(** Without a header line there is no section. *)
Lemma parse_sections_no_header (lines : list string) (content : list string) :
  Forall (fun line => Py.startswith "## " line = false) lines ->
  parse_sections lines [] None content = [].
Proof.
  intros H. revert content. induction H as [|line lines Hline _ IH]; intros content.
  - reflexivity.
  - cbn [parse_sections]. rewrite Hline. apply IH.
Qed.

(** X24. [_parse_audit_response] returns, with the answer as the full
    text and the time of the clock, and leaves the world as it was.  The
    names of the sections are distinct and none is empty; and an answer
    without a line that starts with "## " has no section at all. *)
Theorem parse_audit_response_sections (response : string) (w : World) :
  exists report, _parse_audit_response response w = (Ok report, w) /\
    full_text report = response /\ generated_at report = clock w /\
    NoDup (map fst (sections report)) /\
    Forall (fun kv => fst kv <> "") (sections report) /\
    (Forall (fun line => Py.startswith "## " line = false) (Py.split_lines response) ->
     sections report = []).
Proof.
  eexists. split; [reflexivity|]. cbn [full_text generated_at sections].
  split; [reflexivity|]. split; [reflexivity|].
  destruct (parse_sections_keys (Py.split_lines response) [] None []
              (NoDup_nil_2 (A := string)) (@List.Forall_nil _ _)) as [H1 H2].
  split; [exact H1|]. split; [exact H2|].
  apply parse_sections_no_header.
Qed.

(** *** Strings *)

Lemma append_assoc (a b c : string) : (a +:+ b) +:+ c = a +:+ (b +:+ c).
Proof.
  induction a as [|x a IH]; [reflexivity|].
  change (String x ((a +:+ b) +:+ c) = String x (a +:+ (b +:+ c))). f_equal. exact IH.
Qed.

Lemma append_nil_r (a : string) : a +:+ "" = a.
Proof.
  induction a as [|x a IH]; [reflexivity|].
  change (String x (a +:+ "") = String x a). f_equal. exact IH.
Qed.

Lemma rev_go_spec (acc s : string) : Py.rev_go acc s = Py.rev_go "" s +:+ acc.
Proof.
  revert acc. induction s as [|c s IH]; intros acc; [reflexivity|].
  cbn [Py.rev_go]. rewrite (IH (String c acc)), (IH (String c "")).
  rewrite append_assoc. reflexivity.
Qed.

Lemma rev_app (a b : string) : Py.rev (a +:+ b) = Py.rev b +:+ Py.rev a.
Proof.
  unfold Py.rev. induction a as [|c a IH].
  - change ("" +:+ b) with b. rewrite append_nil_r. reflexivity.
  - change (String c a +:+ b) with (String c (a +:+ b)). cbn [Py.rev_go].
    rewrite (rev_go_spec (String c "") (a +:+ b)), (rev_go_spec (String c "") a).
    rewrite IH, append_assoc. reflexivity.
Qed.

Lemma rev_involutive (s : string) : Py.rev (Py.rev s) = s.
Proof.
  induction s as [|c s IH]; [reflexivity|].
  change (String c s) with (String c "" +:+ s) at 1.
  rewrite rev_app, rev_app, IH. reflexivity.
Qed.

Lemma startswith_app (p s : string) : Py.startswith p (p +:+ s) = true.
Proof.
  induction p as [|c p IH]; [reflexivity|].
  change (String c p +:+ s) with (String c (p +:+ s)). cbn [Py.startswith].
  rewrite Ascii.eqb_refl. exact IH.
Qed.

Lemma drop_app (p s : string) : Py.drop (String.length p) (p +:+ s) = s.
Proof.
  induction p as [|c p IH]; [reflexivity|].
  change (String c p +:+ s) with (String c (p +:+ s)). exact IH.
Qed.

(** A suffix that [rstrip] leaves something of protects what precedes it. *)
Lemma rstrip_app_kept (sp : ascii -> bool) (a b : string) :
  Py.is_empty (Py.rstrip_by sp b) = false ->
  Py.rstrip_by sp (a +:+ b) = a +:+ Py.rstrip_by sp b.
Proof.
  intros Hb. induction a as [|c a IH]; [reflexivity|].
  change (String c a +:+ b) with (String c (a +:+ b)). cbn [Py.rstrip_by].
  rewrite IH.
  assert (He : Py.is_empty (a +:+ Py.rstrip_by sp b) = false).
  { destruct a; [exact Hb|reflexivity]. }
  rewrite He, andb_false_r. reflexivity.
Qed.

(** A trailing space is stripped. *)
Lemma rstrip_app_space (sp : ascii -> bool) (a : string) (c : ascii) :
  sp c = true -> Py.rstrip_by sp (a +:+ String c "") = Py.rstrip_by sp a.
Proof.
  intros Hc. induction a as [|x a IH].
  - change ("" +:+ String c "") with (String c "").
    cbn [Py.rstrip_by Py.is_empty]. rewrite Hc. reflexivity.
  - change (String x a +:+ String c "") with (String x (a +:+ String c "")).
    cbn [Py.rstrip_by]. rewrite IH. reflexivity.
Qed.

(** A line feed on each side does not change what [strip] returns. *)
Lemma strip_between_line_feeds (body : string) :
  Py.strip (String Py.LF (body +:+ String Py.LF "")) = Py.strip body.
Proof.
  unfold Py.strip. cbn [Py.lstrip_by].
  change (Py.isspace Py.LF) with true. cbv iota.
  induction body as [|c body IH]; [reflexivity|].
  change (String c body +:+ String Py.LF "") with (String c (body +:+ String Py.LF "")).
  cbn [Py.lstrip_by]. destruct (Py.isspace c); [exact IH|].
  change (String c (body +:+ String Py.LF "")) with (String c body +:+ String Py.LF "").
  apply rstrip_app_space. reflexivity.
Qed.

Section Fences.

Variable env : Env.

Lemma fenced_tail (body : string) :
  let rest := String Py.LF (body +:+ String Py.LF "```") in
  Py.startswith "```" rest = false /\
  Py.endswith "```" rest = true /\
  Py.drop_end 3 rest = String Py.LF (body +:+ String Py.LF "").
Proof.
  cbv zeta.
  assert (E : String Py.LF (body +:+ String Py.LF "```")
              = String Py.LF (body +:+ String Py.LF "") +:+ "```").
  { change (String Py.LF (body +:+ String Py.LF "") +:+ "```")
      with (String Py.LF ((body +:+ String Py.LF "") +:+ "```")).
    rewrite append_assoc. reflexivity. }
  split; [reflexivity|]. rewrite E. split.
  - unfold Py.endswith. rewrite rev_app. apply startswith_app.
  - unfold Py.drop_end. rewrite rev_app.
    change 3%nat with (String.length (Py.rev "```")).
    rewrite drop_app. apply rev_involutive.
Qed.

Lemma fenced_stripped (tag body : string) :
  Py.strip (fenced tag body) = fenced tag body.
Proof.
  unfold Py.strip, fenced.
  change (Py.lstrip_by Py.isspace ("```" +:+ tag +:+ String Py.LF (body +:+ String Py.LF "```")))
    with ("```" +:+ tag +:+ String Py.LF (body +:+ String Py.LF "```")).
  assert (E : "```" +:+ tag +:+ String Py.LF (body +:+ String Py.LF "```")
              = ("```" +:+ tag +:+ String Py.LF (body +:+ String Py.LF "")) +:+ "```").
  { rewrite !append_assoc.
    change (String Py.LF (body +:+ String Py.LF "") +:+ "```")
      with (String Py.LF ((body +:+ String Py.LF "") +:+ "```")).
    rewrite append_assoc. reflexivity. }
  rewrite E. rewrite rstrip_app_kept; reflexivity.
Qed.

(** X25. Markdown code fences are transparent to
    [_extract_json_from_response]: an answer wrapped in a fence, with the
    tag json or without a tag, is read as the text inside the fence,
    stripped; when [json.loads] accepts that text, it is the value
    returned. *)
Theorem json_fences_are_transparent (body : string) :
  json_valid env (Py.strip body) = true ->
  _extract_json_from_response env (fenced "json" body) = JsonValue (Py.strip body) /\
  _extract_json_from_response env (fenced "" body) = JsonValue (Py.strip body).
Proof.
  intros Hvalid.
  destruct (fenced_tail body) as (Hstart & Hend & Hdrop).
  split; unfold _extract_json_from_response; cbv zeta; rewrite fenced_stripped.
  - change (Py.startswith "```json" (fenced "json" body)) with true. cbv iota.
    change (Py.drop 7 (fenced "json" body))
      with (String Py.LF (body +:+ String Py.LF "```")).
    rewrite Hstart, Hend, Hdrop, strip_between_line_feeds, Hvalid. reflexivity.
  - change (Py.startswith "```json" (fenced "" body)) with false. cbv iota.
    change (Py.startswith "```" (fenced "" body)) with true. cbv iota.
    change (Py.drop 3 (fenced "" body))
      with (String Py.LF (body +:+ String Py.LF "```")).
    rewrite Hend, Hdrop, strip_between_line_feeds, Hvalid. reflexivity.
Qed.

End Fences.

Lemma json_fences_are_transparent_witness :
  _extract_json_from_response Demo.env
    (fenced "json" (String "{" (String "}" (String " " ""))))
  = JsonValue (String "{" (String "}" "")).
Proof.
  exact (proj1 (json_fences_are_transparent Demo.env
                  (String "{" (String "}" (String " " ""))) eq_refl)).
Defined.

(** ** The grade of [SmartSEOScanner] *)

Lemma smart_grade_table :
  Smart.table2 smart_grade_ok Smart.score_values Smart.score_values = true.
Proof. vm_compute. reflexivity. Qed.

(** X26. In [SmartSEOScanner] the grade is taken from the overall score
    before it is rounded, and the score is shown rounded to one decimal;
    for every page the two agree: the grade is the grade of the score that
    is shown. *)
Theorem smart_grade_matches_overall (d : Smart.ScrapedData) :
  let o := Smart._calculate_overall_score (Smart._analyze_technical d)
             (Smart._analyze_content d) in
  Smart.grade o = Smart._get_grade (Smart.overall o) /\
  Smart.technical o = Smart._analyze_technical d /\
  Smart.content o = Smart._analyze_content d.
Proof.
  cbv zeta. split; [|split; reflexivity].
  pose proof (smart_table_forall _ _ _ smart_grade_table
                (Smart._analyze_technical d) (Smart._analyze_content d)
                (smart_score_values_intro _ (smart_technical_range d))
                (smart_score_values_intro _ (smart_content_range d))) as H.
  unfold smart_grade_ok in H. cbv zeta in H. apply String.eqb_eq in H. exact H.
Qed.

(** ** The messages of [SmartSEOScanner] *)

(** Decide on [b] where the goal still depends on it. *)
Ltac case_if_present b :=
  match goal with
  | |- context [b] => destruct b; cbn [negb andb]
  | _ => idtac
  end.

Lemma if_sub (c : bool) (s a : Z) :
  (if c then s - a else s) = s - (if c then a else 0).
Proof. destruct c; lia. Qed.

Lemma if_sub2 (c c' : bool) (s a b : Z) :
  (if c then s - a else if c' then s - b else s)
  = s - (if c then a else if c' then b else 0).
Proof. destruct c, c'; lia. Qed.

Lemma if_sub3 (c c' c'' : bool) (s a b b' : Z) :
  (if c then s - a else if c' then s - b else if c'' then s - b' else s)
  = s - (if c then a else if c' then b else if c'' then b' else 0).
Proof. destruct c, c', c''; lia. Qed.

(** The two scores of [SmartSEOScanner] as 100 less the deductions. *)
Lemma smart_technical_sum (d : Smart.ScrapedData) :
  Smart._analyze_technical d =
  Z.max 0
    (100
     - (if negb (Smart.https d) then 15 else 0)
     - (if 3000 <? Smart.load_time d then 10
        else if 1500 <? Smart.load_time d then 5 else 0)
     - (if (3000 <? Smart.page_size d)%float then 10
        else if (1500 <? Smart.page_size d)%float then 5 else 0)
     - (if negb (Smart.mobile_friendly d) then 15 else 0)
     - (if negb (Smart.has_canonical d) then 5 else 0)
     - (if negb (Smart.has_schema d) then 5 else 0)
     - (if (0 <? Smart.images_without_alt d)%nat
        then Z.min (Z.of_nat (Smart.images_without_alt d) * 2) 10 else 0)).
Proof.
  unfold Smart._analyze_technical. cbv zeta.
  rewrite !if_sub2, !if_sub. reflexivity.
Qed.

Lemma smart_content_sum (d : Smart.ScrapedData) :
  Smart._analyze_content d =
  Z.max 0
    (100
     - (if negb (Py.truthy (Smart.title d)) then 20
        else if (Smart.title_length d <? 30)%nat then 5
        else if (70 <? Smart.title_length d)%nat then 5 else 0)
     - (if negb (Py.truthy (Smart.description d)) then 15
        else if (Smart.description_length d <? 120)%nat then 5
        else if (170 <? Smart.description_length d)%nat then 5 else 0)
     - (if (Smart.h1_count d =? 0)%nat then 15
        else if (1 <? Smart.h1_count d)%nat then 5 else 0)
     - (if (Smart.word_count d <? 300)%nat then 10 else 0)
     - (if (Smart.images_total d =? 0)%nat then 5 else 0)
     - (if (Smart.internal_links d =? 0)%nat then 5 else 0)).
Proof.
  unfold Smart._analyze_content. cbv zeta.
  rewrite !if_sub3, !if_sub2, !if_sub. reflexivity.
Qed.

(** X29. In both analyses of [SmartSEOScanner] the score and the messages
    agree: the score is 100 exactly when there is no issue and no warning;
    the technical score loses at least 10 points for every issue and 2 for
    every warning, the content score at least 15 for every issue and 5 for
    every warning. *)
Theorem smart_scores_match_messages (float_str : float -> string)
    (d : Smart.ScrapedData) :
  let t := SmartMessages._analyze_technical float_str d in
  let c := SmartMessages._analyze_content d in
  SmartMessages.score t = Smart._analyze_technical d /\
  SmartMessages.score c = Smart._analyze_content d /\
  (SmartMessages.score t = 100 <->
   SmartMessages.issues t = [] /\ SmartMessages.warnings t = []) /\
  (SmartMessages.score c = 100 <->
   SmartMessages.issues c = [] /\ SmartMessages.warnings c = []) /\
  SmartMessages.score t
    <= 100 - 10 * Z.of_nat (length (SmartMessages.issues t))
       - 2 * Z.of_nat (length (SmartMessages.warnings t)) /\
  SmartMessages.score c
    <= 100 - 15 * Z.of_nat (length (SmartMessages.issues c))
       - 5 * Z.of_nat (length (SmartMessages.warnings c)).
Proof.
  cbv zeta. split; [reflexivity|]. split; [reflexivity|].
  rewrite <- !length_zero_iff_nil.
  unfold SmartMessages._analyze_technical, SmartMessages._analyze_content.
  cbv zeta. cbn [SmartMessages.score SmartMessages.issues SmartMessages.warnings].
  rewrite !length_append_if. cbn [length].
  rewrite smart_technical_sum, smart_content_sum.
  match goal with
  | |- ?At /\ ?Ac /\ ?Bt /\ ?Bc =>
      assert (Ht : At /\ Bt); [|assert (Hc : Ac /\ Bc); [|tauto]]
  end.
  - case_if_present (Smart.https d);
    case_if_present (3000 <? Smart.load_time d);
    case_if_present (1500 <? Smart.load_time d);
    case_if_present (3000 <? Smart.page_size d)%float;
    case_if_present (1500 <? Smart.page_size d)%float;
    case_if_present (Smart.mobile_friendly d);
    case_if_present (Smart.has_canonical d);
    case_if_present (Smart.has_schema d);
    destruct (Nat.ltb_spec 0 (Smart.images_without_alt d)); lia.
  - case_if_present (Py.truthy (Smart.title d));
    case_if_present (Smart.title_length d <? 30)%nat;
    case_if_present (70 <? Smart.title_length d)%nat;
    case_if_present (Py.truthy (Smart.description d));
    case_if_present (Smart.description_length d <? 120)%nat;
    case_if_present (170 <? Smart.description_length d)%nat;
    case_if_present (Smart.h1_count d =? 0)%nat;
    case_if_present (1 <? Smart.h1_count d)%nat;
    case_if_present (Smart.word_count d <? 300)%nat;
    case_if_present (Smart.images_total d =? 0)%nat;
    case_if_present (Smart.internal_links d =? 0)%nat; lia.
Qed.
